(** * Lock-and-mint bridge and its relayer: a shallow embedding

    The development follows the repository file by file:
    - [ERC20Mock]               contracts/mocks/ERC20Mock.sol
    - [BridgeSourceChain]       contracts/BridgeSourceChain.sol
    - [BridgeDestinationChain]  contracts/BridgeDestinationChain.sol
    - [Relayer]                 scripts/relayer.ts (deployment and the two listeners)

    Solidity storage is explicit state; a reverting call is the [Revert]
    branch of [result] and leaves the caller's world as it was.  [uint256]
    values are integers with the checked or wrapping arithmetic written out
    where the compiler (0.8.28) inserts it. *)

From Stdlib Require Import ZArith String List Lia.
From stdpp Require Import gmap.
Import ListNotations.

Local Open Scope Z_scope.

(** ** Machine types *)

Abbreviation address := Z (only parsing).
Abbreviation uint256 := Z (only parsing).

Definition MAX_UINT256 : uint256 := 2 ^ 256 - 1.
Definition address0 : address := 0.

(** [unchecked { ... }] arithmetic on [uint256]. *)
Definition wrap256 (x : Z) : uint256 := x mod 2 ^ 256.

(** ** Reverts *)

Inductive RevertReason :=
| ErrorMsg (reason : string)
| Panic (code : Z)
| OwnableUnauthorizedAccount (account : address)
| OwnableInvalidOwner (owner : address)
| ERC20InsufficientBalance (sender : address) (balance needed : uint256)
| ERC20InvalidSender (sender : address)
| ERC20InvalidReceiver (receiver : address)
| ERC20InsufficientAllowance (spender : address) (allowance needed : uint256)
| ERC20InvalidApprover (approver : address)
| ERC20InvalidSpender (spender : address)
| NoContractFunction (target : address).

Inductive result (A : Type) :=
| Ok (a : A)
| Revert (e : RevertReason).
Arguments Ok {A} a.
Arguments Revert {A} e.

Definition bind {A B} (r : result A) (k : A -> result B) : result B :=
  match r with
  | Ok a => k a
  | Revert e => Revert e
  end.

Notation "x <- r ;; k" := (bind r (fun x => k))
  (at level 100, r at next level, right associativity).

Definition is_ok {A} (r : result A) : bool :=
  match r with Ok _ => true | Revert _ => false end.

(** [require(cond, reason)] *)
Definition require (cond : bool) (reason : string) : result unit :=
  if cond then Ok tt else Revert (ErrorMsg reason).

(** ** Event logs *)

Inductive Event :=
| Transfer (from to : address) (value : uint256)
| Approval (owner spender : address) (value : uint256)
| OwnershipTransferred (previousOwner newOwner : address)
| TokenLocked (user : address) (amount : uint256) (destination : address)
| TokenBurned (user : address) (amount : uint256) (destination : address).

(** ** OpenZeppelin [Ownable] (imported by all three contracts)

    The base contract is a dependency and not part of the repository; it is
    embedded from the behaviour of the 5.x release that the constructor form
    [Ownable(msg.sender)] selects: a single [_owner] slot, [onlyOwner]
    reverting with [OwnableUnauthorizedAccount]. *)
Module Ownable.

Definition _checkOwner (_owner msg_sender : address) : result unit :=
  if decide (_owner = msg_sender) then Ok tt
  else Revert (OwnableUnauthorizedAccount msg_sender).

(** Both return the new owner and the event they emit. *)
Definition renounceOwnership (_owner msg_sender : address)
  : result (address * Event) :=
  _ <- _checkOwner _owner msg_sender ;;
  Ok (address0, OwnershipTransferred _owner address0).

Definition transferOwnership (_owner msg_sender newOwner : address)
  : result (address * Event) :=
  _ <- _checkOwner _owner msg_sender ;;
  if decide (newOwner = address0) then Revert (OwnableInvalidOwner address0)
  else Ok (newOwner, OwnershipTransferred _owner newOwner).

End Ownable.

(** ** contracts/mocks/ERC20Mock.sol

    [ERC20Mock is ERC20, Ownable].  The two functions the file itself
    declares are [mint] and [burnFrom]; [_mint], [_burn], [transfer],
    [approve] and [transferFrom] are inherited from OpenZeppelin's ERC20 and
    embedded from that library's 5.x behaviour. *)
Module ERC20Mock.

Record state := mk {
  _name : string;
  _symbol : string;
  _balances : gmap address uint256;
  _allowances : gmap (address * address) uint256;
  _totalSupply : uint256;
  _owner : address;
  events : list Event
}.

Definition balanceOf (t : state) (account : address) : uint256 :=
  default 0 (_balances t !! account).

Definition allowance (t : state) (owner spender : address) : uint256 :=
  default 0 (_allowances t !! (owner, spender)).

Definition set_balance (account : address) (v : uint256) (t : state)
  : state :=
  mk (_name t) (_symbol t) (<[account := v]> (_balances t)) (_allowances t)
     (_totalSupply t) (_owner t) (events t).

Definition set_allowance (owner spender : address) (v : uint256) (t : state)
  : state :=
  mk (_name t) (_symbol t) (_balances t)
     (<[(owner, spender) := v]> (_allowances t))
     (_totalSupply t) (_owner t) (events t).

Definition set_totalSupply (v : uint256) (t : state) : state :=
  mk (_name t) (_symbol t) (_balances t) (_allowances t) v (_owner t)
     (events t).

Definition set_owner (o : address) (t : state) : state :=
  mk (_name t) (_symbol t) (_balances t) (_allowances t) (_totalSupply t) o
     (events t).

Definition emit (e : Event) (t : state) : state :=
  mk (_name t) (_symbol t) (_balances t) (_allowances t) (_totalSupply t)
     (_owner t) (events t ++ [e]).

(** [constructor(name, symbol) ERC20(name, symbol) Ownable(msg.sender)];
    [Ownable] rejects a zero initial owner, which [msg.sender] never is. *)
Definition constructor (msg_sender : address) (name symbol : string)
  : state :=
  mk name symbol ∅ ∅ 0 msg_sender [OwnershipTransferred address0 msg_sender].

(** ERC20._update: the supply increase is checked, everything else is
    [unchecked]. *)
Definition _update (from to : address) (value : uint256) (t : state)
  : result state :=
  t1 <- (if decide (from = address0) then
           if decide (_totalSupply t + value <= MAX_UINT256)
           then Ok (set_totalSupply (_totalSupply t + value) t)
           else Revert (Panic 17)
         else
           let fromBalance := balanceOf t from in
           if decide (fromBalance < value)
           then Revert (ERC20InsufficientBalance from fromBalance value)
           else Ok (set_balance from (fromBalance - value) t)) ;;
  let t2 :=
    if decide (to = address0)
    then set_totalSupply (wrap256 (_totalSupply t1 - value)) t1
    else set_balance to (wrap256 (balanceOf t1 to + value)) t1 in
  Ok (emit (Transfer from to value) t2).

Definition _transfer (from to : address) (value : uint256) (t : state)
  : result state :=
  if decide (from = address0) then Revert (ERC20InvalidSender address0)
  else if decide (to = address0) then Revert (ERC20InvalidReceiver address0)
  else _update from to value t.

Definition _mint (account : address) (value : uint256) (t : state)
  : result state :=
  if decide (account = address0) then Revert (ERC20InvalidReceiver address0)
  else _update address0 account value t.

Definition _burn (account : address) (value : uint256) (t : state)
  : result state :=
  if decide (account = address0) then Revert (ERC20InvalidSender address0)
  else _update account address0 value t.

Definition _approve (owner spender : address) (value : uint256)
    (emitEvent : bool) (t : state) : result state :=
  if decide (owner = address0) then Revert (ERC20InvalidApprover address0)
  else if decide (spender = address0)
  then Revert (ERC20InvalidSpender address0)
  else
    let t1 := set_allowance owner spender value t in
    Ok (if emitEvent then emit (Approval owner spender value) t1 else t1).

Definition _spendAllowance (owner spender : address) (value : uint256)
    (t : state) : result state :=
  let currentAllowance := allowance t owner spender in
  if decide (currentAllowance < MAX_UINT256) then
    if decide (currentAllowance < value)
    then Revert (ERC20InsufficientAllowance spender currentAllowance value)
    else _approve owner spender (currentAllowance - value) false t
  else Ok t.

(** *** External functions; [msg_sender] is the caller. *)

Definition transfer (msg_sender to : address) (value : uint256) (t : state)
  : result state :=
  _transfer msg_sender to value t.

Definition approve (msg_sender spender : address) (value : uint256)
    (t : state) : result state :=
  _approve msg_sender spender value true t.

Definition transferFrom (msg_sender from to : address) (value : uint256)
    (t : state) : result state :=
  t1 <- _spendAllowance from msg_sender value t ;;
  _transfer from to value t1.

(** [function mint(address to, uint256 amount) public onlyOwner] *)
Definition mint (msg_sender to : address) (amount : uint256) (t : state)
  : result state :=
  _ <- Ownable._checkOwner (_owner t) msg_sender ;;
  _mint to amount t.

(** [function burnFrom(address from, uint256 amount) public onlyOwner] *)
Definition burnFrom (msg_sender from : address) (amount : uint256)
    (t : state) : result state :=
  _ <- Ownable._checkOwner (_owner t) msg_sender ;;
  _burn from amount t.

Definition transferOwnership (msg_sender newOwner : address) (t : state)
  : result state :=
  r <- Ownable.transferOwnership (_owner t) msg_sender newOwner ;;
  Ok (emit (snd r) (set_owner (fst r) t)).

Definition renounceOwnership (msg_sender : address) (t : state)
  : result state :=
  r <- Ownable.renounceOwnership (_owner t) msg_sender ;;
  Ok (emit (snd r) (set_owner (fst r) t)).

(** The external, state-changing interface of the token as transactions. *)
Inductive Call :=
| Mint (to : address) (amount : uint256)
| BurnFrom (from : address) (amount : uint256)
| TransferTo (to : address) (value : uint256)
| Approve (spender : address) (value : uint256)
| TransferFrom (from to : address) (value : uint256)
| TransferOwnership (newOwner : address)
| RenounceOwnership.

Definition dispatch (msg_sender : address) (c : Call) (t : state)
  : result state :=
  match c with
  | Mint to amount => mint msg_sender to amount t
  | BurnFrom from amount => burnFrom msg_sender from amount t
  | TransferTo to value => transfer msg_sender to value t
  | Approve spender value => approve msg_sender spender value t
  | TransferFrom from to value => transferFrom msg_sender from to value t
  | TransferOwnership newOwner => transferOwnership msg_sender newOwner t
  | RenounceOwnership => renounceOwnership msg_sender t
  end.

End ERC20Mock.

(** ** Storage of the two bridges *)

Module BridgeSourceChainStorage.
Record state := mk {
  token : address;    (* address public immutable token *)
  relayer : address;  (* address public relayer *)
  _owner : address;   (* Ownable *)
  events : list Event
}.
End BridgeSourceChainStorage.

Module BridgeDestinationChainStorage.
Record state := mk {
  wrappedToken : address; (* address public immutable wrappedToken *)
  relayer : address;      (* address public relayer *)
  _owner : address;       (* Ownable *)
  events : list Event
}.
End BridgeDestinationChainStorage.

(** ** The deployed system

    [Addresses] is the object relayer.ts writes to deployed-addresses.json;
    [World] is the storage of the four contracts living at those addresses. *)

Record Addresses := mkAddresses {
  addr_sourceToken : address;
  addr_wrappedToken : address;
  addr_sourceBridge : address;
  addr_destBridge : address
}.

Record World := mkWorld {
  addresses : Addresses;
  sourceToken : ERC20Mock.state;
  wrappedToken : ERC20Mock.state;
  sourceBridge : BridgeSourceChainStorage.state;
  destBridge : BridgeDestinationChainStorage.state
}.

Definition set_sourceToken (t : ERC20Mock.state) (w : World) : World :=
  mkWorld (addresses w) t (wrappedToken w) (sourceBridge w) (destBridge w).

Definition set_wrappedToken (t : ERC20Mock.state) (w : World) : World :=
  mkWorld (addresses w) (sourceToken w) t (sourceBridge w) (destBridge w).

Definition set_sourceBridge (b : BridgeSourceChainStorage.state) (w : World)
  : World :=
  mkWorld (addresses w) (sourceToken w) (wrappedToken w) b (destBridge w).

Definition set_destBridge (b : BridgeDestinationChainStorage.state) (w : World)
  : World :=
  mkWorld (addresses w) (sourceToken w) (wrappedToken w) (sourceBridge w) b.

(** An external call [IERC20(target).f(...)] made by a contract: it runs [f]
    on the token deployed at [target] and reverts when [target] is not one
    of the two token contracts. *)
Definition callToken (target : address)
    (f : ERC20Mock.state -> result ERC20Mock.state) (w : World)
  : result World :=
  if decide (target = addr_sourceToken (addresses w)) then
    t <- f (sourceToken w) ;; Ok (set_sourceToken t w)
  else if decide (target = addr_wrappedToken (addresses w)) then
    t <- f (wrappedToken w) ;; Ok (set_wrappedToken t w)
  else Revert (NoContractFunction target).

(** ** contracts/BridgeSourceChain.sol *)
Module BridgeSourceChain.
Import BridgeSourceChainStorage.

Definition constructor (msg_sender tokenAddress relayerAddress : address)
  : state :=
  mk tokenAddress relayerAddress msg_sender
     [OwnershipTransferred address0 msg_sender].

Definition emit (e : Event) (w : World) : World :=
  let s := sourceBridge w in
  set_sourceBridge (mk (token s) (relayer s) (_owner s) (events s ++ [e])) w.

Definition onlyRelayer (msg_sender : address) (w : World) : result unit :=
  require (bool_decide (msg_sender = relayer (sourceBridge w)))
          "BridgeSource: Caller is not the relayer".

Definition setRelayer (msg_sender newRelayer : address) (w : World)
  : result World :=
  let s := sourceBridge w in
  _ <- Ownable._checkOwner (_owner s) msg_sender ;;
  Ok (set_sourceBridge (mk (token s) newRelayer (_owner s) (events s)) w).

Definition lock (msg_sender : address) (amount : uint256)
    (destination : address) (w : World) : result World :=
  let this := addr_sourceBridge (addresses w) in
  _ <- require (bool_decide (amount > 0))
               "BridgeSource: Amount must be greater than 0" ;;
  w1 <- callToken (token (sourceBridge w))
                  (ERC20Mock.transferFrom this msg_sender this amount) w ;;
  Ok (emit (TokenLocked msg_sender amount destination) w1).

Definition release (msg_sender user : address) (amount : uint256) (w : World)
  : result World :=
  let this := addr_sourceBridge (addresses w) in
  _ <- onlyRelayer msg_sender w ;;
  _ <- require (bool_decide (amount > 0))
               "BridgeSource: Amount must be greater than 0" ;;
  callToken (token (sourceBridge w)) (ERC20Mock.transfer this user amount) w.

Definition transferOwnership (msg_sender newOwner : address) (w : World)
  : result World :=
  let s := sourceBridge w in
  r <- Ownable.transferOwnership (_owner s) msg_sender newOwner ;;
  Ok (emit (snd r)
        (set_sourceBridge (mk (token s) (relayer s) (fst r) (events s)) w)).

Definition renounceOwnership (msg_sender : address) (w : World)
  : result World :=
  let s := sourceBridge w in
  r <- Ownable.renounceOwnership (_owner s) msg_sender ;;
  Ok (emit (snd r)
        (set_sourceBridge (mk (token s) (relayer s) (fst r) (events s)) w)).

End BridgeSourceChain.

(** ** contracts/BridgeDestinationChain.sol *)
Module BridgeDestinationChain.
Import BridgeDestinationChainStorage.

Definition constructor
    (msg_sender wrappedTokenAddress relayerAddress : address) : state :=
  mk wrappedTokenAddress relayerAddress msg_sender
     [OwnershipTransferred address0 msg_sender].

Definition emit (e : Event) (w : World) : World :=
  let s := destBridge w in
  set_destBridge
    (mk (wrappedToken s) (relayer s) (_owner s) (events s ++ [e])) w.

Definition onlyRelayer (msg_sender : address) (w : World) : result unit :=
  require (bool_decide (msg_sender = relayer (destBridge w)))
          "BridgeDest: Caller is not the relayer".

Definition setRelayer (msg_sender newRelayer : address) (w : World)
  : result World :=
  let s := destBridge w in
  _ <- Ownable._checkOwner (_owner s) msg_sender ;;
  Ok (set_destBridge (mk (wrappedToken s) newRelayer (_owner s) (events s)) w).

Definition mintWrapped (msg_sender user : address) (amount : uint256)
    (w : World) : result World :=
  let this := addr_destBridge (addresses w) in
  _ <- onlyRelayer msg_sender w ;;
  _ <- require (bool_decide (amount > 0))
               "BridgeDest: Amount must be greater than 0" ;;
  callToken (wrappedToken (destBridge w)) (ERC20Mock.mint this user amount) w.

Definition burn (msg_sender : address) (amount : uint256)
    (destination : address) (w : World) : result World :=
  let this := addr_destBridge (addresses w) in
  _ <- require (bool_decide (amount > 0))
               "BridgeDest: Amount must be greater than 0" ;;
  w1 <- callToken (wrappedToken (destBridge w))
                  (ERC20Mock.burnFrom this msg_sender amount) w ;;
  Ok (emit (TokenBurned msg_sender amount destination) w1).

Definition transferOwnership (msg_sender newOwner : address) (w : World)
  : result World :=
  let s := destBridge w in
  r <- Ownable.transferOwnership (_owner s) msg_sender newOwner ;;
  Ok (emit (snd r)
        (set_destBridge
           (mk (wrappedToken s) (relayer s) (fst r) (events s)) w)).

Definition renounceOwnership (msg_sender : address) (w : World)
  : result World :=
  let s := destBridge w in
  r <- Ownable.renounceOwnership (_owner s) msg_sender ;;
  Ok (emit (snd r)
        (set_destBridge
           (mk (wrappedToken s) (relayer s) (fst r) (events s)) w)).

End BridgeDestinationChain.

(** ** Transactions

    Every external function of the four contracts, as a transaction an
    account can send.  View functions change nothing and are left out. *)

Inductive TokenId := SourceToken | WrappedToken.

Inductive Call :=
| Token (tk : TokenId) (c : ERC20Mock.Call)
| Source_lock (amount : uint256) (destination : address)
| Source_release (user : address) (amount : uint256)
| Source_setRelayer (newRelayer : address)
| Source_transferOwnership (newOwner : address)
| Source_renounceOwnership
| Dest_mintWrapped (user : address) (amount : uint256)
| Dest_burn (amount : uint256) (destination : address)
| Dest_setRelayer (newRelayer : address)
| Dest_transferOwnership (newOwner : address)
| Dest_renounceOwnership.

Definition onToken (tk : TokenId)
    (f : ERC20Mock.state -> result ERC20Mock.state) (w : World)
  : result World :=
  match tk with
  | SourceToken => t <- f (sourceToken w) ;; Ok (set_sourceToken t w)
  | WrappedToken => t <- f (wrappedToken w) ;; Ok (set_wrappedToken t w)
  end.

Definition call (msg_sender : address) (c : Call) (w : World)
  : result World :=
  match c with
  | Token tk c => onToken tk (ERC20Mock.dispatch msg_sender c) w
  | Source_lock amount destination =>
      BridgeSourceChain.lock msg_sender amount destination w
  | Source_release user amount =>
      BridgeSourceChain.release msg_sender user amount w
  | Source_setRelayer newRelayer =>
      BridgeSourceChain.setRelayer msg_sender newRelayer w
  | Source_transferOwnership newOwner =>
      BridgeSourceChain.transferOwnership msg_sender newOwner w
  | Source_renounceOwnership => BridgeSourceChain.renounceOwnership msg_sender w
  | Dest_mintWrapped user amount =>
      BridgeDestinationChain.mintWrapped msg_sender user amount w
  | Dest_burn amount destination =>
      BridgeDestinationChain.burn msg_sender amount destination w
  | Dest_setRelayer newRelayer =>
      BridgeDestinationChain.setRelayer msg_sender newRelayer w
  | Dest_transferOwnership newOwner =>
      BridgeDestinationChain.transferOwnership msg_sender newOwner w
  | Dest_renounceOwnership => BridgeDestinationChain.renounceOwnership msg_sender w
  end.

(** The world after a transaction: a revert rolls every change back. *)
Definition exec (msg_sender : address) (c : Call) (w : World) : World :=
  match call msg_sender c w with
  | Ok w' => w'
  | Revert _ => w
  end.

(** A sequence of transactions, each with its sender. *)
Fixpoint run (txs : list (address * Call)) (w : World) : World :=
  match txs with
  | [] => w
  | (sender, c) :: rest => run rest (exec sender c w)
  end.

(** ** scripts/relayer.ts *)
Module Relayer.

(** What an ethers listener receives: the decoded [args] of the log and the
    position of the log on its chain. *)
Record ContractEventPayload := mkPayload {
  args : address * uint256 * address;  (* [user, amount, destination] *)
  blockNumber : Z;
  transactionHash : Z;
  logIndex : Z
}.

(** What a listener does to the outside: lines on the console and
    transactions signed by the relayer account. *)
Inductive Output :=
| console_log (line : string)
| console_log_value (label : string) (value : Z)
| console_error (line : string) (error : RevertReason)
| send (signer : address) (tx : Call).

Definition nl : string := String (Ascii.ascii_of_nat 10) EmptyString.

(** Step 2 of [main]: the four deployments, all signed by [owner], at the
    addresses [a] the chain assigns to them. *)
Definition contracts (owner relayer : address) (a : Addresses) : World :=
  let sourceToken := ERC20Mock.constructor owner "Source Token" "STK" in
  let wrappedToken := ERC20Mock.constructor owner "Wrapped Token" "WTK" in
  let sourceBridge :=
    BridgeSourceChain.constructor owner (addr_sourceToken a) relayer in
  let destBridge :=
    BridgeDestinationChain.constructor owner (addr_wrappedToken a) relayer in
  mkWorld a sourceToken wrappedToken sourceBridge destBridge.

(** ... followed by the hand-over of the wrapped token to the destination
    bridge; the script stops if that transaction fails. *)
Definition deploy (owner relayer : address) (a : Addresses)
  : result World :=
  call owner
       (Token WrappedToken (ERC20Mock.TransferOwnership (addr_destBridge a)))
       (contracts owner relayer a).

(** [sourceBridge.on(sourceBridge.filters.TokenLocked(), async (event) => ...)] *)
Definition onTokenLocked (relayer : address) (event : ContractEventPayload)
    (w : World) : World * list Output :=
  let '(user, amount, destination) := args event in
  let detected :=
    [ console_log (nl ++ "---")%string;
      console_log "[Source Chain] Detected TokenLocked event!";
      console_log_value "  > User: " user;
      console_log_value "  > Amount: " amount;
      console_log_value "  > Destination: " destination;
      console_log "[Destination Chain] Calling mintWrapped...";
      send relayer (Dest_mintWrapped destination amount) ] in
  match call relayer (Dest_mintWrapped destination amount) w with
  | Ok w' =>
      (w', (detected ++
            [ console_log "[Destination Chain] mintWrapped successful!";
              console_log "---" ])%list)
  | Revert error =>
      (w, (detected ++
           [ console_error "[Destination Chain] Error calling mintWrapped:" error;
             console_log "---" ])%list)
  end.

(** [destBridge.on(destBridge.filters.TokenBurned(), async (event) => ...)] *)
Definition onTokenBurned (relayer : address) (event : ContractEventPayload)
    (w : World) : World * list Output :=
  let '(user, amount, destination) := args event in
  let detected :=
    [ console_log (nl ++ "---")%string;
      console_log "[Destination Chain] Detected TokenBurned event!";
      console_log_value "  > User: " user;
      console_log_value "  > Amount: " amount;
      console_log_value "  > Destination: " destination;
      console_log "[Source Chain] Calling release...";
      send relayer (Source_release destination amount) ] in
  match call relayer (Source_release destination amount) w with
  | Ok w' =>
      (w', (detected ++
            [ console_log "[Source Chain] release successful!";
              console_log "---" ])%list)
  | Revert error =>
      (w, (detected ++
           [ console_error "[Source Chain] Error calling release:" error;
             console_log "---" ])%list)
  end.

(** One firing of a listener. *)
Inductive Delivery :=
| Locked (event : ContractEventPayload)
| Burned (event : ContractEventPayload).

Definition payload (d : Delivery) : ContractEventPayload :=
  match d with Locked e => e | Burned e => e end.

Definition react (relayer : address) (d : Delivery) (w : World)
  : World * list Output :=
  match d with
  | Locked event => onTokenLocked relayer event w
  | Burned event => onTokenBurned relayer event w
  end.

(** The listeners fired on a sequence of deliveries, one after the other
    (each firing sends a single transaction, so letting two firings overlap
    changes nothing but the order of the console lines). *)
Fixpoint relay (relayer : address) (ds : list Delivery) (w : World)
  : World * list Output :=
  match ds with
  | [] => (w, [])
  | d :: rest =>
      let '(w1, out1) := react relayer d w in
      let '(w2, out2) := relay relayer rest w1 in
      (w2, (out1 ++ out2)%list)
  end.

(** The transactions a listener run has signed and sent. *)
Definition sent (out : list Output) : list (address * Call) :=
  flat_map (fun o => match o with send s c => [(s, c)] | _ => [] end) out.

(** The filter of each subscription: which logs of the two bridges reach
    which listener, and with which [args]. *)
Definition subscription (e : Event) (blockNumber transactionHash logIndex : Z)
  : option Delivery :=
  match e with
  | TokenLocked user amount destination =>
      Some (Locked (mkPayload (user, amount, destination)
                              blockNumber transactionHash logIndex))
  | TokenBurned user amount destination =>
      Some (Burned (mkPayload (user, amount, destination)
                              blockNumber transactionHash logIndex))
  | _ => None
  end.

End Relayer.

(** ** Observables *)

Definition sum_list (l : list Z) : Z := fold_right Z.add 0 l.

(** Total amount minted by a token: the values of the [Transfer] events from
    the zero address in its log. *)
Definition minted_of (e : Event) : Z :=
  match e with
  | Transfer from _ value => if decide (from = address0) then value else 0
  | _ => 0
  end.

Definition minted_log (t : ERC20Mock.state) : Z :=
  sum_list (map minted_of (ERC20Mock.events t)).

Definition totalMinted (w : World) : Z := minted_log (wrappedToken w).

(** Total amount locked: the amounts of the source bridge's [TokenLocked]
    events. *)
Definition locked_of (e : Event) : Z :=
  match e with
  | TokenLocked _ amount _ => amount
  | _ => 0
  end.

Definition totalLocked (w : World) : Z :=
  sum_list (map locked_of (BridgeSourceChainStorage.events (sourceBridge w))).

(** The transaction a listener sends for a delivery. *)
Definition reaction (d : Relayer.Delivery) : Call :=
  match d with
  | Relayer.Locked e =>
      let '(_, amount, destination) := Relayer.args e in
      Dest_mintWrapped destination amount
  | Relayer.Burned e =>
      let '(_, amount, destination) := Relayer.args e in
      Source_release destination amount
  end.

(** The lines a listener prints when its transaction went through. *)
Definition is_success (o : Relayer.Output) : bool :=
  match o with
  | Relayer.console_log line =>
      String.eqb line "[Destination Chain] mintWrapped successful!"
      || String.eqb line "[Source Chain] release successful!"
  | _ => false
  end.

Definition successes (out : list Relayer.Output) : nat :=
  length (filter is_success out).

(** Number of blocks mined on top of the block of an event when its chain
    is at height [head]. *)
Definition confirmations (head : Z) (event : Relayer.ContractEventPayload) : Z :=
  head - Relayer.blockNumber event.

(** ** Predicates on worlds *)

(** Sum of all balances of a token. *)
Definition sum_balances (m : gmap Z Z) : Z :=
  map_fold (fun _ v acc => v + acc) 0 m.

(** The storage invariant of OpenZeppelin's ERC20: balances are unsigned and
    add up to the total supply, which fits in a [uint256]. *)
Definition ERC20_wf (t : ERC20Mock.state) : Prop :=
  map_Forall (fun _ v => 0 <= v) (ERC20Mock._balances t)
  /\ sum_balances (ERC20Mock._balances t) = ERC20Mock._totalSupply t
  /\ ERC20Mock._totalSupply t <= MAX_UINT256.

(** Arguments of type [uint256] are unsigned and at most [MAX_UINT256]. *)
Definition is_uint256 (x : Z) : Prop := 0 <= x <= MAX_UINT256.

Definition token_call_typed (c : ERC20Mock.Call) : Prop :=
  match c with
  | ERC20Mock.Mint _ v | ERC20Mock.BurnFrom _ v | ERC20Mock.TransferTo _ v
  | ERC20Mock.Approve _ v | ERC20Mock.TransferFrom _ _ v => is_uint256 v
  | _ => True
  end.

Definition call_typed (c : Call) : Prop :=
  match c with
  | Token _ c => token_call_typed c
  | Source_lock v _ | Source_release _ v
  | Dest_mintWrapped _ v | Dest_burn v _ => is_uint256 v
  | _ => True
  end.

Definition is_ownership (c : ERC20Mock.Call) : bool :=
  match c with
  | ERC20Mock.TransferOwnership _ | ERC20Mock.RenounceOwnership => true
  | _ => false
  end.

Definition is_token_call (c : Call) : bool :=
  match c with Token _ _ => true | _ => false end.

Definition is_mintWrapped (c : Call) : bool :=
  match c with Dest_mintWrapped _ _ => true | _ => false end.

(** The four contracts live at four different addresses, none of them the
    zero address. *)
Definition distinct_addresses (a : Addresses) : Prop :=
  NoDup [address0; addr_sourceToken a; addr_wrappedToken a;
         addr_sourceBridge a; addr_destBridge a].

(** An account that is not one of the contracts (nor the zero address). *)
Definition externally_owned (a : Addresses) (x : address) : Prop :=
  x <> address0 /\ x <> addr_sourceToken a /\ x <> addr_wrappedToken a
  /\ x <> addr_sourceBridge a /\ x <> addr_destBridge a.

(** The configuration relayer.ts leaves behind: each bridge points at its
    token, the destination bridge owns the wrapped token, and both bridges
    name the relayer signer. *)
Definition wired (relayer : address) (w : World) : Prop :=
  distinct_addresses (addresses w)
  /\ BridgeSourceChainStorage.token (sourceBridge w)
     = addr_sourceToken (addresses w)
  /\ BridgeDestinationChainStorage.wrappedToken (destBridge w)
     = addr_wrappedToken (addresses w)
  /\ ERC20Mock._owner (wrappedToken w) = addr_destBridge (addresses w)
  /\ BridgeSourceChainStorage.relayer (sourceBridge w) = relayer
  /\ BridgeDestinationChainStorage.relayer (destBridge w) = relayer.

(** All three predicates can be decided by computation. *)
#[global] Instance ERC20_wf_dec t : Decision (ERC20_wf t).
Proof. unfold ERC20_wf. apply _. Defined.

#[global] Instance externally_owned_dec a x : Decision (externally_owned a x).
Proof. unfold externally_owned. apply _. Defined.

#[global] Instance wired_dec relayer w : Decision (wired relayer w).
Proof. unfold wired, distinct_addresses. apply _. Defined.

(** ** The relay as a transition system

    Accounts send transactions; every [TokenLocked] and [TokenBurned] log a
    transaction leaves behind is queued for its listener; a listener fires
    on a queued log, which is then removed from the queue.  In [step] the
    destination bridge's [mintWrapped] is sent by the listener only. *)

Record System := mkSystem {
  world : World;
  inbox : list Event
}.

Definition subscribed (e : Event) : bool :=
  match e with
  | TokenLocked _ _ _ | TokenBurned _ _ _ => true
  | _ => false
  end.

Definition emitted (old new : list Event) : list Event :=
  drop (length old) new.

Definition newly_emitted (w w' : World) : list Event :=
  emitted (BridgeSourceChainStorage.events (sourceBridge w))
          (BridgeSourceChainStorage.events (sourceBridge w'))
  ++ emitted (BridgeDestinationChainStorage.events (destBridge w))
             (BridgeDestinationChainStorage.events (destBridge w')).

Inductive step (relayer : address) : System -> System -> Prop :=
| step_transaction s sender c w' :
    externally_owned (addresses (world s)) sender ->
    is_mintWrapped c = false ->
    call sender c (world s) = Ok w' ->
    step relayer s
      (mkSystem w' (inbox s ++ filter subscribed (newly_emitted (world s) w')))
| step_delivery s before e after blockNumber transactionHash logIndex d :
    inbox s = before ++ e :: after ->
    Relayer.subscription e blockNumber transactionHash logIndex = Some d ->
    step relayer s
      (mkSystem (fst (Relayer.react relayer d (world s))) (before ++ after)).

Inductive reachable (relayer : address) (w0 : World) : System -> Prop :=
| reachable_start : reachable relayer w0 (mkSystem w0 [])
| reachable_step s s' :
    reachable relayer w0 s -> step relayer s s' -> reachable relayer w0 s'.

(** What every state reached from a deployment satisfies: the contracts stay
    where they are, the destination bridge owns the wrapped token, the
    queued locks are of positive amounts, and what has been minted together
    with what is still queued never exceeds what has been locked. *)
Definition relay_invariant (a : Addresses) (s : System) : Prop :=
  addresses (world s) = a
  /\ ERC20Mock._owner (wrappedToken (world s)) = addr_destBridge a
  /\ Forall (fun e => 0 <= locked_of e) (inbox s)
  /\ totalMinted (world s) + sum_list (map locked_of (inbox s))
     <= totalLocked (world s).

(** ** The specification's wording, for comparison with the code *)

(** "submits the destination-chain call ([mint(user, amount)] for LockToMint,
    [release(user, amount)] for BurnToRelease)" *)
Definition spec_action (d : Relayer.Delivery) : Call :=
  match d with
  | Relayer.Locked e =>
      let '(user, amount, _) := Relayer.args e in Dest_mintWrapped user amount
  | Relayer.Burned e =>
      let '(user, amount, _) := Relayer.args e in Source_release user amount
  end.

(** "[Failed] becoming terminal only after a configured maximum retry
    count, at which point the Transfer moves to [DeadLettered]": the
    submissions and the final status of one transfer under that rule. *)
Inductive TransferStatus :=
| Observed | Dispatching | Confirmed | Failed | DeadLettered.

Fixpoint spec_dispatch (retriesLeft : nat) (relayer : address) (tx : Call)
    (w : World) : World * list (address * Call) * TransferStatus :=
  match call relayer tx w with
  | Ok w' => (w', [(relayer, tx)], Confirmed)
  | Revert _ =>
      match retriesLeft with
      | O => (w, [(relayer, tx)], DeadLettered)
      | S n =>
          let '(w', txs, status) := spec_dispatch n relayer tx w in
          (w', (relayer, tx) :: txs, status)
      end
  end.

(** "an event at depth < [confirmationDepth] is never handed to the state
    machine": a listener behind that gate, the chain being at height
    [head]. *)
Definition spec_gate (confirmationDepth head : Z) (relayer : address)
    (d : Relayer.Delivery) (w : World) : World * list Relayer.Output :=
  if decide (confirmations head (Relayer.payload d) < confirmationDepth)
  then (w, [])
  else Relayer.react relayer d w.

(** ** The demonstration run

    relayer.ts with signers 1 (owner), 2 (relayer) and 3 (user) and the four
    contracts at 101 to 104, followed by user-simulation.ts. *)

Definition demo_addresses : Addresses := mkAddresses 101 102 103 104.
Definition demo_owner : address := 1.
Definition demo_relayer : address := 2.
Definition demo_user : address := 3.
Definition demo_other : address := 5.

Definition demo_world : World :=
  exec demo_owner
       (Token WrappedToken
              (ERC20Mock.TransferOwnership (addr_destBridge demo_addresses)))
       (Relayer.contracts demo_owner demo_relayer demo_addresses).

(** Steps 4 and 5 of user-simulation.ts: the owner mints 100 source tokens
    for the user and the user approves the source bridge for them. *)
Definition demo_funded : World :=
  run [ (demo_owner, Token SourceToken (ERC20Mock.Mint demo_user 100));
        (demo_user, Token SourceToken
                      (ERC20Mock.Approve (addr_sourceBridge demo_addresses) 100)) ]
      demo_world.

(** Step 6: the user locks them. *)
Definition demo_locked : World :=
  exec demo_user (Source_lock 100 demo_user) demo_funded.

(** The log of that lock as the listener receives it. *)
Definition demo_lock_event : Relayer.ContractEventPayload :=
  Relayer.mkPayload (demo_user, 100, demo_user) 7 0 0.

(** The deployment once the listener has relayed the lock. *)
Definition demo_relayed : World :=
  fst (Relayer.onTokenLocked demo_relayer demo_lock_event demo_locked).

(** The user, now holding the 100 wrapped tokens of the relayed lock, is
    given 100 more source tokens and approves the source bridge for them. *)
Definition demo_funded_again : World :=
  run [ (demo_owner, Token SourceToken (ERC20Mock.Mint demo_user 100));
        (demo_user, Token SourceToken
                      (ERC20Mock.Approve (addr_sourceBridge demo_addresses) 100)) ]
      demo_relayed.

(** The deployment after the relayer minted 50 wrapped tokens for the user
    directly. *)
Definition demo_minted : World :=
  exec demo_relayer (Dest_mintWrapped demo_user 50) demo_world.

(** The deployment after the lock, with the destination bridge's relayer
    changed by the owner to an account that is not the relayer signer. *)
Definition demo_mismatch : World :=
  exec demo_owner (Dest_setRelayer 9) demo_locked.

(** A second user locks 100 as well, both locks are relayed, and the first
    user burns their 100 wrapped tokens: the source bridge holds 200 and one
    TokenBurned(user, 100, user) log is waiting for its listener. *)
Definition demo_burned : World :=
  exec demo_user (Dest_burn 100 demo_user)
    (fst (Relayer.relay demo_relayer
            [ Relayer.Locked demo_lock_event;
              Relayer.Locked
                (Relayer.mkPayload (demo_other, 100, demo_other) 8 0 0) ]
            (run [ (demo_owner,
                    Token SourceToken (ERC20Mock.Mint demo_other 100));
                   (demo_other,
                    Token SourceToken
                      (ERC20Mock.Approve
                         (addr_sourceBridge demo_addresses) 100));
                   (demo_other, Source_lock 100 demo_other) ]
                 demo_locked))).

Definition demo_burn_event : Relayer.ContractEventPayload :=
  Relayer.mkPayload (demo_user, 100, demo_user) 9 0 0.

(** ** scripts/user-simulation.ts *)
Module UserSimulation.

(** How the script ends: it runs to its last line, it stops because
    deployed-addresses.json is missing ([process.exit(1)]), or an awaited
    transaction reverts and [main().catch] reports it; the transactions mined
    before the failing one stay mined. *)
Inductive Outcome :=
| Finished (w : World)
| MissingAddresses
| Threw (error : RevertReason) (w : World).

(** [ethers.parseUnits("100", 18)] *)
Definition amount : uint256 := 100 * 10 ^ 18.

(** Transactions sent and awaited one after the other. *)
Fixpoint send_all (txs : list (address * Call)) (w : World) : Outcome :=
  match txs with
  | [] => Finished w
  | (sender, c) :: rest =>
      match call sender c w with
      | Ok w' => send_all rest w'
      | Revert error => Threw error w
      end
  end.

(** Steps 4 to 6: the owner mints the source tokens for the user, the user
    approves the source bridge and locks. *)
Definition steps_4_to_6 (owner user : address) (a : Addresses)
  : list (address * Call) :=
  [ (owner, Token SourceToken (ERC20Mock.Mint user amount));
    (user, Token SourceToken (ERC20Mock.Approve (addr_sourceBridge a) amount));
    (user, Source_lock amount user) ].

(** Steps 8 and 9: the user approves the destination bridge on the wrapped
    token and burns. *)
Definition steps_8_to_9 (user : address) (a : Addresses)
  : list (address * Call) :=
  [ (user, Token WrappedToken (ERC20Mock.Approve (addr_destBridge a) amount));
    (user, Dest_burn amount user) ].

(** [main]; [owner] and [user] are signers 0 and 2, the addresses are the
    ones relayer.ts wrote for this deployment, and [during_wait] is what
    happens on the chain during the five seconds the script sleeps. *)
Definition main (fileExists : bool) (owner user : address)
    (during_wait : World -> World) (w : World) : Outcome :=
  if fileExists then
    match send_all (steps_4_to_6 owner user (addresses w)) w with
    | Finished w1 =>
        send_all (steps_8_to_9 user (addresses w)) (during_wait w1)
    | stopped => stopped
    end
  else MissingAddresses.

End UserSimulation.

(** The relayer's reaction to the lock of user-simulation.ts, as the
    listener performs it while the script sleeps. *)
Definition relay_the_lock (relayer user b t i : Z) (w : World) : World :=
  fst (Relayer.onTokenLocked relayer
         (Relayer.mkPayload (user, UserSimulation.amount, user) b t i) w).

(** A list is extended at its end only. *)
Definition extends (old new : list Event) : Prop :=
  exists added, new = old ++ added.

(** The token after a [_spendAllowance] that did not revert: the allowance
    of [spender] over the tokens of [owner] is reduced by [value], except
    the maximal allowance, which is never reduced. *)
Definition spent (owner spender : address) (value : uint256)
    (t : ERC20Mock.state) : ERC20Mock.state :=
  if decide (ERC20Mock.allowance t owner spender < MAX_UINT256)
  then ERC20Mock.set_allowance owner spender
         (ERC20Mock.allowance t owner spender - value) t
  else t.

(** The listener a delivery fires. *)
Definition is_Burned (d : Relayer.Delivery) : bool :=
  match d with Relayer.Burned _ => true | Relayer.Locked _ => false end.

Definition is_Locked (d : Relayer.Delivery) : bool :=
  match d with Relayer.Locked _ => true | Relayer.Burned _ => false end.

(** * Properties *)

Arguments MAX_UINT256 : simpl never.
Arguments wrap256 : simpl never.
Arguments sum_balances : simpl never.
Arguments ERC20Mock.balanceOf : simpl never.
Arguments ERC20Mock.allowance : simpl never.

(** ** [uint256] arithmetic *)

Lemma MAX_UINT256_pos : 0 < MAX_UINT256.
Proof. reflexivity. Qed.

Lemma wrap256_small x : 0 <= x <= MAX_UINT256 -> wrap256 x = x.
Proof.
  unfold wrap256, MAX_UINT256. intros H. apply Z.mod_small. lia.
Qed.

(** ** Results *)

Lemma bind_Ok {A B} (r : result A) (k : A -> result B) b :
  bind r k = Ok b -> exists a, r = Ok a /\ k a = Ok b.
Proof. destruct r as [a|e]; simpl; [eauto | discriminate]. Qed.

Lemma require_Ok cond reason : require cond reason = Ok tt -> cond = true.
Proof. destruct cond; [reflexivity | discriminate]. Qed.

Lemma checkOwner_Ok o s : Ownable._checkOwner o s = Ok tt -> o = s.
Proof. unfold Ownable._checkOwner. case_decide; [done | discriminate]. Qed.

Lemma checkOwner_self o : Ownable._checkOwner o o = Ok tt.
Proof. unfold Ownable._checkOwner. case_decide; done. Qed.

Lemma checkOwner_other o s :
  o <> s -> Ownable._checkOwner o s = Revert (OwnableUnauthorizedAccount s).
Proof. unfold Ownable._checkOwner. case_decide; done. Qed.

(** ** Sums of balances *)

Lemma sum_balances_empty : sum_balances ∅ = 0.
Proof. apply map_fold_empty. Qed.

Lemma sum_balances_insert_fresh (m : gmap Z Z) k v :
  m !! k = None -> sum_balances (<[k:=v]> m) = v + sum_balances m.
Proof.
  intros Hk. unfold sum_balances.
  rewrite map_fold_insert_L; [done | | done].
  intros; lia.
Qed.

Lemma sum_balances_insert (m : gmap Z Z) k v :
  sum_balances (<[k:=v]> m) = sum_balances m - default 0 (m !! k) + v.
Proof.
  destruct (m !! k) as [x|] eqn:E; simpl.
  - rewrite <- (insert_delete_id m k x E) at 2.
    rewrite <- (insert_delete_eq m k v).
    rewrite !sum_balances_insert_fresh by apply lookup_delete_eq. lia.
  - rewrite sum_balances_insert_fresh by done. lia.
Qed.

Lemma sum_balances_delete (m : gmap Z Z) k :
  sum_balances (delete k m) = sum_balances m - default 0 (m !! k).
Proof.
  destruct (m !! k) as [x|] eqn:E; simpl.
  - rewrite <- (insert_delete_id m k x E) at 2.
    rewrite sum_balances_insert_fresh by apply lookup_delete_eq. lia.
  - rewrite delete_id by done. lia.
Qed.

Lemma sum_balances_nonneg (m : gmap Z Z) :
  map_Forall (fun _ v => 0 <= v) m -> 0 <= sum_balances m.
Proof.
  induction m as [|k v m Hk IH] using map_ind; intros H.
  - rewrite sum_balances_empty. lia.
  - rewrite sum_balances_insert_fresh by done.
    apply map_Forall_insert in H as [Hv Hm]; [|done].
    specialize (IH Hm). lia.
Qed.

Lemma balances_nonneg_lookup (m : gmap Z Z) k :
  map_Forall (fun _ v => 0 <= v) m -> 0 <= default 0 (m !! k).
Proof.
  intros H. destruct (m !! k) as [x|] eqn:E; simpl; [|lia].
  exact (H k x E).
Qed.

(** ** The ERC20 storage invariant *)

Lemma balanceOf_nonneg t a : ERC20_wf t -> 0 <= ERC20Mock.balanceOf t a.
Proof. intros (Hpos & _). by apply balances_nonneg_lookup. Qed.

Lemma balanceOf_le_supply t a :
  ERC20_wf t -> ERC20Mock.balanceOf t a <= ERC20Mock._totalSupply t.
Proof.
  intros (Hpos & Hsum & _). unfold ERC20Mock.balanceOf. rewrite <- Hsum.
  pose proof (sum_balances_delete (ERC20Mock._balances t) a) as Hd.
  pose proof (sum_balances_nonneg (delete a (ERC20Mock._balances t))
                (map_Forall_delete _ _ _ Hpos)).
  lia.
Qed.

Lemma two_balances_le_supply t a b :
  ERC20_wf t -> a <> b ->
  ERC20Mock.balanceOf t a + ERC20Mock.balanceOf t b
  <= ERC20Mock._totalSupply t.
Proof.
  intros (Hpos & Hsum & _) Hab. unfold ERC20Mock.balanceOf. rewrite <- Hsum.
  set (m := ERC20Mock._balances t) in *.
  pose proof (sum_balances_delete m a) as Ha.
  pose proof (sum_balances_delete (delete a m) b) as Hb.
  rewrite lookup_delete_ne in Hb by done.
  assert (0 <= sum_balances (delete b (delete a m))) as Hn
    by (apply sum_balances_nonneg; by do 2 apply map_Forall_delete).
  lia.
Qed.

Lemma constructor_wf o name symbol :
  ERC20_wf (ERC20Mock.constructor o name symbol).
Proof.
  split; [apply map_Forall_empty|]. split; [apply sum_balances_empty|].
  simpl. pose proof MAX_UINT256_pos. lia.
Qed.

(** ** Reading storage after a write *)

Lemma balanceOf_set_balance a v t b :
  ERC20Mock.balanceOf (ERC20Mock.set_balance a v t) b
  = if decide (a = b) then v else ERC20Mock.balanceOf t b.
Proof.
  unfold ERC20Mock.balanceOf, ERC20Mock.set_balance; simpl.
  rewrite lookup_insert. by case_decide.
Qed.


Lemma sum_set_balance a x t :
  sum_balances (ERC20Mock._balances (ERC20Mock.set_balance a x t))
  = sum_balances (ERC20Mock._balances t) - ERC20Mock.balanceOf t a + x.
Proof. simpl. apply sum_balances_insert. Qed.

(** ** ERC20._update, case by case *)

Lemma update_mint to value t :
  to <> address0 ->
  ERC20Mock._totalSupply t + value <= MAX_UINT256 ->
  ERC20Mock._update address0 to value t
  = Ok (ERC20Mock.emit (Transfer address0 to value)
          (ERC20Mock.set_balance to
             (wrap256 (ERC20Mock.balanceOf t to + value))
             (ERC20Mock.set_totalSupply (ERC20Mock._totalSupply t + value) t))).
Proof.
  intros Hto Hsup. unfold ERC20Mock._update.
  repeat case_decide; (done || lia).
Qed.

Lemma update_burn from value t :
  from <> address0 ->
  value <= ERC20Mock.balanceOf t from ->
  ERC20Mock._update from address0 value t
  = Ok (ERC20Mock.emit (Transfer from address0 value)
          (ERC20Mock.set_totalSupply
             (wrap256 (ERC20Mock._totalSupply t - value))
             (ERC20Mock.set_balance from
                (ERC20Mock.balanceOf t from - value) t))).
Proof.
  intros Hfrom Hbal. unfold ERC20Mock._update.
  repeat case_decide; (done || lia).
Qed.

Lemma update_move from to value t :
  from <> address0 -> to <> address0 ->
  value <= ERC20Mock.balanceOf t from ->
  ERC20Mock._update from to value t
  = Ok (let t1 := ERC20Mock.set_balance from
                    (ERC20Mock.balanceOf t from - value) t in
        ERC20Mock.emit (Transfer from to value)
          (ERC20Mock.set_balance to
             (wrap256 (ERC20Mock.balanceOf t1 to + value)) t1)).
Proof.
  intros Hfrom Hto Hbal. unfold ERC20Mock._update.
  repeat case_decide; (done || lia).
Qed.

Lemma update_insufficient from to value t :
  from <> address0 ->
  ERC20Mock.balanceOf t from < value ->
  ERC20Mock._update from to value t
  = Revert (ERC20InsufficientBalance from (ERC20Mock.balanceOf t from) value).
Proof.
  intros Hfrom Hbal. unfold ERC20Mock._update.
  repeat case_decide; (done || lia).
Qed.

(** What every successful [_update] leaves in storage. *)
Lemma update_Ok from to value t t' :
  ERC20Mock._update from to value t = Ok t' ->
  ERC20Mock.events t' = ERC20Mock.events t ++ [Transfer from to value]
  /\ ERC20Mock._owner t' = ERC20Mock._owner t
  /\ ERC20Mock._allowances t' = ERC20Mock._allowances t.
Proof.
  unfold ERC20Mock._update. intros H.
  apply bind_Ok in H as (t1 & H1 & H2). injection H2 as <-.
  assert (ERC20Mock.events t1 = ERC20Mock.events t
          /\ ERC20Mock._owner t1 = ERC20Mock._owner t
          /\ ERC20Mock._allowances t1 = ERC20Mock._allowances t) as (He & Ho & Ha).
  { repeat case_decide; try discriminate; injection H1 as <-; done. }
  destruct (decide (to = address0)); simpl; rewrite He, Ho, Ha; done.
Qed.

Lemma update_wf from to value t t' :
  ERC20_wf t -> 0 <= value ->
  ERC20Mock._update from to value t = Ok t' -> ERC20_wf t'.
Proof.
  intros Hwf Hv H.
  pose proof Hwf as (Hpos & Hsum & Hmax).
  pose proof (balanceOf_nonneg t from Hwf) as Hf0.
  pose proof (balanceOf_le_supply t from Hwf) as Hfs.
  pose proof (balanceOf_nonneg t to Hwf) as Ht0.
  pose proof (balanceOf_le_supply t to Hwf) as Hts.
  unfold ERC20Mock._update in H.
  destruct (decide (from = address0)) as [Hfrom|Hfrom].
  - destruct (decide (ERC20Mock._totalSupply t + value <= MAX_UINT256));
      [|discriminate].
    simpl in H. destruct (decide (to = address0)); injection H as <-.
    + unfold ERC20_wf; simpl.
      rewrite wrap256_small by lia. repeat split; [done | lia | lia].
    + unfold ERC20_wf.
      cbn [ERC20Mock.emit ERC20Mock._balances ERC20Mock._totalSupply].
      rewrite sum_set_balance.
      change (ERC20Mock.balanceOf (ERC20Mock.set_totalSupply _ t) to)
        with (ERC20Mock.balanceOf t to).
      rewrite wrap256_small by lia. simpl.
      split; [apply map_Forall_insert_2; [lia | done] |].
      split; lia.
  - destruct (decide (ERC20Mock.balanceOf t from < value)); [discriminate|].
    simpl in H. destruct (decide (to = address0)) as [Hto|Hto];
      injection H as <-.
    + unfold ERC20_wf.
      cbn [ERC20Mock.emit ERC20Mock.set_totalSupply ERC20Mock._balances
           ERC20Mock._totalSupply].
      rewrite sum_set_balance. rewrite wrap256_small by lia. simpl.
      split; [apply map_Forall_insert_2; [lia | done] |].
      split; lia.
    + unfold ERC20_wf.
      cbn [ERC20Mock.emit ERC20Mock._balances ERC20Mock._totalSupply].
      rewrite !sum_set_balance, !balanceOf_set_balance.
      destruct (decide (from = to)) as [<-|Hne].
      * rewrite wrap256_small by lia. simpl.
        split; [do 2 (apply map_Forall_insert_2; [lia|]); done |].
        split; lia.
      * pose proof (two_balances_le_supply t from to Hwf Hne).
        rewrite wrap256_small by lia. simpl.
        split; [do 2 (apply map_Forall_insert_2; [lia|]); done |].
        split; lia.
Qed.

(** ** The inherited ERC20 functions *)

Lemma sum_list_app l1 l2 : sum_list (l1 ++ l2) = sum_list l1 + sum_list l2.
Proof. induction l1 as [|x l1 IH]; simpl; [done | rewrite IH; lia]. Qed.

Lemma minted_log_append t t' evs :
  ERC20Mock.events t' = ERC20Mock.events t ++ evs ->
  minted_log t' = minted_log t + sum_list (map minted_of evs).
Proof.
  intros H. unfold minted_log. by rewrite H, map_app, sum_list_app.
Qed.

Lemma transfer_internal_Ok from to value t t' :
  ERC20Mock._transfer from to value t = Ok t' ->
  from <> address0 /\ to <> address0
  /\ ERC20Mock._update from to value t = Ok t'.
Proof.
  unfold ERC20Mock._transfer. intros H.
  destruct (decide (from = address0)); [discriminate|].
  destruct (decide (to = address0)); [discriminate|]. done.
Qed.

Lemma approve_internal_Ok owner spender value b t t' :
  ERC20Mock._approve owner spender value b t = Ok t' ->
  ERC20Mock._balances t' = ERC20Mock._balances t
  /\ ERC20Mock._totalSupply t' = ERC20Mock._totalSupply t
  /\ ERC20Mock._owner t' = ERC20Mock._owner t
  /\ minted_log t' = minted_log t.
Proof.
  unfold ERC20Mock._approve. intros H.
  destruct (decide (owner = address0)); [discriminate|].
  destruct (decide (spender = address0)); [discriminate|].
  injection H as <-. destruct b; simpl; split_and!; try done.
  unfold minted_log; simpl. rewrite map_app, sum_list_app. simpl. lia.
Qed.

Lemma spendAllowance_Ok owner spender value t t' :
  ERC20Mock._spendAllowance owner spender value t = Ok t' ->
  ERC20Mock._balances t' = ERC20Mock._balances t
  /\ ERC20Mock._totalSupply t' = ERC20Mock._totalSupply t
  /\ ERC20Mock._owner t' = ERC20Mock._owner t
  /\ minted_log t' = minted_log t.
Proof.
  unfold ERC20Mock._spendAllowance. intros H.
  destruct (decide (ERC20Mock.allowance t owner spender < MAX_UINT256)).
  - destruct (decide (ERC20Mock.allowance t owner spender < value));
      [discriminate|].
    by apply approve_internal_Ok in H.
  - by injection H as <-.
Qed.

Lemma wf_same_balances t t' :
  ERC20Mock._balances t' = ERC20Mock._balances t ->
  ERC20Mock._totalSupply t' = ERC20Mock._totalSupply t ->
  ERC20_wf t -> ERC20_wf t'.
Proof. unfold ERC20_wf. by intros -> ->. Qed.

(** A successful call that is not [mint] leaves the minted total alone. *)
Lemma update_minted from to value t t' :
  ERC20Mock._update from to value t = Ok t' ->
  minted_log t' = minted_log t + minted_of (Transfer from to value).
Proof.
  intros H. apply update_Ok in H as (He & _).
  rewrite (minted_log_append _ _ _ He). simpl. lia.
Qed.

Lemma minted_of_mint to value : minted_of (Transfer address0 to value) = value.
Proof. reflexivity. Qed.

Lemma minted_of_move from to value :
  from <> address0 -> minted_of (Transfer from to value) = 0.
Proof. intros H. unfold minted_of. by rewrite decide_False. Qed.

Lemma Ownable_transferOwnership_Ok o s n r :
  Ownable.transferOwnership o s n = Ok r ->
  s = o /\ n <> address0 /\ r = (n, OwnershipTransferred o n).
Proof.
  unfold Ownable.transferOwnership. intros H.
  apply bind_Ok in H as ([] & Hs & H). apply checkOwner_Ok in Hs.
  destruct (decide (n = address0)); [discriminate|]. by injection H as <-.
Qed.

Lemma Ownable_renounceOwnership_Ok o s r :
  Ownable.renounceOwnership o s = Ok r ->
  s = o /\ r = (address0, OwnershipTransferred o address0).
Proof.
  unfold Ownable.renounceOwnership. intros H.
  apply bind_Ok in H as ([] & Hs & H). apply checkOwner_Ok in Hs.
  by injection H as <-.
Qed.

Lemma dispatch_minted sender c t t' :
  ERC20Mock.dispatch sender c t = Ok t' ->
  minted_log t' = minted_log t
                  + match c with ERC20Mock.Mint _ amount => amount | _ => 0 end.
Proof.
  destruct c as [to amount|from amount|to value|spender value|from to value
                |newOwner|]; simpl; intros H.
  - unfold ERC20Mock.mint in H. apply bind_Ok in H as ([] & _ & H).
    unfold ERC20Mock._mint in H.
    destruct (decide (to = address0)); [discriminate|].
    apply update_minted in H. by rewrite minted_of_mint in H.
  - unfold ERC20Mock.burnFrom in H. apply bind_Ok in H as ([] & _ & H).
    unfold ERC20Mock._burn in H.
    destruct (decide (from = address0)); [discriminate|].
    apply update_minted in H. by rewrite minted_of_move in H.
  - apply transfer_internal_Ok in H as (Hf & _ & H).
    apply update_minted in H. by rewrite minted_of_move in H.
  - apply approve_internal_Ok in H as (_ & _ & _ & H). lia.
  - unfold ERC20Mock.transferFrom in H. apply bind_Ok in H as (t1 & H1 & H).
    apply spendAllowance_Ok in H1 as (_ & _ & _ & H1).
    apply transfer_internal_Ok in H as (Hf & _ & H).
    apply update_minted in H. rewrite minted_of_move in H by done. lia.
  - unfold ERC20Mock.transferOwnership in H.
    apply bind_Ok in H as (r & Hr & H). injection H as <-.
    apply Ownable_transferOwnership_Ok in Hr as (_ & _ & ->).
    unfold minted_log; simpl. rewrite map_app, sum_list_app. simpl. lia.
  - unfold ERC20Mock.renounceOwnership in H.
    apply bind_Ok in H as (r & Hr & H). injection H as <-.
    apply Ownable_renounceOwnership_Ok in Hr as (_ & ->).
    unfold minted_log; simpl. rewrite map_app, sum_list_app. simpl. lia.
Qed.

(** Only the owner mints, burns or hands the token over. *)
Lemma dispatch_owner sender c t t' :
  ERC20Mock.dispatch sender c t = Ok t' ->
  sender <> ERC20Mock._owner t ->
  ERC20Mock._owner t' = ERC20Mock._owner t
  /\ minted_log t' = minted_log t.
Proof.
  intros H Hs. pose proof (dispatch_minted _ _ _ _ H) as Hm.
  destruct c as [to amount|from amount|to value|spender value|from to value
                |newOwner|]; simpl in H.
  - unfold ERC20Mock.mint in H. apply bind_Ok in H as ([] & Ho & _).
    apply checkOwner_Ok in Ho. congruence.
  - unfold ERC20Mock.burnFrom in H. apply bind_Ok in H as ([] & Ho & _).
    apply checkOwner_Ok in Ho. congruence.
  - apply transfer_internal_Ok in H as (_ & _ & H).
    apply update_Ok in H as (_ & Ho & _). split; [done | lia].
  - apply approve_internal_Ok in H as (_ & _ & Ho & _). split; [done | lia].
  - unfold ERC20Mock.transferFrom in H. apply bind_Ok in H as (t1 & H1 & H).
    apply spendAllowance_Ok in H1 as (_ & _ & Ho1 & _).
    apply transfer_internal_Ok in H as (_ & _ & H).
    apply update_Ok in H as (_ & Ho & _). split; [congruence | lia].
  - unfold ERC20Mock.transferOwnership in H.
    apply bind_Ok in H as (r & Hr & _).
    apply Ownable_transferOwnership_Ok in Hr as (? & _). congruence.
  - unfold ERC20Mock.renounceOwnership in H.
    apply bind_Ok in H as (r & Hr & _).
    apply Ownable_renounceOwnership_Ok in Hr as (? & _). congruence.
Qed.

(** Every successful token call keeps the storage invariant. *)
Lemma dispatch_wf sender c t t' :
  ERC20_wf t -> token_call_typed c ->
  ERC20Mock.dispatch sender c t = Ok t' -> ERC20_wf t'.
Proof.
  intros Hwf Hty H.
  destruct c as [to amount|from amount|to value|spender value|from to value
                |newOwner|]; simpl in H, Hty.
  - unfold ERC20Mock.mint in H. apply bind_Ok in H as ([] & _ & H).
    unfold ERC20Mock._mint in H.
    destruct (decide (to = address0)); [discriminate|].
    eapply update_wf; [done | apply Hty | done].
  - unfold ERC20Mock.burnFrom in H. apply bind_Ok in H as ([] & _ & H).
    unfold ERC20Mock._burn in H.
    destruct (decide (from = address0)); [discriminate|].
    eapply update_wf; [done | apply Hty | done].
  - apply transfer_internal_Ok in H as (_ & _ & H).
    eapply update_wf; [done | apply Hty | done].
  - apply approve_internal_Ok in H as (Hb & Hs & _).
    by eapply wf_same_balances.
  - unfold ERC20Mock.transferFrom in H. apply bind_Ok in H as (t1 & H1 & H).
    apply spendAllowance_Ok in H1 as (Hb & Hs & _).
    apply transfer_internal_Ok in H as (_ & _ & H).
    eapply update_wf; [by eapply wf_same_balances | apply Hty | done].
  - unfold ERC20Mock.transferOwnership in H.
    apply bind_Ok in H as (r & _ & H). by injection H as <-.
  - unfold ERC20Mock.renounceOwnership in H.
    apply bind_Ok in H as (r & _ & H). by injection H as <-.
Qed.

(** ** Access control of the bridges *)

Lemma source_onlyRelayer_other c w :
  c <> BridgeSourceChainStorage.relayer (sourceBridge w) ->
  BridgeSourceChain.onlyRelayer c w
  = Revert (ErrorMsg "BridgeSource: Caller is not the relayer").
Proof.
  intros H. unfold BridgeSourceChain.onlyRelayer.
  by rewrite bool_decide_eq_false_2.
Qed.

Lemma dest_onlyRelayer_other c w :
  c <> BridgeDestinationChainStorage.relayer (destBridge w) ->
  BridgeDestinationChain.onlyRelayer c w
  = Revert (ErrorMsg "BridgeDest: Caller is not the relayer").
Proof.
  intros H. unfold BridgeDestinationChain.onlyRelayer.
  by rewrite bool_decide_eq_false_2.
Qed.

Lemma source_onlyRelayer_Ok c w :
  BridgeSourceChain.onlyRelayer c w = Ok tt ->
  c = BridgeSourceChainStorage.relayer (sourceBridge w).
Proof.
  unfold BridgeSourceChain.onlyRelayer. intros H.
  apply require_Ok in H. by apply bool_decide_eq_true in H.
Qed.

Lemma dest_onlyRelayer_Ok c w :
  BridgeDestinationChain.onlyRelayer c w = Ok tt ->
  c = BridgeDestinationChainStorage.relayer (destBridge w).
Proof.
  unfold BridgeDestinationChain.onlyRelayer. intros H.
  apply require_Ok in H. by apply bool_decide_eq_true in H.
Qed.

Lemma exec_Revert c tx w e : call c tx w = Revert e -> exec c tx w = w.
Proof. unfold exec. by intros ->. Qed.

Lemma exec_Ok c tx w w' : call c tx w = Ok w' -> exec c tx w = w'.
Proof. unfold exec. by intros ->. Qed.

(** C3. [release] and [mintWrapped] succeed only for the configured relayer
    and [setRelayer] only for the owner; for every other caller each of them
    reverts and the world stays as it was. *)
Theorem bridge_access_control (w : World) (c : Z) :
  (forall user amount w',
      call c (Source_release user amount) w = Ok w' ->
      c = BridgeSourceChainStorage.relayer (sourceBridge w))
  /\ (forall user amount w',
      call c (Dest_mintWrapped user amount) w = Ok w' ->
      c = BridgeDestinationChainStorage.relayer (destBridge w))
  /\ (forall newRelayer w',
      call c (Source_setRelayer newRelayer) w = Ok w' ->
      c = BridgeSourceChainStorage._owner (sourceBridge w))
  /\ (forall newRelayer w',
      call c (Dest_setRelayer newRelayer) w = Ok w' ->
      c = BridgeDestinationChainStorage._owner (destBridge w))
  /\ (c <> BridgeSourceChainStorage.relayer (sourceBridge w) ->
      forall user amount,
        call c (Source_release user amount) w
        = Revert (ErrorMsg "BridgeSource: Caller is not the relayer")
        /\ exec c (Source_release user amount) w = w)
  /\ (c <> BridgeDestinationChainStorage.relayer (destBridge w) ->
      forall user amount,
        call c (Dest_mintWrapped user amount) w
        = Revert (ErrorMsg "BridgeDest: Caller is not the relayer")
        /\ exec c (Dest_mintWrapped user amount) w = w)
  /\ (c <> BridgeSourceChainStorage._owner (sourceBridge w) ->
      forall newRelayer,
        call c (Source_setRelayer newRelayer) w
        = Revert (OwnableUnauthorizedAccount c)
        /\ exec c (Source_setRelayer newRelayer) w = w)
  /\ (c <> BridgeDestinationChainStorage._owner (destBridge w) ->
      forall newRelayer,
        call c (Dest_setRelayer newRelayer) w
        = Revert (OwnableUnauthorizedAccount c)
        /\ exec c (Dest_setRelayer newRelayer) w = w).
Proof.
  split_and!.
  - intros user amount w' H. simpl in H. unfold BridgeSourceChain.release in H.
    apply bind_Ok in H as ([] & H & _). by apply source_onlyRelayer_Ok.
  - intros user amount w' H. simpl in H.
    unfold BridgeDestinationChain.mintWrapped in H.
    apply bind_Ok in H as ([] & H & _). by apply dest_onlyRelayer_Ok.
  - intros newRelayer w' H. simpl in H.
    unfold BridgeSourceChain.setRelayer in H.
    apply bind_Ok in H as ([] & H & _). apply checkOwner_Ok in H. done.
  - intros newRelayer w' H. simpl in H.
    unfold BridgeDestinationChain.setRelayer in H.
    apply bind_Ok in H as ([] & H & _). apply checkOwner_Ok in H. done.
  - intros Hc user amount.
    assert (call c (Source_release user amount) w
            = Revert (ErrorMsg "BridgeSource: Caller is not the relayer")) as E.
    { simpl. unfold BridgeSourceChain.release.
      by rewrite source_onlyRelayer_other. }
    split; [exact E | by apply exec_Revert in E].
  - intros Hc user amount.
    assert (call c (Dest_mintWrapped user amount) w
            = Revert (ErrorMsg "BridgeDest: Caller is not the relayer")) as E.
    { simpl. unfold BridgeDestinationChain.mintWrapped.
      by rewrite dest_onlyRelayer_other. }
    split; [exact E | by apply exec_Revert in E].
  - intros Hc newRelayer.
    assert (call c (Source_setRelayer newRelayer) w
            = Revert (OwnableUnauthorizedAccount c)) as E.
    { simpl. unfold BridgeSourceChain.setRelayer.
      rewrite checkOwner_other by done. done. }
    split; [exact E | by apply exec_Revert in E].
  - intros Hc newRelayer.
    assert (call c (Dest_setRelayer newRelayer) w
            = Revert (OwnableUnauthorizedAccount c)) as E.
    { simpl. unfold BridgeDestinationChain.setRelayer.
      rewrite checkOwner_other by done. done. }
    split; [exact E | by apply exec_Revert in E].
Qed.

Lemma bridge_access_control_witness :
  call demo_user (Source_release demo_user 100) demo_world
  = Revert (ErrorMsg "BridgeSource: Caller is not the relayer")
  /\ call demo_user (Dest_mintWrapped demo_user 100) demo_world
     = Revert (ErrorMsg "BridgeDest: Caller is not the relayer")
  /\ exec demo_user (Source_setRelayer demo_user) demo_world = demo_world
  /\ exec demo_user (Dest_setRelayer demo_user) demo_world = demo_world.
Proof.
  destruct (bridge_access_control demo_world demo_user)
    as (_ & _ & _ & _ & Hrel & Hmint & Hsrc & Hdst).
  split_and!.
  - apply Hrel. vm_compute. lia.
  - apply Hmint. vm_compute. lia.
  - apply Hsrc. vm_compute. lia.
  - apply Hdst. vm_compute. lia.
Defined.

(** ** Zero amounts *)

(** C9. Each of [lock], [release], [mintWrapped] and [burn] reverts on
    [amount = 0] for every caller and leaves the world, and so every balance,
    as it was; a call that succeeds had [amount > 0]. *)
Theorem zero_amount_reverts (w : World) (c x : Z) :
  (call c (Source_lock 0 x) w
   = Revert (ErrorMsg "BridgeSource: Amount must be greater than 0")
   /\ exec c (Source_lock 0 x) w = w)
  /\ (is_ok (call c (Source_release x 0) w) = false
      /\ exec c (Source_release x 0) w = w)
  /\ (is_ok (call c (Dest_mintWrapped x 0) w) = false
      /\ exec c (Dest_mintWrapped x 0) w = w)
  /\ (call c (Dest_burn 0 x) w
      = Revert (ErrorMsg "BridgeDest: Amount must be greater than 0")
      /\ exec c (Dest_burn 0 x) w = w)
  /\ (forall amount,
        is_ok (call c (Source_lock amount x) w) = true
        \/ is_ok (call c (Source_release x amount) w) = true
        \/ is_ok (call c (Dest_mintWrapped x amount) w) = true
        \/ is_ok (call c (Dest_burn amount x) w) = true ->
        amount > 0).
Proof.
  assert (forall tx, is_ok (call c tx w) = false -> exec c tx w = w) as Hex.
  { intros tx. unfold exec. by destruct (call c tx w). }
  assert (is_ok (call c (Source_release x 0) w) = false) as Erel.
  { simpl. unfold BridgeSourceChain.release.
    by destruct (BridgeSourceChain.onlyRelayer c w) as [[]|]. }
  assert (is_ok (call c (Dest_mintWrapped x 0) w) = false) as Emint.
  { simpl. unfold BridgeDestinationChain.mintWrapped.
    by destruct (BridgeDestinationChain.onlyRelayer c w) as [[]|]. }
  split_and!; try done; try by apply Hex.
  - intros amount H.
    destruct (decide (amount > 0)) as [|Hle]; [done | exfalso].
    assert (bool_decide (amount > 0) = false) as Hb
      by by apply bool_decide_eq_false_2.
    simpl in H.
    unfold BridgeSourceChain.lock, BridgeSourceChain.release,
      BridgeDestinationChain.mintWrapped, BridgeDestinationChain.burn in H.
    rewrite !Hb in H. simpl in H.
    destruct (BridgeSourceChain.onlyRelayer c w) as [[]|];
      destruct (BridgeDestinationChain.onlyRelayer c w) as [[]|];
      simpl in H; destruct H as [H|[H|[H|H]]]; discriminate H.
Qed.

Lemma zero_amount_reverts_witness :
  exec demo_user (Source_lock 0 demo_user) demo_funded = demo_funded
  /\ 100 > 0.
Proof.
  destruct (zero_amount_reverts demo_funded demo_user demo_user)
    as ((_ & Hlock) & _ & _ & _ & Hpos).
  split; [exact Hlock|].
  apply Hpos. left. vm_compute. reflexivity.
Defined.

(** ** Calls from a bridge into its token *)

Lemma callToken_source f w :
  callToken (addr_sourceToken (addresses w)) f w
  = (t <- f (sourceToken w) ;; Ok (set_sourceToken t w)).
Proof. unfold callToken. by rewrite decide_True. Qed.

Lemma callToken_wrapped f w :
  addr_wrappedToken (addresses w) <> addr_sourceToken (addresses w) ->
  callToken (addr_wrappedToken (addresses w)) f w
  = (t <- f (wrappedToken w) ;; Ok (set_wrappedToken t w)).
Proof.
  intros H. unfold callToken. rewrite decide_False by done.
  by rewrite decide_True.
Qed.

Lemma callToken_Ok target f w w' :
  callToken target f w = Ok w' ->
  (exists t, f (sourceToken w) = Ok t /\ w' = set_sourceToken t w)
  \/ (exists t, f (wrappedToken w) = Ok t /\ w' = set_wrappedToken t w).
Proof.
  unfold callToken. intros H.
  destruct (decide (target = addr_sourceToken (addresses w))).
  - apply bind_Ok in H as (t & Ht & H). injection H as <-. eauto.
  - destruct (decide (target = addr_wrappedToken (addresses w)));
      [|discriminate].
    apply bind_Ok in H as (t & Ht & H). injection H as <-. eauto.
Qed.

(** ** [burnFrom] *)

Lemma burnFrom_owner from amount t :
  from <> address0 ->
  amount <= ERC20Mock.balanceOf t from ->
  ERC20Mock.burnFrom (ERC20Mock._owner t) from amount t
  = Ok (ERC20Mock.emit (Transfer from address0 amount)
          (ERC20Mock.set_totalSupply
             (wrap256 (ERC20Mock._totalSupply t - amount))
             (ERC20Mock.set_balance from
                (ERC20Mock.balanceOf t from - amount) t))).
Proof.
  intros Hfrom Hbal. unfold ERC20Mock.burnFrom, ERC20Mock._burn.
  rewrite checkOwner_self. simpl. rewrite decide_False by done.
  by apply update_burn.
Qed.

Lemma burnFrom_owner_insufficient from amount t :
  from <> address0 ->
  ERC20Mock.balanceOf t from < amount ->
  ERC20Mock.burnFrom (ERC20Mock._owner t) from amount t
  = Revert (ERC20InsufficientBalance from (ERC20Mock.balanceOf t from) amount).
Proof.
  intros Hfrom Hbal. unfold ERC20Mock.burnFrom, ERC20Mock._burn.
  rewrite checkOwner_self. simpl. rewrite decide_False by done.
  by apply update_insufficient.
Qed.

Lemma bridge_burn_Ok caller amount destination w :
  BridgeDestinationChainStorage.wrappedToken (destBridge w)
  = addr_wrappedToken (addresses w) ->
  addr_wrappedToken (addresses w) <> addr_sourceToken (addresses w) ->
  ERC20Mock._owner (wrappedToken w) = addr_destBridge (addresses w) ->
  caller <> address0 ->
  0 < amount <= ERC20Mock.balanceOf (wrappedToken w) caller ->
  call caller (Dest_burn amount destination) w
  = Ok (BridgeDestinationChain.emit (TokenBurned caller amount destination)
          (set_wrappedToken
             (ERC20Mock.emit (Transfer caller address0 amount)
                (ERC20Mock.set_totalSupply
                   (wrap256 (ERC20Mock._totalSupply (wrappedToken w) - amount))
                   (ERC20Mock.set_balance caller
                      (ERC20Mock.balanceOf (wrappedToken w) caller - amount)
                      (wrappedToken w)))) w)).
Proof.
  intros Htok Hne Hown Hc Ham. simpl. unfold BridgeDestinationChain.burn.
  rewrite bool_decide_eq_true_2 by lia. simpl.
  rewrite Htok, callToken_wrapped by done. rewrite <- Hown.
  rewrite burnFrom_owner by (done || lia). reflexivity.
Qed.

(** C10. [burnFrom] called by the token owner never reads or writes an
    allowance: for an account [from] it succeeds exactly when [from] holds
    [amount], whatever the allowances are, and leaves them untouched.  So
    the destination bridge's [burn] succeeds for a caller who holds [amount]
    wrapped tokens and has approved nothing. *)
Theorem burnFrom_ignores_allowance :
  (forall (t : ERC20Mock.state) (from amount : Z),
      from <> address0 ->
      (amount <= ERC20Mock.balanceOf t from ->
       exists t',
         ERC20Mock.burnFrom (ERC20Mock._owner t) from amount t = Ok t'
         /\ ERC20Mock._allowances t' = ERC20Mock._allowances t
         /\ ERC20Mock.balanceOf t' from = ERC20Mock.balanceOf t from - amount)
      /\ (ERC20Mock.balanceOf t from < amount ->
          ERC20Mock.burnFrom (ERC20Mock._owner t) from amount t
          = Revert (ERC20InsufficientBalance
                      from (ERC20Mock.balanceOf t from) amount)))
  /\ (forall (w : World) (caller amount destination : Z),
        BridgeDestinationChainStorage.wrappedToken (destBridge w)
        = addr_wrappedToken (addresses w) ->
        addr_wrappedToken (addresses w) <> addr_sourceToken (addresses w) ->
        ERC20Mock._owner (wrappedToken w) = addr_destBridge (addresses w) ->
        caller <> address0 ->
        0 < amount <= ERC20Mock.balanceOf (wrappedToken w) caller ->
        ERC20Mock.allowance (wrappedToken w) caller
                            (addr_destBridge (addresses w)) = 0 ->
        exists w',
          call caller (Dest_burn amount destination) w = Ok w'
          /\ ERC20Mock.balanceOf (wrappedToken w') caller
             = ERC20Mock.balanceOf (wrappedToken w) caller - amount
          /\ ERC20Mock.allowance (wrappedToken w') caller
                                 (addr_destBridge (addresses w)) = 0
          /\ BridgeDestinationChainStorage.events (destBridge w')
             = BridgeDestinationChainStorage.events (destBridge w)
               ++ [TokenBurned caller amount destination]).
Proof.
  split.
  - intros t from amount Hfrom. split.
    + intros Hbal. eexists. split; [by apply burnFrom_owner|].
      split; [reflexivity|].
      cbn [ERC20Mock.emit ERC20Mock.set_totalSupply].
      unfold ERC20Mock.balanceOf at 1. simpl.
      by rewrite lookup_insert_eq.
    + intros Hbal. by apply burnFrom_owner_insufficient.
  - intros w caller amount destination Htok Hne Hown Hc Ham Hall.
    eexists. split; [by apply bridge_burn_Ok|].
    split_and!.
    + unfold ERC20Mock.balanceOf at 1. simpl. by rewrite lookup_insert_eq.
    + exact Hall.
    + reflexivity.
Qed.

Lemma burnFrom_ignores_allowance_witness :
  (exists t',
      ERC20Mock.burnFrom (ERC20Mock._owner (wrappedToken demo_minted))
                         demo_user 20 (wrappedToken demo_minted) = Ok t'
      /\ ERC20Mock._allowances t'
         = ERC20Mock._allowances (wrappedToken demo_minted)
      /\ ERC20Mock.balanceOf t' demo_user
         = ERC20Mock.balanceOf (wrappedToken demo_minted) demo_user - 20)
  /\ (exists w',
        call demo_user (Dest_burn 20 demo_user) demo_minted = Ok w'
        /\ ERC20Mock.balanceOf (wrappedToken w') demo_user
           = ERC20Mock.balanceOf (wrappedToken demo_minted) demo_user - 20
        /\ ERC20Mock.allowance (wrappedToken w') demo_user
             (addr_destBridge (addresses demo_minted)) = 0
        /\ BridgeDestinationChainStorage.events (destBridge w')
           = BridgeDestinationChainStorage.events (destBridge demo_minted)
             ++ [TokenBurned demo_user 20 demo_user]).
Proof.
  destruct burnFrom_ignores_allowance as [Htoken Hbridge]. split.
  - apply (Htoken (wrappedToken demo_minted) demo_user 20).
    + vm_compute. lia.
    + vm_compute. discriminate.
  - apply (Hbridge demo_minted demo_user 20 demo_user).
    + vm_compute. reflexivity.
    + vm_compute. lia.
    + vm_compute. reflexivity.
    + vm_compute. lia.
    + vm_compute. split; [reflexivity | discriminate].
    + vm_compute. reflexivity.
Defined.

(** ** What the token functions used by the bridges do *)

Lemma balanceOf_emit e t a :
  ERC20Mock.balanceOf (ERC20Mock.emit e t) a = ERC20Mock.balanceOf t a.
Proof. reflexivity. Qed.

Lemma spendAllowance_spec owner spender value t :
  owner <> address0 -> spender <> address0 ->
  value <= ERC20Mock.allowance t owner spender ->
  exists t',
    ERC20Mock._spendAllowance owner spender value t = Ok t'
    /\ ERC20Mock._balances t' = ERC20Mock._balances t
    /\ ERC20Mock._totalSupply t' = ERC20Mock._totalSupply t
    /\ ERC20Mock._owner t' = ERC20Mock._owner t
    /\ ERC20Mock.events t' = ERC20Mock.events t.
Proof.
  intros Ho Hs Hv. unfold ERC20Mock._spendAllowance.
  destruct (decide (ERC20Mock.allowance t owner spender < MAX_UINT256));
    [|by eexists].
  rewrite decide_False by lia. unfold ERC20Mock._approve.
  rewrite !decide_False by done. by eexists.
Qed.

Lemma move_spec from to value t :
  ERC20_wf t -> from <> address0 -> to <> address0 -> from <> to ->
  0 <= value <= ERC20Mock.balanceOf t from ->
  exists t',
    ERC20Mock._transfer from to value t = Ok t'
    /\ ERC20_wf t'
    /\ ERC20Mock._owner t' = ERC20Mock._owner t
    /\ ERC20Mock._totalSupply t' = ERC20Mock._totalSupply t
    /\ ERC20Mock.events t' = ERC20Mock.events t ++ [Transfer from to value]
    /\ ERC20Mock.balanceOf t' from = ERC20Mock.balanceOf t from - value
    /\ ERC20Mock.balanceOf t' to = ERC20Mock.balanceOf t to + value
    /\ (forall x, x <> from -> x <> to ->
                  ERC20Mock.balanceOf t' x = ERC20Mock.balanceOf t x).
Proof.
  intros Hwf Hf Ht Hne Hv.
  assert (ERC20Mock._transfer from to value t
          = ERC20Mock._update from to value t) as E.
  { unfold ERC20Mock._transfer. by rewrite !decide_False. }
  pose proof (update_move from to value t Hf Ht (proj2 Hv)) as Hu.
  cbv zeta in Hu. rewrite <- E in Hu.
  eexists. split; [exact Hu|]. rewrite E in Hu.
  pose proof (two_balances_le_supply t from to Hwf Hne).
  pose proof (balanceOf_nonneg t to Hwf).
  destruct Hwf as (Hpos & Hsum & Hmax).
  split; [eapply update_wf; [done | apply Hv | exact Hu] |].
  rewrite !balanceOf_emit, !balanceOf_set_balance.
  rewrite (decide_False (P := from = to)) by done.
  rewrite (decide_False (P := to = from)) by done.
  rewrite (decide_True (P := to = to)) by done.
  rewrite wrap256_small by lia.
  split_and!; try done.
  - by rewrite decide_True.
  - intros x Hx1 Hx2. rewrite !balanceOf_emit, !balanceOf_set_balance.
    by rewrite !decide_False.
Qed.

Lemma transferFrom_spec spender from to value t :
  ERC20_wf t -> spender <> address0 ->
  from <> address0 -> to <> address0 -> from <> to ->
  0 <= value <= ERC20Mock.balanceOf t from ->
  value <= ERC20Mock.allowance t from spender ->
  exists t',
    ERC20Mock.transferFrom spender from to value t = Ok t'
    /\ ERC20_wf t'
    /\ ERC20Mock._owner t' = ERC20Mock._owner t
    /\ ERC20Mock._totalSupply t' = ERC20Mock._totalSupply t
    /\ ERC20Mock.events t' = ERC20Mock.events t ++ [Transfer from to value]
    /\ ERC20Mock.balanceOf t' from = ERC20Mock.balanceOf t from - value
    /\ ERC20Mock.balanceOf t' to = ERC20Mock.balanceOf t to + value
    /\ (forall x, x <> from -> x <> to ->
                  ERC20Mock.balanceOf t' x = ERC20Mock.balanceOf t x).
Proof.
  intros Hwf Hs Hf Ht Hne Hv Ha.
  destruct (spendAllowance_spec from spender value t Hf Hs Ha)
    as (t1 & H1 & Hb & Hts & Ho & He).
  assert (ERC20_wf t1) as Hwf1 by by eapply wf_same_balances.
  assert (forall x, ERC20Mock.balanceOf t1 x = ERC20Mock.balanceOf t x) as Hbal.
  { intros x. unfold ERC20Mock.balanceOf. by rewrite Hb. }
  destruct (move_spec from to value t1 Hwf1 Hf Ht Hne) as (t' & H2 & Hrest).
  { by rewrite Hbal. }
  exists t'. unfold ERC20Mock.transferFrom. rewrite H1. simpl.
  split; [exact H2|].
  rewrite <- !Hbal, <- Ho, <- Hts, <- He.
  destruct Hrest as (? & ? & ? & ? & ? & ? & Hx). split_and!; try done.
  intros x ? ?. rewrite <- Hbal. by apply Hx.
Qed.

Lemma mint_spec to amount t :
  ERC20_wf t -> to <> address0 -> 0 <= amount ->
  ERC20Mock._totalSupply t + amount <= MAX_UINT256 ->
  exists t',
    ERC20Mock.mint (ERC20Mock._owner t) to amount t = Ok t'
    /\ ERC20_wf t'
    /\ ERC20Mock._owner t' = ERC20Mock._owner t
    /\ ERC20Mock._totalSupply t' = ERC20Mock._totalSupply t + amount
    /\ ERC20Mock.events t' = ERC20Mock.events t ++ [Transfer address0 to amount]
    /\ ERC20Mock.balanceOf t' to = ERC20Mock.balanceOf t to + amount
    /\ (forall x, x <> to ->
                  ERC20Mock.balanceOf t' x = ERC20Mock.balanceOf t x).
Proof.
  intros Hwf Hto Ha Hsup.
  assert (ERC20Mock.mint (ERC20Mock._owner t) to amount t
          = ERC20Mock._update address0 to amount t) as E.
  { unfold ERC20Mock.mint, ERC20Mock._mint. rewrite checkOwner_self. simpl.
    by rewrite decide_False. }
  pose proof (update_mint to amount t Hto Hsup) as Hu. rewrite <- E in Hu.
  eexists. split; [exact Hu|]. rewrite E in Hu.
  pose proof (balanceOf_le_supply t to Hwf).
  pose proof (balanceOf_nonneg t to Hwf).
  split; [eapply update_wf; [done | apply Ha | exact Hu] |].
  rewrite !balanceOf_emit, !balanceOf_set_balance.
  rewrite (decide_True (P := to = to)) by done.
  change (ERC20Mock.balanceOf (ERC20Mock.set_totalSupply _ t) to)
    with (ERC20Mock.balanceOf t to).
  destruct Hwf as (_ & _ & Hmax).
  rewrite wrap256_small by lia.
  split_and!; try done.
  intros x Hx. rewrite !balanceOf_emit, !balanceOf_set_balance.
  by rewrite decide_False.
Qed.

Lemma burnFrom_spec from amount t :
  ERC20_wf t -> from <> address0 ->
  0 <= amount <= ERC20Mock.balanceOf t from ->
  exists t',
    ERC20Mock.burnFrom (ERC20Mock._owner t) from amount t = Ok t'
    /\ ERC20_wf t'
    /\ ERC20Mock._owner t' = ERC20Mock._owner t
    /\ ERC20Mock._totalSupply t' = ERC20Mock._totalSupply t - amount
    /\ ERC20Mock.events t' = ERC20Mock.events t ++ [Transfer from address0 amount]
    /\ ERC20Mock.balanceOf t' from = ERC20Mock.balanceOf t from - amount
    /\ (forall x, x <> from ->
                  ERC20Mock.balanceOf t' x = ERC20Mock.balanceOf t x).
Proof.
  intros Hwf Hfrom Ha.
  pose proof (burnFrom_owner from amount t Hfrom (proj2 Ha)) as Hu.
  eexists. split; [exact Hu|].
  pose proof (balanceOf_le_supply t from Hwf).
  split.
  { eapply (dispatch_wf _ (ERC20Mock.BurnFrom from amount));
      [exact Hwf | | exact Hu].
    destruct Hwf as (_ & _ & Hmax). simpl. unfold is_uint256. lia. }
  destruct Hwf as (_ & _ & Hmax).
  cbn [ERC20Mock.emit ERC20Mock.set_totalSupply ERC20Mock._totalSupply
       ERC20Mock._owner ERC20Mock.events ERC20Mock.set_balance].
  rewrite wrap256_small by lia.
  split_and!; try done.
  - unfold ERC20Mock.balanceOf at 1. simpl. by rewrite lookup_insert_eq.
  - intros x Hx. unfold ERC20Mock.balanceOf at 1. simpl.
    by rewrite lookup_insert_ne.
Qed.

(** ** What the four bridge operations do in a wired deployment *)

Lemma wired_addresses relayer w :
  wired relayer w ->
  addr_sourceToken (addresses w) <> address0
  /\ addr_wrappedToken (addresses w) <> address0
  /\ addr_sourceBridge (addresses w) <> address0
  /\ addr_destBridge (addresses w) <> address0
  /\ addr_wrappedToken (addresses w) <> addr_sourceToken (addresses w).
Proof.
  intros (Hd & _). unfold distinct_addresses in Hd.
  apply NoDup_cons in Hd as (H0 & Hd).
  apply NoDup_cons in Hd as (H1 & Hd).
  rewrite !not_elem_of_cons in H0. rewrite !not_elem_of_cons in H1.
  destruct H0 as (? & ? & ? & ? & _). destruct H1 as (? & _).
  split_and!; congruence.
Qed.

Lemma wired_set_sourceToken relayer t w :
  wired relayer w -> wired relayer (set_sourceToken t w).
Proof. done. Qed.

Lemma wired_set_wrappedToken relayer t w :
  ERC20Mock._owner t = ERC20Mock._owner (wrappedToken w) ->
  wired relayer w -> wired relayer (set_wrappedToken t w).
Proof.
  intros Ho (H1 & H2 & H3 & H4 & H5 & H6).
  unfold wired; simpl. rewrite Ho. done.
Qed.

Lemma wired_dest_emit relayer e w :
  wired relayer w -> wired relayer (BridgeDestinationChain.emit e w).
Proof. done. Qed.

Lemma lock_spec relayer w U amount destination :
  wired relayer w -> ERC20_wf (sourceToken w) ->
  U <> address0 -> U <> addr_sourceBridge (addresses w) ->
  0 < amount <= ERC20Mock.balanceOf (sourceToken w) U ->
  amount <= ERC20Mock.allowance (sourceToken w) U
                                (addr_sourceBridge (addresses w)) ->
  exists t',
    call U (Source_lock amount destination) w
    = Ok (BridgeSourceChain.emit (TokenLocked U amount destination)
            (set_sourceToken t' w))
    /\ ERC20_wf t'
    /\ ERC20Mock._totalSupply t' = ERC20Mock._totalSupply (sourceToken w)
    /\ ERC20Mock.balanceOf t' U
       = ERC20Mock.balanceOf (sourceToken w) U - amount
    /\ ERC20Mock.balanceOf t' (addr_sourceBridge (addresses w))
       = ERC20Mock.balanceOf (sourceToken w) (addr_sourceBridge (addresses w))
         + amount
    /\ (forall x, x <> U -> x <> addr_sourceBridge (addresses w) ->
          ERC20Mock.balanceOf t' x = ERC20Mock.balanceOf (sourceToken w) x).
Proof.
  intros Hw Hwf HU HUb Ham Hall.
  pose proof (wired_addresses _ _ Hw) as (_ & _ & Hb0 & _ & _).
  destruct Hw as (_ & Htok & _).
  destruct (transferFrom_spec (addr_sourceBridge (addresses w)) U
              (addr_sourceBridge (addresses w)) amount (sourceToken w))
    as (t' & Ht & Hwf' & _ & Hts & _ & HbU & Hbb & Hx);
    try done; try lia.
  exists t'. split; [|done].
  simpl. unfold BridgeSourceChain.lock.
  rewrite bool_decide_eq_true_2 by lia. simpl.
  rewrite Htok, callToken_source, Ht. reflexivity.
Qed.

Lemma mintWrapped_spec relayer w user amount :
  wired relayer w -> ERC20_wf (wrappedToken w) ->
  user <> address0 -> 0 < amount ->
  ERC20Mock._totalSupply (wrappedToken w) + amount <= MAX_UINT256 ->
  exists t',
    call relayer (Dest_mintWrapped user amount) w = Ok (set_wrappedToken t' w)
    /\ ERC20_wf t'
    /\ ERC20Mock._owner t' = ERC20Mock._owner (wrappedToken w)
    /\ ERC20Mock._totalSupply t'
       = ERC20Mock._totalSupply (wrappedToken w) + amount
    /\ ERC20Mock.events t'
       = ERC20Mock.events (wrappedToken w) ++ [Transfer address0 user amount]
    /\ ERC20Mock.balanceOf t' user
       = ERC20Mock.balanceOf (wrappedToken w) user + amount
    /\ (forall x, x <> user ->
          ERC20Mock.balanceOf t' x = ERC20Mock.balanceOf (wrappedToken w) x).
Proof.
  intros Hw Hwf Hu Ham Hsup.
  pose proof (wired_addresses _ _ Hw) as (_ & _ & _ & _ & Hne).
  destruct Hw as (_ & _ & Htok & Hown & _ & Hrel).
  destruct (mint_spec user amount (wrappedToken w)) as (t' & Ht & Hrest);
    try done; try lia.
  exists t'. split; [|done].
  simpl. unfold BridgeDestinationChain.mintWrapped,
    BridgeDestinationChain.onlyRelayer.
  rewrite bool_decide_eq_true_2 by done. simpl.
  rewrite bool_decide_eq_true_2 by lia. simpl.
  rewrite Htok, callToken_wrapped by done. rewrite <- Hown, Ht. reflexivity.
Qed.

Lemma burn_spec relayer w U amount destination :
  wired relayer w -> ERC20_wf (wrappedToken w) ->
  U <> address0 ->
  0 < amount <= ERC20Mock.balanceOf (wrappedToken w) U ->
  exists t',
    call U (Dest_burn amount destination) w
    = Ok (BridgeDestinationChain.emit (TokenBurned U amount destination)
            (set_wrappedToken t' w))
    /\ ERC20_wf t'
    /\ ERC20Mock._owner t' = ERC20Mock._owner (wrappedToken w)
    /\ ERC20Mock._totalSupply t'
       = ERC20Mock._totalSupply (wrappedToken w) - amount
    /\ ERC20Mock.events t'
       = ERC20Mock.events (wrappedToken w) ++ [Transfer U address0 amount]
    /\ ERC20Mock.balanceOf t' U
       = ERC20Mock.balanceOf (wrappedToken w) U - amount
    /\ (forall x, x <> U ->
          ERC20Mock.balanceOf t' x = ERC20Mock.balanceOf (wrappedToken w) x).
Proof.
  intros Hw Hwf HU Ham.
  pose proof (wired_addresses _ _ Hw) as (_ & _ & _ & _ & Hne).
  destruct Hw as (_ & _ & Htok & Hown & _ & _).
  destruct (burnFrom_spec U amount (wrappedToken w)) as (t' & Ht & Hrest);
    try done; try lia.
  exists t'. split; [|done].
  simpl. unfold BridgeDestinationChain.burn.
  rewrite bool_decide_eq_true_2 by lia. simpl.
  rewrite Htok, callToken_wrapped by done. rewrite <- Hown, Ht. reflexivity.
Qed.

Lemma release_spec relayer w user amount :
  wired relayer w -> ERC20_wf (sourceToken w) ->
  user <> address0 -> user <> addr_sourceBridge (addresses w) ->
  0 < amount <= ERC20Mock.balanceOf (sourceToken w)
                                    (addr_sourceBridge (addresses w)) ->
  exists t',
    call relayer (Source_release user amount) w = Ok (set_sourceToken t' w)
    /\ ERC20_wf t'
    /\ ERC20Mock._totalSupply t' = ERC20Mock._totalSupply (sourceToken w)
    /\ ERC20Mock.balanceOf t' (addr_sourceBridge (addresses w))
       = ERC20Mock.balanceOf (sourceToken w) (addr_sourceBridge (addresses w))
         - amount
    /\ ERC20Mock.balanceOf t' user
       = ERC20Mock.balanceOf (sourceToken w) user + amount
    /\ (forall x, x <> addr_sourceBridge (addresses w) -> x <> user ->
          ERC20Mock.balanceOf t' x = ERC20Mock.balanceOf (sourceToken w) x).
Proof.
  intros Hw Hwf Hu Hub Ham.
  pose proof (wired_addresses _ _ Hw) as (_ & _ & Hb0 & _ & _).
  destruct Hw as (_ & Htok & _ & _ & Hrel & _).
  destruct (move_spec (addr_sourceBridge (addresses w)) user amount
              (sourceToken w))
    as (t' & Ht & Hwf' & _ & Hts & _ & Hbb & Hbu & Hx);
    try done; try lia.
  exists t'. split; [|done].
  simpl. unfold BridgeSourceChain.release, BridgeSourceChain.onlyRelayer.
  rewrite bool_decide_eq_true_2 by done. simpl.
  rewrite bool_decide_eq_true_2 by lia. simpl.
  rewrite Htok, callToken_source. unfold ERC20Mock.transfer. rewrite Ht.
  reflexivity.
Qed.

(** ** The ERC20 invariant holds in every state the system can reach *)

Lemma callToken_wf target sender tc w w' :
  callToken target (ERC20Mock.dispatch sender tc) w = Ok w' ->
  token_call_typed tc ->
  ERC20_wf (sourceToken w) -> ERC20_wf (wrappedToken w) ->
  ERC20_wf (sourceToken w') /\ ERC20_wf (wrappedToken w').
Proof.
  intros H Hty Hs Hw.
  apply callToken_Ok in H as [(t & Ht & ->)|(t & Ht & ->)]; simpl.
  - split; [exact (dispatch_wf _ _ _ _ Hs Hty Ht) | done].
  - split; [done | exact (dispatch_wf _ _ _ _ Hw Hty Ht)].
Qed.

Lemma call_wf sender c w w' :
  call_typed c ->
  ERC20_wf (sourceToken w) -> ERC20_wf (wrappedToken w) ->
  call sender c w = Ok w' ->
  ERC20_wf (sourceToken w') /\ ERC20_wf (wrappedToken w').
Proof.
  intros Hty Hs Hw H.
  destruct c as [tk tc|amount destination|user amount|newRelayer|newOwner|
                 |user amount|amount destination|newRelayer|newOwner|];
    simpl in H, Hty.
  - destruct tk; simpl in H; apply bind_Ok in H as (t & Ht & H);
      injection H as <-; simpl.
    + split; [exact (dispatch_wf _ _ _ _ Hs Hty Ht) | done].
    + split; [done | exact (dispatch_wf _ _ _ _ Hw Hty Ht)].
  - unfold BridgeSourceChain.lock in H.
    apply bind_Ok in H as ([] & _ & H).
    apply bind_Ok in H as (w1 & H1 & H). injection H as <-.
    by apply (callToken_wf _ (addr_sourceBridge (addresses w))
                (ERC20Mock.TransferFrom sender
                   (addr_sourceBridge (addresses w)) amount)) in H1.
  - unfold BridgeSourceChain.release in H.
    apply bind_Ok in H as ([] & _ & H). apply bind_Ok in H as ([] & _ & H).
    by apply (callToken_wf _ (addr_sourceBridge (addresses w))
                (ERC20Mock.TransferTo user amount)) in H.
  - unfold BridgeSourceChain.setRelayer in H.
    apply bind_Ok in H as ([] & _ & H). by injection H as <-.
  - unfold BridgeSourceChain.transferOwnership in H.
    apply bind_Ok in H as (r & _ & H). by injection H as <-.
  - unfold BridgeSourceChain.renounceOwnership in H.
    apply bind_Ok in H as (r & _ & H). by injection H as <-.
  - unfold BridgeDestinationChain.mintWrapped in H.
    apply bind_Ok in H as ([] & _ & H). apply bind_Ok in H as ([] & _ & H).
    by apply (callToken_wf _ (addr_destBridge (addresses w))
                (ERC20Mock.Mint user amount)) in H.
  - unfold BridgeDestinationChain.burn in H.
    apply bind_Ok in H as ([] & _ & H).
    apply bind_Ok in H as (w1 & H1 & H). injection H as <-.
    by apply (callToken_wf _ (addr_destBridge (addresses w))
                (ERC20Mock.BurnFrom sender amount)) in H1.
  - unfold BridgeDestinationChain.setRelayer in H.
    apply bind_Ok in H as ([] & _ & H). by injection H as <-.
  - unfold BridgeDestinationChain.transferOwnership in H.
    apply bind_Ok in H as (r & _ & H). by injection H as <-.
  - unfold BridgeDestinationChain.renounceOwnership in H.
    apply bind_Ok in H as (r & _ & H). by injection H as <-.
Qed.

Lemma exec_wf sender c w :
  call_typed c ->
  ERC20_wf (sourceToken w) -> ERC20_wf (wrappedToken w) ->
  ERC20_wf (sourceToken (exec sender c w))
  /\ ERC20_wf (wrappedToken (exec sender c w)).
Proof.
  intros Hty Hs Hw. unfold exec.
  destruct (call sender c w) as [w'|e] eqn:H; [|done].
  by eapply call_wf.
Qed.

Lemma run_wf txs w :
  Forall (fun tx => call_typed (snd tx)) txs ->
  ERC20_wf (sourceToken w) -> ERC20_wf (wrappedToken w) ->
  ERC20_wf (sourceToken (run txs w)) /\ ERC20_wf (wrappedToken (run txs w)).
Proof.
  intros Hty. revert w.
  induction Hty as [|[sender c] txs Hc _ IH]; intros w Hs Hw; [done|].
  simpl. destruct (exec_wf sender c w Hc Hs Hw). by apply IH.
Qed.

Lemma deploy_wf owner relayer a w0 :
  Relayer.deploy owner relayer a = Ok w0 ->
  ERC20_wf (sourceToken w0) /\ ERC20_wf (wrappedToken w0).
Proof.
  unfold Relayer.deploy. intros H.
  eapply call_wf in H; [done | done | apply constructor_wf ..].
Qed.

(** relayer.ts leaves the deployment wired. *)
Lemma deploy_wired owner relayer a w0 :
  distinct_addresses a ->
  Relayer.deploy owner relayer a = Ok w0 -> wired relayer w0.
Proof.
  unfold Relayer.deploy. simpl. intros Hd H.
  apply bind_Ok in H as (t & Ht & H). injection H as <-.
  unfold ERC20Mock.transferOwnership in Ht.
  apply bind_Ok in Ht as (r & Hr & Ht). injection Ht as <-.
  apply Ownable_transferOwnership_Ok in Hr as (_ & _ & ->).
  by unfold wired.
Qed.

(** ** The listeners *)

Lemma react_world relayer d w :
  fst (Relayer.react relayer d w) = exec relayer (reaction d) w.
Proof.
  destruct d as [[[[user amount] destination] b t i]
                |[[[user amount] destination] b t i]];
    unfold Relayer.react, Relayer.onTokenLocked, Relayer.onTokenBurned,
      reaction, exec; cbn [Relayer.args];
    match goal with |- context [call ?r ?c ?w] => by destruct (call r c w) end.
Qed.

Lemma react_sent relayer d w :
  Relayer.sent (snd (Relayer.react relayer d w)) = [(relayer, reaction d)].
Proof.
  destruct d as [[[[user amount] destination] b t i]
                |[[[user amount] destination] b t i]];
    unfold Relayer.react, Relayer.onTokenLocked, Relayer.onTokenBurned,
      reaction; cbn [Relayer.args];
    match goal with |- context [call ?r ?c ?w] => by destruct (call r c w) end.
Qed.

Lemma react_successes relayer d w :
  successes (snd (Relayer.react relayer d w))
  = if is_ok (call relayer (reaction d) w) then 1%nat else 0%nat.
Proof.
  destruct d as [[[[user amount] destination] b t i]
                |[[[user amount] destination] b t i]];
    unfold Relayer.react, Relayer.onTokenLocked, Relayer.onTokenBurned,
      reaction; cbn [Relayer.args];
    match goal with |- context [call ?r ?c ?w] => by destruct (call r c w) end.
Qed.

(** C4 (as amended). The call a listener submits is addressed to the
    [destination] field of the event, not to its [user] field:
    [mintWrapped(destination, amount)] for a TokenLocked event and
    [release(destination, amount)] for a TokenBurned event, whatever the
    two fields are; the world changes as that one call changes it. *)
Theorem listener_pays_destination
    (relayer : Z) (user amount destination b t i : Z) (w : World) :
  let event := Relayer.mkPayload (user, amount, destination) b t i in
  Relayer.sent (snd (Relayer.onTokenLocked relayer event w))
  = [(relayer, Dest_mintWrapped destination amount)]
  /\ fst (Relayer.onTokenLocked relayer event w)
     = exec relayer (Dest_mintWrapped destination amount) w
  /\ Relayer.sent (snd (Relayer.onTokenBurned relayer event w))
     = [(relayer, Source_release destination amount)]
  /\ fst (Relayer.onTokenBurned relayer event w)
     = exec relayer (Source_release destination amount) w.
Proof.
  intros event. split_and!.
  - apply (react_sent relayer (Relayer.Locked event)).
  - apply (react_world relayer (Relayer.Locked event)).
  - apply (react_sent relayer (Relayer.Burned event)).
  - apply (react_world relayer (Relayer.Burned event)).
Qed.

(** C4, as stated, fails: for a lock by account 3 with destination 4 the
    listener sends [mintWrapped(4, 100)], which is not the specification's
    [mint(user, amount)]; the wrapped tokens end up with 4 and the user has
    none.  The same for a burn. *)
Lemma listener_does_not_pay_user :
  let event := Relayer.mkPayload (demo_user, 100, 4) 7 0 0 in
  let w' := fst (Relayer.onTokenLocked demo_relayer event demo_locked) in
  Relayer.sent (snd (Relayer.onTokenLocked demo_relayer event demo_locked))
  <> [(demo_relayer, spec_action (Relayer.Locked event))]
  /\ ERC20Mock.balanceOf (wrappedToken w') demo_user = 0
  /\ ERC20Mock.balanceOf (wrappedToken w') 4 = 100
  /\ Relayer.sent (snd (Relayer.onTokenBurned demo_relayer event demo_locked))
     <> [(demo_relayer, spec_action (Relayer.Burned event))]
  /\ ERC20Mock.balanceOf
       (sourceToken (fst (Relayer.onTokenBurned demo_relayer event demo_locked)))
       4 = 100.
Proof.
  vm_compute. split_and!; try reflexivity; discriminate.
Qed.

Lemma react_failure relayer d w e :
  call relayer (reaction d) w = Revert e ->
  exists before line,
    Relayer.react relayer d w
    = (w, before ++ [Relayer.send relayer (reaction d);
                     Relayer.console_error line e;
                     Relayer.console_log "---"])
    /\ Relayer.sent before = [].
Proof.
  destruct d as [[[[user amount] destination] b t i]
                |[[[user amount] destination] b t i]];
    unfold Relayer.react, Relayer.onTokenLocked, Relayer.onTokenBurned,
      reaction; cbn [Relayer.args]; intros ->;
    eexists (_ :: _ :: _ :: _ :: _ :: _ :: []), _; split; reflexivity.
Qed.

(** C7 (as amended). When the submission for a delivery reverts, the
    listener catches the error, prints it with [console.error] and returns:
    the transaction was sent exactly once and is not sent again, no success
    is reported, no record of the transfer is kept and the world, with the
    funds locked on the source chain, is as it was. *)
Theorem failed_submission_is_logged_once
    (relayer : Z) (d : Relayer.Delivery) (w : World) (e : RevertReason) :
  call relayer (reaction d) w = Revert e ->
  fst (Relayer.react relayer d w) = w
  /\ Relayer.sent (snd (Relayer.react relayer d w)) = [(relayer, reaction d)]
  /\ successes (snd (Relayer.react relayer d w)) = 0%nat
  /\ exists before line,
       snd (Relayer.react relayer d w)
       = before ++ [Relayer.send relayer (reaction d);
                    Relayer.console_error line e;
                    Relayer.console_log "---"].
Proof.
  intros H. split_and!.
  - rewrite react_world. by apply exec_Revert in H.
  - apply react_sent.
  - rewrite react_successes, H. reflexivity.
  - destruct (react_failure relayer d w e H) as (before & line & E & _).
    exists before, line. by rewrite E.
Qed.

Lemma failed_submission_is_logged_once_witness :
  fst (Relayer.react demo_relayer (Relayer.Locked demo_lock_event)
                     demo_mismatch) = demo_mismatch
  /\ Relayer.sent (snd (Relayer.react demo_relayer
                          (Relayer.Locked demo_lock_event) demo_mismatch))
     = [(demo_relayer, Dest_mintWrapped demo_user 100)]
  /\ ERC20Mock.balanceOf (sourceToken demo_mismatch)
                         (addr_sourceBridge demo_addresses) = 100.
Proof.
  destruct (failed_submission_is_logged_once demo_relayer
              (Relayer.Locked demo_lock_event) demo_mismatch
              (ErrorMsg "BridgeDest: Caller is not the relayer"))
    as (Hw & Hs & _).
  - vm_compute. reflexivity.
  - split; [exact Hw|]. split; [exact Hs|]. vm_compute. reflexivity.
Defined.

(** The claim as the specification words it fails: with a maximum of three
    retries the rule submits a persistently rejected mint four times and
    dead-letters the transfer, whereas the listener submits it once and
    stops. *)
Lemma failed_mint_is_not_retried :
  let d := Relayer.Locked demo_lock_event in
  call demo_relayer (reaction d) demo_mismatch
  = Revert (ErrorMsg "BridgeDest: Caller is not the relayer")
  /\ spec_dispatch 3 demo_relayer (reaction d) demo_mismatch
     = (demo_mismatch, repeat (demo_relayer, reaction d) 4, DeadLettered)
  /\ Relayer.sent (snd (Relayer.react demo_relayer d demo_mismatch))
     = repeat (demo_relayer, reaction d) 1
  /\ Relayer.sent (snd (Relayer.react demo_relayer d demo_mismatch))
     <> snd (fst (spec_dispatch 3 demo_relayer (reaction d) demo_mismatch)).
Proof.
  vm_compute. split_and!; try reflexivity; discriminate.
Qed.

(** ** Confirmation depth *)

(** C8 (as amended). A listener acts on every log it is handed, at once and
    at any depth: what it does depends on the [args] of the log only, not on
    the block the log is in, and it always submits its transaction. *)
Theorem listener_ignores_depth
    (relayer : Z) (a : Z * Z * Z) (b t i b' t' i' : Z) (w : World) :
  Relayer.onTokenLocked relayer (Relayer.mkPayload a b t i) w
  = Relayer.onTokenLocked relayer (Relayer.mkPayload a b' t' i') w
  /\ Relayer.onTokenBurned relayer (Relayer.mkPayload a b t i) w
     = Relayer.onTokenBurned relayer (Relayer.mkPayload a b' t' i') w
  /\ length (Relayer.sent
               (snd (Relayer.onTokenLocked relayer (Relayer.mkPayload a b t i) w)))
     = 1%nat
  /\ length (Relayer.sent
               (snd (Relayer.onTokenBurned relayer (Relayer.mkPayload a b t i) w)))
     = 1%nat.
Proof.
  split_and!; try reflexivity.
  - exact (f_equal length
             (react_sent relayer (Relayer.Locked (Relayer.mkPayload a b t i)) w)).
  - exact (f_equal length
             (react_sent relayer (Relayer.Burned (Relayer.mkPayload a b t i)) w)).
Qed.

(** The claim as the specification words it fails: with a confirmation depth
    of 5 and the chain at height 7, the log of a lock mined in block 7 has no
    block on top of it; the gate would withhold it, the listener mints. *)
Lemma shallow_event_is_relayed :
  let d := Relayer.Locked demo_lock_event in
  confirmations 7 (Relayer.payload d) = 0
  /\ spec_gate 5 7 demo_relayer d demo_locked = (demo_locked, [])
  /\ Relayer.sent (snd (Relayer.react demo_relayer d demo_locked))
     = [(demo_relayer, Dest_mintWrapped demo_user 100)]
  /\ ERC20Mock.balanceOf
       (wrappedToken (fst (Relayer.react demo_relayer d demo_locked)))
       demo_user = 100
  /\ Relayer.react demo_relayer d demo_locked
     <> spec_gate 5 7 demo_relayer d demo_locked.
Proof.
  vm_compute. split_and!; try reflexivity; discriminate.
Qed.

(** ** The two legs of a transfer *)

Lemma react_Ok relayer d w w' :
  call relayer (reaction d) w = Ok w' ->
  fst (Relayer.react relayer d w) = w'
  /\ successes (snd (Relayer.react relayer d w)) = 1%nat.
Proof.
  intros H. rewrite react_world, react_successes, H.
  split; [by apply exec_Ok | reflexivity].
Qed.

Lemma emitted_same l : emitted l l = [].
Proof. unfold emitted. by rewrite drop_all. Qed.

Lemma emitted_app l evs : emitted l (l ++ evs) = evs.
Proof. unfold emitted. by rewrite drop_app_length. Qed.

(** Lock by [U] for [U], then the TokenLocked listener. *)
Lemma lock_and_mint relayer w U amount b t i :
  wired relayer w ->
  ERC20_wf (sourceToken w) -> ERC20_wf (wrappedToken w) ->
  U <> address0 -> U <> addr_sourceBridge (addresses w) ->
  0 < amount <= ERC20Mock.balanceOf (sourceToken w) U ->
  amount <= ERC20Mock.allowance (sourceToken w) U
                                (addr_sourceBridge (addresses w)) ->
  ERC20Mock._totalSupply (wrappedToken w) + amount <= MAX_UINT256 ->
  exists w1 w2,
    call U (Source_lock amount U) w = Ok w1
    /\ filter subscribed (newly_emitted w w1) = [TokenLocked U amount U]
    /\ fst (Relayer.react relayer
              (Relayer.Locked (Relayer.mkPayload (U, amount, U) b t i)) w1) = w2
    /\ successes
         (snd (Relayer.react relayer
                 (Relayer.Locked (Relayer.mkPayload (U, amount, U) b t i)) w1))
       = 1%nat
    /\ wired relayer w2 /\ addresses w2 = addresses w
    /\ ERC20_wf (sourceToken w2) /\ ERC20_wf (wrappedToken w2)
    /\ ERC20Mock._totalSupply (wrappedToken w2)
       = ERC20Mock._totalSupply (wrappedToken w) + amount
    /\ ERC20Mock._totalSupply (sourceToken w2)
       = ERC20Mock._totalSupply (sourceToken w)
    /\ (forall x, ERC20Mock.balanceOf (wrappedToken w2) x
                  = ERC20Mock.balanceOf (wrappedToken w) x
                    + if decide (x = U) then amount else 0)
    /\ (forall x, ERC20Mock.balanceOf (sourceToken w2) x
                  = ERC20Mock.balanceOf (sourceToken w) x
                    + (if decide (x = addr_sourceBridge (addresses w))
                       then amount else 0)
                    - (if decide (x = U) then amount else 0)).
Proof.
  intros Hw Hwfs Hwfw HU HUb Ham Hall Hsup.
  destruct (lock_spec relayer w U amount U Hw Hwfs HU HUb Ham Hall)
    as (ts & Hlock & Hwfs' & Htss & HbU & Hbb & Hbx).
  set (w1 := BridgeSourceChain.emit (TokenLocked U amount U)
               (set_sourceToken ts w)) in *.
  assert (wired relayer w1) as Hw1 by done.
  destruct (mintWrapped_spec relayer w1 U amount Hw1 Hwfw HU (proj1 Ham) Hsup)
    as (tw & Hmint & Hwfw' & Hown & Hsup' & _ & HwU & Hwx).
  destruct (react_Ok relayer
              (Relayer.Locked (Relayer.mkPayload (U, amount, U) b t i))
              w1 _ Hmint) as (Hfst & Hsucc).
  exists w1, (set_wrappedToken tw w1).
  split; [exact Hlock|]. split.
  { unfold newly_emitted, w1; simpl. by rewrite emitted_app, emitted_same. }
  split; [exact Hfst|]. split; [exact Hsucc|].
  split; [by apply wired_set_wrappedToken|].
  split_and!; try done.
  - intros x. simpl. destruct (decide (x = U)) as [->|Hx].
    + exact HwU.
    + rewrite Hwx by done. simpl. lia.
  - intros x. simpl. destruct (decide (x = U)) as [->|Hx].
    + rewrite decide_False by done. rewrite HbU. lia.
    + destruct (decide (x = addr_sourceBridge (addresses w))) as [->|Hxb].
      * rewrite Hbb. lia.
      * rewrite Hbx by done. lia.
Qed.

(** Burn by [U] for [U], then the TokenBurned listener. *)
Lemma burn_and_release relayer w U amount b t i :
  wired relayer w ->
  ERC20_wf (sourceToken w) -> ERC20_wf (wrappedToken w) ->
  U <> address0 -> U <> addr_sourceBridge (addresses w) ->
  0 < amount <= ERC20Mock.balanceOf (wrappedToken w) U ->
  amount <= ERC20Mock.balanceOf (sourceToken w)
                                (addr_sourceBridge (addresses w)) ->
  exists w1 w2,
    call U (Dest_burn amount U) w = Ok w1
    /\ filter subscribed (newly_emitted w w1) = [TokenBurned U amount U]
    /\ fst (Relayer.react relayer
              (Relayer.Burned (Relayer.mkPayload (U, amount, U) b t i)) w1) = w2
    /\ successes
         (snd (Relayer.react relayer
                 (Relayer.Burned (Relayer.mkPayload (U, amount, U) b t i)) w1))
       = 1%nat
    /\ wired relayer w2 /\ addresses w2 = addresses w
    /\ ERC20_wf (sourceToken w2) /\ ERC20_wf (wrappedToken w2)
    /\ ERC20Mock._totalSupply (wrappedToken w2)
       = ERC20Mock._totalSupply (wrappedToken w) - amount
    /\ ERC20Mock._totalSupply (sourceToken w2)
       = ERC20Mock._totalSupply (sourceToken w)
    /\ (forall x, ERC20Mock.balanceOf (wrappedToken w2) x
                  = ERC20Mock.balanceOf (wrappedToken w) x
                    - if decide (x = U) then amount else 0)
    /\ (forall x, ERC20Mock.balanceOf (sourceToken w2) x
                  = ERC20Mock.balanceOf (sourceToken w) x
                    - (if decide (x = addr_sourceBridge (addresses w))
                       then amount else 0)
                    + (if decide (x = U) then amount else 0)).
Proof.
  intros Hw Hwfs Hwfw HU HUb Ham Hlocked.
  destruct (burn_spec relayer w U amount U Hw Hwfw HU Ham)
    as (tw & Hburn & Hwfw' & Hown & Hsup' & _ & HwU & Hwx).
  set (w1 := BridgeDestinationChain.emit (TokenBurned U amount U)
               (set_wrappedToken tw w)) in *.
  assert (wired relayer w1) as Hw1.
  { apply wired_dest_emit. by apply wired_set_wrappedToken. }
  destruct (release_spec relayer w1 U amount Hw1 Hwfs HU HUb)
    as (ts & Hrel & Hwfs' & Htss & Hbb & HbU & Hbx); [simpl; lia|].
  change (addresses w1) with (addresses w) in Hbb, Hbx.
  change (sourceToken w1) with (sourceToken w) in Hbb, HbU, Hbx.
  destruct (react_Ok relayer
              (Relayer.Burned (Relayer.mkPayload (U, amount, U) b t i))
              w1 _ Hrel) as (Hfst & Hsucc).
  exists w1, (set_sourceToken ts w1).
  split; [exact Hburn|]. split.
  { unfold newly_emitted, w1; simpl. by rewrite emitted_app, emitted_same. }
  split; [exact Hfst|]. split; [exact Hsucc|].
  split; [by apply wired_set_sourceToken|].
  split_and!; try done.
  - intros x. simpl. destruct (decide (x = U)) as [->|Hx].
    + exact HwU.
    + rewrite Hwx by done. lia.
  - intros x. simpl. destruct (decide (x = U)) as [->|Hx].
    + rewrite decide_False by done. rewrite HbU. simpl. lia.
    + destruct (decide (x = addr_sourceBridge (addresses w))) as [->|Hxb].
      * rewrite Hbb. simpl. lia.
      * rewrite Hbx by done. simpl. lia.
Qed.

(** C5. In a wired deployment whose wrapped supply has room for 100 more, a
    user [U] who holds at least 100 source tokens and has approved the source
    bridge for them calls [lock(100, U)]; the call succeeds and emits
    TokenLocked(U, 100, U); the listener's [mintWrapped] for that event
    succeeds.  Afterwards [U]'s wrapped balance has grown by 100 (it is 100
    when [U] held no wrapped tokens before, and only then), [U]'s source
    balance has dropped by 100 and the source bridge holds the 100 tokens on
    top of what it held. *)
Theorem lock_100_mints_100 (relayer : Z) (w : World) (U b t i : Z) :
  wired relayer w ->
  ERC20_wf (sourceToken w) -> ERC20_wf (wrappedToken w) ->
  externally_owned (addresses w) U ->
  100 <= ERC20Mock.balanceOf (sourceToken w) U ->
  100 <= ERC20Mock.allowance (sourceToken w) U
                             (addr_sourceBridge (addresses w)) ->
  ERC20Mock._totalSupply (wrappedToken w) + 100 <= MAX_UINT256 ->
  exists w1 d,
    call U (Source_lock 100 U) w = Ok w1
    /\ filter subscribed (newly_emitted w w1) = [TokenLocked U 100 U]
    /\ Relayer.subscription (TokenLocked U 100 U) b t i = Some d
    /\ successes (snd (Relayer.react relayer d w1)) = 1%nat
    /\ let w2 := fst (Relayer.react relayer d w1) in
       ERC20Mock.balanceOf (wrappedToken w2) U
       = ERC20Mock.balanceOf (wrappedToken w) U + 100
       /\ (ERC20Mock.balanceOf (wrappedToken w) U = 0 ->
           ERC20Mock.balanceOf (wrappedToken w2) U = 100)
       /\ ERC20Mock.balanceOf (sourceToken w2) U
          = ERC20Mock.balanceOf (sourceToken w) U - 100
       /\ ERC20Mock.balanceOf (sourceToken w2) (addr_sourceBridge (addresses w))
          = ERC20Mock.balanceOf (sourceToken w)
                                (addr_sourceBridge (addresses w)) + 100
       /\ 100 <= ERC20Mock.balanceOf (sourceToken w2)
                                     (addr_sourceBridge (addresses w)).
Proof.
  intros Hw Hwfs Hwfw (HU & _ & _ & HUb & _) Hbal Hall Hsup.
  destruct (lock_and_mint relayer w U 100 b t i)
    as (w1 & w2 & Hlock & Hev & Hfst & Hsucc & _ & _ & _ & _ & _ & _ & Hwr
        & Hsr);
    try done; try lia.
  exists w1, (Relayer.Locked (Relayer.mkPayload (U, 100, U) b t i)).
  split; [exact Hlock|]. split; [exact Hev|]. split; [reflexivity|].
  split; [exact Hsucc|]. rewrite Hfst. cbv zeta.
  pose proof (Hwr U) as HwU. pose proof (Hsr U) as HsU.
  pose proof (Hsr (addr_sourceBridge (addresses w))) as Hsb.
  rewrite decide_True in HwU by done.
  rewrite (decide_True (P := U = U)), decide_False in HsU by done.
  rewrite decide_True, decide_False in Hsb by done.
  pose proof (balanceOf_nonneg (sourceToken w)
                (addr_sourceBridge (addresses w)) Hwfs).
  split_and!; lia.
Qed.

(** Closed instances of decidable hypotheses are settled by evaluation. *)
Ltac by_evaluation :=
  apply (bool_decide_eq_true_1 _); vm_compute; reflexivity.

Lemma lock_100_mints_100_witness :
  exists w1 d,
    call demo_user (Source_lock 100 demo_user) demo_funded = Ok w1
    /\ Relayer.subscription (TokenLocked demo_user 100 demo_user) 7 0 0 = Some d
    /\ ERC20Mock.balanceOf
         (wrappedToken (fst (Relayer.react demo_relayer d w1))) demo_user = 100.
Proof.
  destruct (lock_100_mints_100 demo_relayer demo_funded demo_user 7 0 0)
    as (w1 & d & Hlock & _ & Hd & _ & _ & Hbal & _).
  - by_evaluation.
  - by_evaluation.
  - by_evaluation.
  - by_evaluation.
  - vm_compute. discriminate.
  - vm_compute. discriminate.
  - vm_compute. discriminate.
  - exists w1, d. split; [exact Hlock|]. split; [exact Hd|].
    apply Hbal. vm_compute. reflexivity.
Defined.

(** C5, as stated, fails for a user who holds wrapped tokens already.  The
    user of the demonstration run, with the 100 wrapped tokens of a first
    relayed lock, holds 100 source tokens again and has approved the bridge
    for them; the second [lock(100, user)] succeeds and is relayed, and the
    user's wrapped balance is 200, not 100. *)
Lemma second_lock_leaves_200 :
  let w := demo_funded_again in
  let event := Relayer.mkPayload (demo_user, 100, demo_user) 8 0 0 in
  let w1 := exec demo_user (Source_lock 100 demo_user) w in
  let w2 := fst (Relayer.onTokenLocked demo_relayer event w1) in
  100 <= ERC20Mock.balanceOf (sourceToken w) demo_user
  /\ 100 <= ERC20Mock.allowance (sourceToken w) demo_user
                                (addr_sourceBridge (addresses w))
  /\ is_ok (call demo_user (Source_lock 100 demo_user) w) = true
  /\ filter subscribed (newly_emitted w w1)
     = [TokenLocked demo_user 100 demo_user]
  /\ Relayer.subscription (TokenLocked demo_user 100 demo_user) 8 0 0
     = Some (Relayer.Locked event)
  /\ successes (snd (Relayer.onTokenLocked demo_relayer event w1)) = 1%nat
  /\ ERC20Mock.balanceOf (wrappedToken w2) demo_user = 200
  /\ ERC20Mock.balanceOf (wrappedToken w2) demo_user <> 100
  /\ ERC20Mock.balanceOf (sourceToken w2) demo_user = 0
  /\ ERC20Mock.balanceOf (sourceToken w2) (addr_sourceBridge (addresses w))
     = 200.
Proof.
  vm_compute. split_and!; try reflexivity; discriminate.
Qed.

(** C6. In a wired deployment, a user [U] who holds 100 wrapped tokens while
    the source bridge holds at least 100 source tokens calls [burn(100, U)];
    the call succeeds and emits TokenBurned(U, 100, U); the listener's
    [release] for that event succeeds.  Afterwards [U] holds no wrapped
    tokens, the source bridge holds 100 fewer source tokens and [U] holds 100
    more.  Run after a lock of 100 and its mint, the burn and its release
    bring every balance and both total supplies back to where they were. *)
Theorem burn_100_releases_100
    (relayer : Z) (w : World) (U b t i b' t' i' : Z) :
  wired relayer w ->
  ERC20_wf (sourceToken w) -> ERC20_wf (wrappedToken w) ->
  externally_owned (addresses w) U ->
  (ERC20Mock.balanceOf (wrappedToken w) U = 100 ->
   100 <= ERC20Mock.balanceOf (sourceToken w)
                              (addr_sourceBridge (addresses w)) ->
   exists w1 d,
     call U (Dest_burn 100 U) w = Ok w1
     /\ filter subscribed (newly_emitted w w1) = [TokenBurned U 100 U]
     /\ Relayer.subscription (TokenBurned U 100 U) b t i = Some d
     /\ successes (snd (Relayer.react relayer d w1)) = 1%nat
     /\ let w2 := fst (Relayer.react relayer d w1) in
        ERC20Mock.balanceOf (wrappedToken w2) U = 0
        /\ ERC20Mock.balanceOf (sourceToken w2)
                               (addr_sourceBridge (addresses w))
           = ERC20Mock.balanceOf (sourceToken w)
                                 (addr_sourceBridge (addresses w)) - 100
        /\ ERC20Mock.balanceOf (sourceToken w2) U
           = ERC20Mock.balanceOf (sourceToken w) U + 100)
  /\ (100 <= ERC20Mock.balanceOf (sourceToken w) U ->
      100 <= ERC20Mock.allowance (sourceToken w) U
                                 (addr_sourceBridge (addresses w)) ->
      ERC20Mock._totalSupply (wrappedToken w) + 100 <= MAX_UINT256 ->
      exists w1 d1 w3 d3,
        call U (Source_lock 100 U) w = Ok w1
        /\ Relayer.subscription (TokenLocked U 100 U) b t i = Some d1
        /\ call U (Dest_burn 100 U) (fst (Relayer.react relayer d1 w1)) = Ok w3
        /\ Relayer.subscription (TokenBurned U 100 U) b' t' i' = Some d3
        /\ let w4 := fst (Relayer.react relayer d3 w3) in
           (forall x, ERC20Mock.balanceOf (sourceToken w4) x
                      = ERC20Mock.balanceOf (sourceToken w) x)
           /\ (forall x, ERC20Mock.balanceOf (wrappedToken w4) x
                         = ERC20Mock.balanceOf (wrappedToken w) x)
           /\ ERC20Mock._totalSupply (sourceToken w4)
              = ERC20Mock._totalSupply (sourceToken w)
           /\ ERC20Mock._totalSupply (wrappedToken w4)
              = ERC20Mock._totalSupply (wrappedToken w)).
Proof.
  intros Hw Hwfs Hwfw (HU & _ & _ & HUb & _). split.
  - intros Hbal Hlocked.
    destruct (burn_and_release relayer w U 100 b t i)
      as (w1 & w2 & Hburn & Hev & Hfst & Hsucc & _ & _ & _ & _ & _ & _ & Hwr
          & Hsr);
      try done; try lia.
    exists w1, (Relayer.Burned (Relayer.mkPayload (U, 100, U) b t i)).
    split; [exact Hburn|]. split; [exact Hev|]. split; [reflexivity|].
    split; [exact Hsucc|]. rewrite Hfst. cbv zeta.
    pose proof (Hwr U) as HwU. pose proof (Hsr U) as HsU.
    pose proof (Hsr (addr_sourceBridge (addresses w))) as Hsb.
    rewrite decide_True in HwU by done.
    rewrite (decide_True (P := U = U)), decide_False in HsU by done.
    rewrite decide_True, decide_False in Hsb by done.
    split_and!; lia.
  - intros Hbal Hall Hsup.
    destruct (lock_and_mint relayer w U 100 b t i)
      as (w1 & w2 & Hlock & _ & Hfst & _ & Hw2 & Ha2 & Hwfs2 & Hwfw2 & Hts2
          & Htss2 & Hwr2 & Hsr2);
      try done; try lia.
    pose proof (balanceOf_nonneg (wrappedToken w) U Hwfw) as HwU0.
    pose proof (balanceOf_nonneg (sourceToken w)
                  (addr_sourceBridge (addresses w)) Hwfs) as Hsb0.
    destruct (burn_and_release relayer w2 U 100 b' t' i')
      as (w3 & w4 & Hburn & _ & Hfst4 & _ & _ & _ & _ & _ & Hts4 & Htss4 & Hwr4
          & Hsr4);
      try done; try (rewrite Ha2; done).
    { rewrite Hwr2, decide_True by done. lia. }
    { rewrite Ha2, Hsr2, decide_True, decide_False by done. lia. }
    exists w1, (Relayer.Locked (Relayer.mkPayload (U, 100, U) b t i)),
           w3, (Relayer.Burned (Relayer.mkPayload (U, 100, U) b' t' i')).
    split; [exact Hlock|]. split; [reflexivity|].
    rewrite Hfst. split; [exact Hburn|]. split; [reflexivity|].
    rewrite Hfst4. cbv zeta. rewrite Ha2 in Hsr4.
    split_and!.
    + intros x. rewrite Hsr4, Hsr2. lia.
    + intros x. rewrite Hwr4, Hwr2. lia.
    + lia.
    + lia.
Qed.

Lemma burn_100_releases_100_witness :
  (exists w1 d,
      call demo_user (Dest_burn 100 demo_user) demo_relayed = Ok w1
      /\ Relayer.subscription (TokenBurned demo_user 100 demo_user) 9 0 0
         = Some d
      /\ ERC20Mock.balanceOf
           (wrappedToken (fst (Relayer.react demo_relayer d w1))) demo_user = 0
      /\ ERC20Mock.balanceOf
           (sourceToken (fst (Relayer.react demo_relayer d w1))) demo_user
         = ERC20Mock.balanceOf (sourceToken demo_relayed) demo_user + 100)
  /\ (exists w1 d1 w3 d3,
        call demo_user (Source_lock 100 demo_user) demo_funded = Ok w1
        /\ Relayer.subscription (TokenLocked demo_user 100 demo_user) 7 0 0
           = Some d1
        /\ call demo_user (Dest_burn 100 demo_user)
                (fst (Relayer.react demo_relayer d1 w1)) = Ok w3
        /\ Relayer.subscription (TokenBurned demo_user 100 demo_user) 9 0 0
           = Some d3
        /\ forall x,
             ERC20Mock.balanceOf
               (sourceToken (fst (Relayer.react demo_relayer d3 w3))) x
             = ERC20Mock.balanceOf (sourceToken demo_funded) x).
Proof.
  split.
  - destruct (burn_100_releases_100 demo_relayer demo_relayed demo_user
                9 0 0 9 0 0) as [Hleg _]; try by_evaluation.
    destruct Hleg as (w1 & d & Hburn & _ & Hd & _ & Hw & _ & Hs).
    + vm_compute. reflexivity.
    + vm_compute. discriminate.
    + exists w1, d. split_and!; assumption.
  - destruct (burn_100_releases_100 demo_relayer demo_funded demo_user
                7 0 0 9 0 0) as [_ Hround]; try by_evaluation.
    destruct Hround as (w1 & d1 & w3 & d3 & Hlock & Hd1 & Hburn & Hd3 & Hs & _).
    + vm_compute. discriminate.
    + vm_compute. discriminate.
    + vm_compute. discriminate.
    + exists w1, d1, w3, d3. split_and!; assumption.
Defined.

(** ** Repeated deliveries *)

Lemma relay_cons relayer d ds w :
  Relayer.relay relayer (d :: ds) w
  = (fst (Relayer.relay relayer ds (fst (Relayer.react relayer d w))),
     snd (Relayer.react relayer d w)
     ++ snd (Relayer.relay relayer ds (fst (Relayer.react relayer d w)))).
Proof.
  simpl. destruct (Relayer.react relayer d w) as [w1 out1]. simpl.
  by destruct (Relayer.relay relayer ds w1) as [w2 out2].
Qed.

Lemma sent_app out1 out2 :
  Relayer.sent (out1 ++ out2) = Relayer.sent out1 ++ Relayer.sent out2.
Proof. unfold Relayer.sent. apply flat_map_app. Qed.

Lemma successes_app out1 out2 :
  successes (out1 ++ out2) = (successes out1 + successes out2)%nat.
Proof. unfold successes. by rewrite filter_app, length_app. Qed.

Lemma relay_sent relayer d n w :
  Relayer.sent (snd (Relayer.relay relayer (replicate n d) w))
  = replicate n (relayer, reaction d).
Proof.
  revert w. induction n as [|n IH]; intros w; [reflexivity|].
  cbn [replicate]. rewrite relay_cons. cbn [snd].
  by rewrite sent_app, react_sent, IH.
Qed.

Lemma totalMinted_set_wrappedToken t w :
  totalMinted (set_wrappedToken t w) = minted_log t.
Proof. reflexivity. Qed.

Lemma relay_mints relayer user amount destination b t i n w :
  wired relayer w -> ERC20_wf (wrappedToken w) ->
  destination <> address0 -> 0 < amount ->
  ERC20Mock._totalSupply (wrappedToken w) + Z.of_nat n * amount
  <= MAX_UINT256 ->
  let d := Relayer.Locked (Relayer.mkPayload (user, amount, destination) b t i) in
  let w' := fst (Relayer.relay relayer (replicate n d) w) in
  successes (snd (Relayer.relay relayer (replicate n d) w)) = n
  /\ ERC20Mock.balanceOf (wrappedToken w') destination
     = ERC20Mock.balanceOf (wrappedToken w) destination + Z.of_nat n * amount
  /\ totalMinted w' = totalMinted w + Z.of_nat n * amount
  /\ totalLocked w' = totalLocked w.
Proof.
  intros Hw Hwf Hd Ha Hsup d. revert w Hw Hwf Hsup.
  induction n as [|n IH]; intros w Hw Hwf Hsup w'.
  - subst w'. simpl. split_and!; (reflexivity || lia).
  - subst w'. cbn [replicate]. rewrite relay_cons. cbn [fst snd].
    destruct (mintWrapped_spec relayer w destination amount)
      as (tw & Hmint & Hwf' & Hown & Hts & Hev & Hbal & _); try done; try lia.
    destruct (react_Ok relayer d w _ Hmint) as (Hfst & Hsucc).
    rewrite Hfst, successes_app, Hsucc.
    destruct (IH (set_wrappedToken tw w)) as (IH1 & IH2 & IH3 & IH4).
    { by apply wired_set_wrappedToken. }
    { exact Hwf'. }
    { simpl. lia. }
    rewrite IH1, IH2, IH3, IH4. simpl wrappedToken.
    rewrite totalMinted_set_wrappedToken, (minted_log_append _ _ _ Hev).
    rewrite Hbal. change (totalMinted w) with (minted_log (wrappedToken w)).
    change (sum_list (map minted_of [Transfer address0 destination amount]))
      with (amount + 0).
    split_and!; try reflexivity; lia.
Qed.

Lemma relay_releases relayer user amount destination b t i n w :
  wired relayer w -> ERC20_wf (sourceToken w) ->
  destination <> address0 ->
  destination <> addr_sourceBridge (addresses w) -> 0 < amount ->
  Z.of_nat n * amount
  <= ERC20Mock.balanceOf (sourceToken w) (addr_sourceBridge (addresses w)) ->
  let d := Relayer.Burned (Relayer.mkPayload (user, amount, destination) b t i) in
  let w' := fst (Relayer.relay relayer (replicate n d) w) in
  successes (snd (Relayer.relay relayer (replicate n d) w)) = n
  /\ ERC20Mock.balanceOf (sourceToken w') destination
     = ERC20Mock.balanceOf (sourceToken w) destination + Z.of_nat n * amount
  /\ ERC20Mock.balanceOf (sourceToken w') (addr_sourceBridge (addresses w))
     = ERC20Mock.balanceOf (sourceToken w) (addr_sourceBridge (addresses w))
       - Z.of_nat n * amount.
Proof.
  intros Hw Hwf Hd Hdb Ha Hbal d. revert w Hw Hwf Hdb Hbal.
  induction n as [|n IH]; intros w Hw Hwf Hdb Hbal w'.
  - subst w'. simpl. split_and!; (reflexivity || lia).
  - subst w'. cbn [replicate]. rewrite relay_cons. cbn [fst snd].
    destruct (release_spec relayer w destination amount)
      as (ts & Hrel & Hwf' & _ & Hbb & Hbd & _); try done; try lia.
    destruct (react_Ok relayer d w _ Hrel) as (Hfst & Hsucc).
    rewrite Hfst, successes_app, Hsucc.
    destruct (IH (set_sourceToken ts w)) as (IH1 & IH2 & IH3).
    { by apply wired_set_sourceToken. }
    { exact Hwf'. }
    { exact Hdb. }
    { simpl. rewrite Hbb. lia. }
    rewrite IH1, IH2. simpl addresses in IH3. rewrite IH3.
    simpl sourceToken. rewrite Hbb, Hbd.
    split_and!; try reflexivity; lia.
Qed.

(** C1 (as amended). The relay keeps no record of the events it has seen:
    every delivery of a log makes its listener send its transaction again.
    Delivered [n] times, a TokenLocked log sends [mintWrapped] [n] times and,
    while the supply fits, each one succeeds and mints [amount] again; a
    TokenBurned log sends [release] [n] times and, while the bridge holds
    enough, each one succeeds and pays [amount] again. *)
Theorem every_delivery_is_relayed
    (relayer : Z) (w : World) (user amount destination b t i : Z) (n : nat) :
  let event := Relayer.mkPayload (user, amount, destination) b t i in
  let afterLocked := Relayer.relay relayer (replicate n (Relayer.Locked event)) w in
  let afterBurned := Relayer.relay relayer (replicate n (Relayer.Burned event)) w in
  Relayer.sent (snd afterLocked)
  = replicate n (relayer, Dest_mintWrapped destination amount)
  /\ Relayer.sent (snd afterBurned)
     = replicate n (relayer, Source_release destination amount)
  /\ (wired relayer w -> destination <> address0 -> 0 < amount ->
      ERC20_wf (wrappedToken w) ->
      ERC20Mock._totalSupply (wrappedToken w) + Z.of_nat n * amount
      <= MAX_UINT256 ->
      successes (snd afterLocked) = n
      /\ ERC20Mock.balanceOf (wrappedToken (fst afterLocked)) destination
         = ERC20Mock.balanceOf (wrappedToken w) destination
           + Z.of_nat n * amount
      /\ totalMinted (fst afterLocked) = totalMinted w + Z.of_nat n * amount
      /\ totalLocked (fst afterLocked) = totalLocked w)
  /\ (wired relayer w -> destination <> address0 -> 0 < amount ->
      ERC20_wf (sourceToken w) ->
      destination <> addr_sourceBridge (addresses w) ->
      Z.of_nat n * amount
      <= ERC20Mock.balanceOf (sourceToken w)
                             (addr_sourceBridge (addresses w)) ->
      successes (snd afterBurned) = n
      /\ ERC20Mock.balanceOf (sourceToken (fst afterBurned)) destination
         = ERC20Mock.balanceOf (sourceToken w) destination
           + Z.of_nat n * amount
      /\ ERC20Mock.balanceOf (sourceToken (fst afterBurned))
                             (addr_sourceBridge (addresses w))
         = ERC20Mock.balanceOf (sourceToken w)
                               (addr_sourceBridge (addresses w))
           - Z.of_nat n * amount).
Proof.
  intros event afterLocked afterBurned. split_and!.
  - apply (relay_sent relayer (Relayer.Locked event)).
  - apply (relay_sent relayer (Relayer.Burned event)).
  - intros Hw Hd Ha Hwf Hsup. by apply relay_mints.
  - intros Hw Hd Ha Hwf Hdb Hbal. by apply relay_releases.
Qed.

Lemma every_delivery_is_relayed_witness :
  successes
    (snd (Relayer.relay demo_relayer
            (replicate 2 (Relayer.Locked demo_lock_event)) demo_locked))
  = 2%nat
  /\ totalMinted
       (fst (Relayer.relay demo_relayer
               (replicate 2 (Relayer.Locked demo_lock_event)) demo_locked))
     = totalMinted demo_locked + Z.of_nat 2 * 100
  /\ ERC20Mock.balanceOf
       (sourceToken
          (fst (Relayer.relay demo_relayer
                  (replicate 2 (Relayer.Burned demo_burn_event)) demo_burned)))
       demo_user
     = ERC20Mock.balanceOf (sourceToken demo_burned) demo_user
       + Z.of_nat 2 * 100.
Proof.
  destruct (every_delivery_is_relayed demo_relayer demo_locked
              demo_user 100 demo_user 7 0 0 2) as (_ & _ & Hmint & _).
  destruct (every_delivery_is_relayed demo_relayer demo_burned
              demo_user 100 demo_user 9 0 0 2) as (_ & _ & _ & Hrel).
  destruct Hmint as (H1 & _ & H2 & _).
  - by_evaluation.
  - vm_compute. discriminate.
  - vm_compute. reflexivity.
  - by_evaluation.
  - vm_compute. discriminate.
  - destruct Hrel as (_ & H3 & _).
    + by_evaluation.
    + vm_compute. discriminate.
    + vm_compute. reflexivity.
    + by_evaluation.
    + vm_compute. discriminate.
    + vm_compute. discriminate.
    + split; [exact H1|]. split; [exact H2 | exact H3].
Defined.

(** The claim as the specification words it fails: the log of one lock of
    100, delivered twice with the same identity, is minted twice, so 200
    wrapped tokens stand against 100 locked ones; the log of one burn of 100,
    delivered twice, is released twice.  The second delivery is not a
    no-op. *)
Lemma redelivery_acts_twice :
  let lockedOnce :=
    Relayer.relay demo_relayer [Relayer.Locked demo_lock_event] demo_locked in
  let lockedTwice :=
    Relayer.relay demo_relayer
      [Relayer.Locked demo_lock_event; Relayer.Locked demo_lock_event]
      demo_locked in
  let burnedTwice :=
    Relayer.relay demo_relayer
      [Relayer.Burned demo_burn_event; Relayer.Burned demo_burn_event]
      demo_burned in
  successes (snd lockedTwice) = 2%nat
  /\ ERC20Mock.balanceOf (wrappedToken (fst lockedTwice)) demo_user = 200
  /\ totalMinted (fst lockedTwice) = 200
  /\ totalLocked (fst lockedTwice) = 100
  /\ fst lockedTwice <> fst lockedOnce
  /\ successes (snd burnedTwice) = 2%nat
  /\ ERC20Mock.balanceOf (sourceToken demo_burned) demo_user = 0
  /\ ERC20Mock.balanceOf (sourceToken (fst burnedTwice)) demo_user = 200.
Proof.
  vm_compute. split_and!; try reflexivity. discriminate.
Qed.

(** ** Conservation *)

Lemma dispatch_keeps_owner sender c t t' :
  ERC20Mock.dispatch sender c t = Ok t' ->
  is_ownership c = false ->
  ERC20Mock._owner t' = ERC20Mock._owner t.
Proof.
  intros H Hc.
  destruct c as [to amount|from amount|to value|spender value|from to value
                |newOwner|]; simpl in H; try discriminate Hc.
  - unfold ERC20Mock.mint in H. apply bind_Ok in H as ([] & _ & H).
    unfold ERC20Mock._mint in H.
    destruct (decide (to = address0)); [discriminate|].
    by apply update_Ok in H as (_ & Ho & _).
  - unfold ERC20Mock.burnFrom in H. apply bind_Ok in H as ([] & _ & H).
    unfold ERC20Mock._burn in H.
    destruct (decide (from = address0)); [discriminate|].
    by apply update_Ok in H as (_ & Ho & _).
  - apply transfer_internal_Ok in H as (_ & _ & H).
    by apply update_Ok in H as (_ & Ho & _).
  - by apply approve_internal_Ok in H as (_ & _ & Ho & _).
  - unfold ERC20Mock.transferFrom in H. apply bind_Ok in H as (t1 & H1 & H).
    apply spendAllowance_Ok in H1 as (_ & _ & Ho1 & _).
    apply transfer_internal_Ok in H as (_ & _ & H).
    apply update_Ok in H as (_ & Ho & _). congruence.
Qed.

(** A call from a bridge into a token touches nothing but one token, keeps
    the owner of the wrapped token, and changes the minted total only if it
    is a [mint], by its amount. *)
Lemma callToken_frame target sender tc w w' :
  callToken target (ERC20Mock.dispatch sender tc) w = Ok w' ->
  is_ownership tc = false ->
  addresses w' = addresses w
  /\ sourceBridge w' = sourceBridge w
  /\ destBridge w' = destBridge w
  /\ ERC20Mock._owner (wrappedToken w') = ERC20Mock._owner (wrappedToken w)
  /\ (totalMinted w' = totalMinted w
      \/ totalMinted w'
         = totalMinted w
           + match tc with ERC20Mock.Mint _ amount => amount | _ => 0 end).
Proof.
  intros H Hc. apply callToken_Ok in H as [(t & Ht & ->)|(t & Ht & ->)].
  - split_and!; try reflexivity. by left.
  - split_and!; try reflexivity.
    + simpl. by eapply dispatch_keeps_owner.
    + right. rewrite totalMinted_set_wrappedToken.
      by apply dispatch_minted in Ht.
Qed.

(** What any successful transaction does to the quantities of the
    invariant. *)
Lemma call_effects a sender c w w' :
  addresses w = a ->
  ERC20Mock._owner (wrappedToken w) = addr_destBridge a ->
  (is_token_call c = true -> sender <> addr_destBridge a) ->
  call sender c w = Ok w' ->
  addresses w' = a
  /\ ERC20Mock._owner (wrappedToken w') = addr_destBridge a
  /\ (totalMinted w' = totalMinted w
      \/ exists user amount,
           c = Dest_mintWrapped user amount /\ 0 < amount
           /\ totalMinted w' = totalMinted w + amount)
  /\ exists es ed,
       BridgeSourceChainStorage.events (sourceBridge w')
       = BridgeSourceChainStorage.events (sourceBridge w) ++ es
       /\ BridgeDestinationChainStorage.events (destBridge w')
          = BridgeDestinationChainStorage.events (destBridge w) ++ ed
       /\ Forall (fun e => 0 <= locked_of e) es
       /\ Forall (fun e => locked_of e = 0) ed.
Proof.
  intros Ha Hown Hsender H.
  destruct c as [tk tc|amount destination|user amount|newRelayer|newOwner|
                 |user amount|amount destination|newRelayer|newOwner|];
    simpl in H.
  - (* a direct call to a token *)
    specialize (Hsender eq_refl).
    destruct tk; simpl in H; apply bind_Ok in H as (t & Ht & H);
      injection H as <-.
    + split_and!; try done; [by left|].
      exists [], []. simpl. rewrite !app_nil_r. by split_and!.
    + rewrite <- Hown in Hsender.
      apply dispatch_owner in Ht as (Ho & Hm); [|done].
      split_and!; try done; [simpl; congruence | by left |].
      exists [], []. simpl. rewrite !app_nil_r. by split_and!.
  - (* lock *)
    unfold BridgeSourceChain.lock in H.
    apply bind_Ok in H as ([] & Hreq & H). apply require_Ok in Hreq.
    apply bool_decide_eq_true in Hreq.
    apply bind_Ok in H as (w1 & H1 & H). injection H as <-.
    apply (callToken_frame _ (addr_sourceBridge (addresses w))
             (ERC20Mock.TransferFrom sender (addr_sourceBridge (addresses w))
                                     amount)) in H1
      as (Ha1 & Hs1 & Hd1 & Ho1 & Hm1); [|done].
    split_and!; simpl; [congruence | congruence | left | ].
    { destruct Hm1 as [Hm1|Hm1]; unfold totalMinted in *; simpl; lia. }
    exists [TokenLocked sender amount destination], [].
    rewrite Hs1, Hd1, app_nil_r. split_and!; try done.
    repeat constructor. simpl. lia.
  - (* release *)
    unfold BridgeSourceChain.release in H.
    apply bind_Ok in H as ([] & _ & H). apply bind_Ok in H as ([] & _ & H).
    apply (callToken_frame _ (addr_sourceBridge (addresses w))
             (ERC20Mock.TransferTo user amount)) in H
      as (Ha1 & Hs1 & Hd1 & Ho1 & Hm1); [|done].
    split_and!; [congruence | congruence | left | ].
    { destruct Hm1 as [Hm1|Hm1]; lia. }
    exists [], []. rewrite Hs1, Hd1, !app_nil_r. by split_and!.
  - (* source setRelayer *)
    unfold BridgeSourceChain.setRelayer in H.
    apply bind_Ok in H as ([] & _ & H). injection H as <-.
    split_and!; try done; [by left|].
    exists [], []. simpl. rewrite !app_nil_r. by split_and!.
  - (* source transferOwnership *)
    unfold BridgeSourceChain.transferOwnership in H.
    apply bind_Ok in H as (r & Hr & H). injection H as <-.
    apply Ownable_transferOwnership_Ok in Hr as (_ & _ & ->).
    split_and!; try done; [by left|].
    eexists [_], []. simpl. rewrite !app_nil_r. split_and!; try done.
    repeat constructor. simpl. lia.
  - (* source renounceOwnership *)
    unfold BridgeSourceChain.renounceOwnership in H.
    apply bind_Ok in H as (r & Hr & H). injection H as <-.
    apply Ownable_renounceOwnership_Ok in Hr as (_ & ->).
    split_and!; try done; [by left|].
    eexists [_], []. simpl. rewrite !app_nil_r. split_and!; try done.
    repeat constructor. simpl. lia.
  - (* mintWrapped *)
    unfold BridgeDestinationChain.mintWrapped in H.
    apply bind_Ok in H as ([] & _ & H).
    apply bind_Ok in H as ([] & Hreq & H). apply require_Ok in Hreq.
    apply bool_decide_eq_true in Hreq.
    apply (callToken_frame _ (addr_destBridge (addresses w))
             (ERC20Mock.Mint user amount)) in H
      as (Ha1 & Hs1 & Hd1 & Ho1 & Hm1); [|done].
    split_and!; [congruence | congruence | | ].
    { destruct Hm1 as [Hm1|Hm1]; [by left | right].
      exists user, amount. split_and!; [done | lia | done]. }
    exists [], []. rewrite Hs1, Hd1, !app_nil_r. by split_and!.
  - (* burn *)
    unfold BridgeDestinationChain.burn in H.
    apply bind_Ok in H as ([] & _ & H).
    apply bind_Ok in H as (w1 & H1 & H). injection H as <-.
    apply (callToken_frame _ (addr_destBridge (addresses w))
             (ERC20Mock.BurnFrom sender amount)) in H1
      as (Ha1 & Hs1 & Hd1 & Ho1 & Hm1); [|done].
    split_and!; simpl; [congruence | congruence | left | ].
    { destruct Hm1 as [Hm1|Hm1]; unfold totalMinted in *; simpl; lia. }
    exists [], [TokenBurned sender amount destination].
    rewrite Hs1, Hd1, app_nil_r. split_and!; try done.
    by repeat constructor.
  - (* destination setRelayer *)
    unfold BridgeDestinationChain.setRelayer in H.
    apply bind_Ok in H as ([] & _ & H). injection H as <-.
    split_and!; try done; [by left|].
    exists [], []. simpl. rewrite !app_nil_r. by split_and!.
  - (* destination transferOwnership *)
    unfold BridgeDestinationChain.transferOwnership in H.
    apply bind_Ok in H as (r & Hr & H). injection H as <-.
    apply Ownable_transferOwnership_Ok in Hr as (_ & _ & ->).
    split_and!; try done; [by left|].
    eexists [], [_]. simpl. rewrite !app_nil_r. split_and!; try done.
    by repeat constructor.
  - (* destination renounceOwnership *)
    unfold BridgeDestinationChain.renounceOwnership in H.
    apply bind_Ok in H as (r & Hr & H). injection H as <-.
    apply Ownable_renounceOwnership_Ok in Hr as (_ & ->).
    split_and!; try done; [by left|].
    eexists [], [_]. simpl. rewrite !app_nil_r. split_and!; try done.
    by repeat constructor.
Qed.

Lemma locked_of_filter_subscribed l :
  sum_list (map locked_of (filter subscribed l)) = sum_list (map locked_of l).
Proof.
  induction l as [|e l IH]; [reflexivity|].
  rewrite filter_cons. destruct e; simpl; rewrite ?IH; try reflexivity.
  all: simpl; rewrite IH; reflexivity.
Qed.

Lemma Forall_filter_keep {A} (P Q : A -> Prop) `{!forall x, Decision (Q x)} l :
  Forall P l -> Forall P (filter Q l).
Proof.
  rewrite !Forall_forall. intros HP x Hx.
  apply list_elem_of_filter in Hx as [_ Hx]. by apply HP.
Qed.

Lemma locked_of_zero l :
  Forall (fun e => locked_of e = 0) l -> sum_list (map locked_of l) = 0.
Proof. induction 1 as [|e l He _ IH]; simpl; lia. Qed.

Lemma locked_of_nonneg l :
  Forall (fun e => 0 <= locked_of e) l -> 0 <= sum_list (map locked_of l).
Proof. induction 1 as [|e l He _ IH]; simpl; lia. Qed.

Lemma deploy_Ok owner relayer a w0 :
  Relayer.deploy owner relayer a = Ok w0 ->
  relay_invariant a (mkSystem w0 []).
Proof.
  unfold Relayer.deploy. simpl. intros H.
  apply bind_Ok in H as (t & Ht & H). injection H as <-.
  unfold ERC20Mock.transferOwnership in Ht.
  apply bind_Ok in Ht as (r & Hr & Ht). injection Ht as <-.
  apply Ownable_transferOwnership_Ok in Hr as (_ & _ & ->).
  unfold relay_invariant; simpl. split_and!; try done.
Qed.

Lemma step_invariant relayer a s s' :
  relay_invariant a s -> step relayer s s' -> relay_invariant a s'.
Proof.
  intros (Ha & Hown & Hpos & Hle) Hstep.
  destruct Hstep as [s sender c w' Heoa Hc Hcall
                    |s before e after b t i d Hin Hsub].
  - (* a transaction from an account *)
    rewrite Ha in Heoa. destruct Heoa as (_ & _ & _ & _ & Hsender).
    destruct (call_effects a sender c (world s) w' Ha Hown
                (fun _ => Hsender) Hcall)
      as (Ha' & Hown' & Hm & es & ed & Hes & Hed & Hpes & Hzed).
    assert (totalMinted w' = totalMinted (world s)) as Hmint.
    { destruct Hm as [Hm|(user & amount & -> & _)]; [done | discriminate]. }
    assert (newly_emitted (world s) w' = es ++ ed) as Hnew.
    { unfold newly_emitted. by rewrite Hes, Hed, !emitted_app. }
    unfold relay_invariant; simpl. rewrite Hnew. split_and!; try done.
    + apply Forall_app. split; [done|].
      apply Forall_filter_keep, Forall_app. split; [done|].
      eapply Forall_impl; [exact Hzed|]. simpl. intros; lia.
    + unfold totalLocked. rewrite Hes.
      rewrite !map_app, !sum_list_app.
      rewrite locked_of_filter_subscribed, map_app, sum_list_app.
      rewrite (locked_of_zero ed Hzed).
      unfold totalLocked in Hle. lia.
  - (* a listener fires *)
    rewrite Hin in Hpos, Hle.
    apply Forall_app in Hpos as (Hpb & Hpe).
    apply Forall_cons in Hpe as (Hpe & Hpa).
    rewrite map_app, sum_list_app in Hle. simpl in Hle.
    assert (Forall (fun e => 0 <= locked_of e) (before ++ after)) as Hpos'
      by (apply Forall_app; by split).
    unfold relay_invariant. cbn [world inbox].
    rewrite map_app, sum_list_app, react_world. unfold exec.
    destruct (call relayer (reaction d) (world s)) as [w'|err] eqn:Hcall.
    + destruct (call_effects a relayer (reaction d) (world s) w' Ha Hown)
        as (Ha' & Hown' & Hm & es & ed & Hes & Hed & Hpes & Hzed).
      { destruct e; try discriminate Hsub; injection Hsub as <-;
          discriminate. }
      { exact Hcall. }
      assert (totalLocked (world s) <= totalLocked w') as Hlock.
      { unfold totalLocked. rewrite Hes, map_app, sum_list_app.
        pose proof (locked_of_nonneg es Hpes). lia. }
      assert (totalMinted w' <= totalMinted (world s) + locked_of e) as Hmint.
      { destruct Hm as [Hm|(user & amount & Hc & Hamt & Hm)]; [lia|].
        destruct e; try discriminate Hsub; injection Hsub as <-;
          simpl in Hc; [|discriminate].
        injection Hc as _ <-. simpl. lia. }
      split_and!; try done. lia.
    + split_and!; try done. lia.
Qed.

Lemma reachable_invariant relayer owner a w0 s :
  Relayer.deploy owner relayer a = Ok w0 ->
  reachable relayer w0 s -> relay_invariant a s.
Proof.
  intros Hdeploy Hreach. induction Hreach as [|s s' _ IH Hstep].
  - by eapply deploy_Ok.
  - by eapply step_invariant.
Qed.

(** C2 (as amended). From a deployment made by relayer.ts, while accounts
    send any transactions they like other than [mintWrapped], and
    [mintWrapped] is sent by the TokenLocked listener only, which fires at
    most once for each emitted log, the total minted on the destination
    never exceeds the total locked on the source. *)
Theorem minted_never_exceeds_locked
    (relayer owner : Z) (a : Addresses) (w0 : World) (s : System) :
  Relayer.deploy owner relayer a = Ok w0 ->
  reachable relayer w0 s ->
  totalMinted (world s) <= totalLocked (world s).
Proof.
  intros Hdeploy Hreach.
  destruct (reachable_invariant relayer owner a w0 s Hdeploy Hreach)
    as (_ & _ & Hpos & Hle).
  pose proof (locked_of_nonneg _ Hpos). lia.
Qed.

(** The run of user-simulation.ts up to the mint is a run of the transition
    system. *)
Lemma demo_reachable :
  reachable demo_relayer demo_world (mkSystem demo_relayed []).
Proof.
  assert (forall s sender c w' inbox',
             reachable demo_relayer demo_world s ->
             bool_decide (externally_owned (addresses (world s)) sender) = true ->
             is_mintWrapped c = false ->
             call sender c (world s) = Ok w' ->
             inbox s ++ filter subscribed (newly_emitted (world s) w') = inbox' ->
             reachable demo_relayer demo_world (mkSystem w' inbox')) as Htx.
  { intros s sender c w' inbox' Hs Heoa Hc Hcall <-.
    apply bool_decide_eq_true_1 in Heoa.
    eapply reachable_step; [exact Hs|].
    by apply (step_transaction demo_relayer s sender c w'). }
  pose (w1 := exec demo_owner
                   (Token SourceToken (ERC20Mock.Mint demo_user 100))
                   demo_world).
  assert (reachable demo_relayer demo_world (mkSystem w1 [])) as H1.
  { apply (Htx (mkSystem demo_world []) demo_owner
               (Token SourceToken (ERC20Mock.Mint demo_user 100)) w1 []);
      [apply reachable_start | vm_compute; reflexivity ..]. }
  assert (reachable demo_relayer demo_world (mkSystem demo_funded [])) as H2.
  { apply (Htx (mkSystem w1 []) demo_user
               (Token SourceToken (ERC20Mock.Approve 103 100)) demo_funded []);
      [exact H1 | vm_compute; reflexivity ..]. }
  assert (reachable demo_relayer demo_world
            (mkSystem demo_locked [TokenLocked demo_user 100 demo_user]))
    as Hlocked.
  { apply (Htx (mkSystem demo_funded []) demo_user
               (Source_lock 100 demo_user) demo_locked
               [TokenLocked demo_user 100 demo_user]);
      [exact H2 | vm_compute; reflexivity ..]. }
  eapply reachable_step; [exact Hlocked|].
  exact (step_delivery demo_relayer
           (mkSystem demo_locked [TokenLocked demo_user 100 demo_user])
           [] (TokenLocked demo_user 100 demo_user) [] 7 0 0
           (Relayer.Locked demo_lock_event) eq_refl eq_refl).
Qed.

Lemma minted_never_exceeds_locked_witness :
  totalMinted demo_relayed <= totalLocked demo_relayed.
Proof.
  apply (minted_never_exceeds_locked demo_relayer demo_owner demo_addresses
           demo_world (mkSystem demo_relayed [])).
  - vm_compute. reflexivity.
  - exact demo_reachable.
Defined.

(** The claim as the specification words it fails.  The relayer account may
    call [mintWrapped] outside any listener: one such call on a fresh
    deployment mints 5 against nothing locked.  And within the listeners, a
    log delivered twice is minted twice: 200 minted against 100 locked. *)
Lemma minted_can_exceed_locked :
  let direct :=
    run [(demo_relayer, Dest_mintWrapped demo_user 5)] demo_world in
  let redelivered :=
    fst (Relayer.relay demo_relayer
           [Relayer.Locked demo_lock_event; Relayer.Locked demo_lock_event]
           demo_locked) in
  Relayer.deploy demo_owner demo_relayer demo_addresses = Ok demo_world
  /\ totalMinted direct = 5 /\ totalLocked direct = 0
  /\ ~ totalMinted direct <= totalLocked direct
  /\ totalMinted redelivered = 200 /\ totalLocked redelivered = 100
  /\ ~ totalMinted redelivered <= totalLocked redelivered.
Proof.
  vm_compute. split_and!; try reflexivity; intros H; apply H; reflexivity.
Qed.

(** * Further properties of the code *)

(** ** The token *)

Lemma approve_explicit sender spender value t :
  sender <> address0 -> spender <> address0 ->
  ERC20Mock.approve sender spender value t
  = Ok (ERC20Mock.emit (Approval sender spender value)
          (ERC20Mock.set_allowance sender spender value t)).
Proof.
  intros Hs Hp. unfold ERC20Mock.approve, ERC20Mock._approve.
  by rewrite !decide_False.
Qed.

Lemma spendAllowance_explicit owner spender value t :
  owner <> address0 -> spender <> address0 ->
  ERC20Mock._spendAllowance owner spender value t
  = if decide (ERC20Mock.allowance t owner spender < MAX_UINT256) then
      if decide (ERC20Mock.allowance t owner spender < value)
      then Revert (ERC20InsufficientAllowance
                     spender (ERC20Mock.allowance t owner spender) value)
      else Ok (ERC20Mock.set_allowance owner spender
                 (ERC20Mock.allowance t owner spender - value) t)
    else Ok t.
Proof.
  intros Ho Hs. unfold ERC20Mock._spendAllowance, ERC20Mock._approve.
  by rewrite !(decide_False (P := _ = address0)).
Qed.

Lemma mint_not_owner sender to amount t :
  sender <> ERC20Mock._owner t ->
  ERC20Mock.mint sender to amount t
  = Revert (OwnableUnauthorizedAccount sender).
Proof.
  intros H. unfold ERC20Mock.mint. by rewrite checkOwner_other.
Qed.

Lemma burnFrom_not_owner sender from amount t :
  sender <> ERC20Mock._owner t ->
  ERC20Mock.burnFrom sender from amount t
  = Revert (OwnableUnauthorizedAccount sender).
Proof.
  intros H. unfold ERC20Mock.burnFrom. by rewrite checkOwner_other.
Qed.

(** X1. [ERC20Mock.mint] checks, in this order, that the caller is the
    owner, that the receiver is not the zero address and that the total
    supply stays within [uint256]; it then adds [amount] to the receiver's
    balance and to the total supply and changes no other balance, no
    allowance and not the owner. *)
Theorem token_mint_behaviour
    (t : ERC20Mock.state) (sender to : address) (amount : uint256) :
  ERC20_wf t -> 0 <= amount ->
  (sender <> ERC20Mock._owner t ->
   ERC20Mock.mint sender to amount t
   = Revert (OwnableUnauthorizedAccount sender))
  /\ (sender = ERC20Mock._owner t -> to = address0 ->
      ERC20Mock.mint sender to amount t
      = Revert (ERC20InvalidReceiver address0))
  /\ (sender = ERC20Mock._owner t -> to <> address0 ->
      MAX_UINT256 < ERC20Mock._totalSupply t + amount ->
      ERC20Mock.mint sender to amount t = Revert (Panic 17))
  /\ (sender = ERC20Mock._owner t -> to <> address0 ->
      ERC20Mock._totalSupply t + amount <= MAX_UINT256 ->
      exists t',
        ERC20Mock.mint sender to amount t = Ok t'
        /\ ERC20_wf t'
        /\ ERC20Mock._totalSupply t' = ERC20Mock._totalSupply t + amount
        /\ ERC20Mock.balanceOf t' to = ERC20Mock.balanceOf t to + amount
        /\ (forall x, x <> to ->
              ERC20Mock.balanceOf t' x = ERC20Mock.balanceOf t x)
        /\ ERC20Mock._allowances t' = ERC20Mock._allowances t
        /\ ERC20Mock._owner t' = ERC20Mock._owner t).
Proof.
  intros Hwf Ha. split_and!.
  - apply mint_not_owner.
  - intros -> ->. unfold ERC20Mock.mint, ERC20Mock._mint.
    rewrite checkOwner_self. cbn [bind]. by rewrite decide_True.
  - intros -> Hto Hover. unfold ERC20Mock.mint, ERC20Mock._mint.
    rewrite checkOwner_self. cbn [bind]. rewrite decide_False by done.
    unfold ERC20Mock._update. rewrite decide_True by done.
    by rewrite decide_False by lia.
  - intros -> Hto Hsup.
    destruct (mint_spec to amount t Hwf Hto Ha Hsup)
      as (t' & Hm & Hwf' & Ho & Hs & _ & Hb & Hx).
    exists t'. split_and!; try done.
    unfold ERC20Mock.mint, ERC20Mock._mint in Hm.
    rewrite checkOwner_self in Hm. cbn [bind] in Hm.
    rewrite decide_False in Hm by done.
    by apply update_Ok in Hm as (_ & _ & Hal).
Qed.

Lemma token_mint_behaviour_witness :
  ERC20Mock.mint demo_user demo_user 5 (sourceToken demo_world)
  = Revert (OwnableUnauthorizedAccount demo_user)
  /\ ERC20Mock.mint demo_owner address0 5 (sourceToken demo_world)
     = Revert (ERC20InvalidReceiver address0)
  /\ ERC20Mock.mint demo_owner demo_user MAX_UINT256 (sourceToken demo_funded)
     = Revert (Panic 17)
  /\ exists t',
       ERC20Mock.mint demo_owner demo_user 5 (sourceToken demo_funded) = Ok t'
       /\ ERC20Mock.balanceOf t' demo_user
          = ERC20Mock.balanceOf (sourceToken demo_funded) demo_user + 5.
Proof.
  split_and!.
  - apply (token_mint_behaviour (sourceToken demo_world) demo_user demo_user 5);
      [by_evaluation | lia | vm_compute; lia].
  - apply (token_mint_behaviour (sourceToken demo_world) demo_owner address0 5);
      [by_evaluation | lia | reflexivity | reflexivity].
  - apply (token_mint_behaviour (sourceToken demo_funded) demo_owner demo_user
             MAX_UINT256);
      [by_evaluation | vm_compute; discriminate | reflexivity
      | vm_compute; lia | vm_compute; reflexivity].
  - destruct (token_mint_behaviour (sourceToken demo_funded) demo_owner
                demo_user 5) as (_ & _ & _ & H);
      [by_evaluation | lia |].
    destruct H as (t' & Hm & _ & _ & Hb & _);
      [reflexivity | vm_compute; lia | vm_compute; discriminate |].
    exists t'. by split.
Defined.

(** ** [lock] *)

Lemma balanceOf_spent owner spender value t x :
  ERC20Mock.balanceOf (spent owner spender value t) x = ERC20Mock.balanceOf t x.
Proof. unfold spent. by case_decide. Qed.

Lemma transferFrom_explicit spender from to value t :
  spender <> address0 -> from <> address0 -> to <> address0 ->
  value <= ERC20Mock.allowance t from spender
  \/ MAX_UINT256 <= ERC20Mock.allowance t from spender ->
  value <= ERC20Mock.balanceOf t from ->
  ERC20Mock.transferFrom spender from to value t
  = Ok (let t1 := spent from spender value t in
        let t2 := ERC20Mock.set_balance from
                    (ERC20Mock.balanceOf t from - value) t1 in
        ERC20Mock.emit (Transfer from to value)
          (ERC20Mock.set_balance to
             (wrap256 (ERC20Mock.balanceOf t2 to + value)) t2)).
Proof.
  intros Hs Hf Ht Hall Hbal. unfold ERC20Mock.transferFrom.
  rewrite spendAllowance_explicit by done.
  assert ((if decide (ERC20Mock.allowance t from spender < MAX_UINT256) then
             if decide (ERC20Mock.allowance t from spender < value)
             then Revert (ERC20InsufficientAllowance spender
                            (ERC20Mock.allowance t from spender) value)
             else Ok (ERC20Mock.set_allowance from spender
                        (ERC20Mock.allowance t from spender - value) t)
           else Ok t) = Ok (spent from spender value t)) as ->.
  { unfold spent. repeat case_decide; (done || lia). }
  cbn [bind]. unfold ERC20Mock._transfer. rewrite !decide_False by done.
  rewrite update_move by (done || by rewrite balanceOf_spent).
  by rewrite balanceOf_spent.
Qed.

Lemma transferFrom_no_allowance spender from to value t :
  spender <> address0 -> from <> address0 ->
  ERC20Mock.allowance t from spender < MAX_UINT256 ->
  ERC20Mock.allowance t from spender < value ->
  ERC20Mock.transferFrom spender from to value t
  = Revert (ERC20InsufficientAllowance
              spender (ERC20Mock.allowance t from spender) value).
Proof.
  intros Hs Hf Hmax Hall. unfold ERC20Mock.transferFrom.
  rewrite spendAllowance_explicit by done. by rewrite !decide_True.
Qed.

Lemma transferFrom_no_balance spender from to value t :
  spender <> address0 -> from <> address0 -> to <> address0 ->
  value <= ERC20Mock.allowance t from spender
  \/ MAX_UINT256 <= ERC20Mock.allowance t from spender ->
  ERC20Mock.balanceOf t from < value ->
  ERC20Mock.transferFrom spender from to value t
  = Revert (ERC20InsufficientBalance from (ERC20Mock.balanceOf t from) value).
Proof.
  intros Hs Hf Ht Hall Hbal. unfold ERC20Mock.transferFrom.
  rewrite spendAllowance_explicit by done.
  assert ((if decide (ERC20Mock.allowance t from spender < MAX_UINT256) then
             if decide (ERC20Mock.allowance t from spender < value)
             then Revert (ERC20InsufficientAllowance spender
                            (ERC20Mock.allowance t from spender) value)
             else Ok (ERC20Mock.set_allowance from spender
                        (ERC20Mock.allowance t from spender - value) t)
           else Ok t) = Ok (spent from spender value t)) as ->.
  { unfold spent. repeat case_decide; (done || lia). }
  cbn [bind]. unfold ERC20Mock._transfer. rewrite !decide_False by done.
  rewrite update_insufficient by (done || by rewrite balanceOf_spent).
  by rewrite balanceOf_spent.
Qed.

Lemma lock_unfold U amount destination w :
  BridgeSourceChainStorage.token (sourceBridge w)
  = addr_sourceToken (addresses w) ->
  0 < amount ->
  call U (Source_lock amount destination) w
  = (t <- ERC20Mock.transferFrom (addr_sourceBridge (addresses w)) U
            (addr_sourceBridge (addresses w)) amount (sourceToken w) ;;
     Ok (BridgeSourceChain.emit (TokenLocked U amount destination)
           (set_sourceToken t w))).
Proof.
  intros Htok Ha. cbn [call]. unfold BridgeSourceChain.lock.
  rewrite bool_decide_eq_true_2 by lia. cbn [bind require].
  rewrite Htok, callToken_source.
  by destruct (ERC20Mock.transferFrom _ _ _ _ _).
Qed.

(** X2. [lock] checks, in this order, that the amount is positive, that the
    caller's allowance for the bridge covers it (an allowance of
    [type(uint256).max] always does) and that the caller's balance covers
    it; each failure reverts with its own error.  A lock that passes appends
    TokenLocked(caller, amount, destination) to the bridge's log, spends the
    allowance unless it is the maximum, moves [amount] from the caller to the
    bridge, and leaves the total supply, the wrapped token and the
    destination bridge alone; [destination] is not checked at all. *)
Theorem lock_behaviour
    (w : World) (U : address) (amount : uint256) (destination : address) :
  BridgeSourceChainStorage.token (sourceBridge w)
  = addr_sourceToken (addresses w) ->
  addr_sourceBridge (addresses w) <> address0 -> U <> address0 ->
  (amount <= 0 ->
   call U (Source_lock amount destination) w
   = Revert (ErrorMsg "BridgeSource: Amount must be greater than 0"))
  /\ (0 < amount ->
      ERC20Mock.allowance (sourceToken w) U (addr_sourceBridge (addresses w))
      < MAX_UINT256 ->
      ERC20Mock.allowance (sourceToken w) U (addr_sourceBridge (addresses w))
      < amount ->
      call U (Source_lock amount destination) w
      = Revert (ERC20InsufficientAllowance
                  (addr_sourceBridge (addresses w))
                  (ERC20Mock.allowance (sourceToken w) U
                                       (addr_sourceBridge (addresses w)))
                  amount))
  /\ (0 < amount ->
      amount <= ERC20Mock.allowance (sourceToken w) U
                                    (addr_sourceBridge (addresses w))
      \/ MAX_UINT256 <= ERC20Mock.allowance (sourceToken w) U
                                            (addr_sourceBridge (addresses w)) ->
      ERC20Mock.balanceOf (sourceToken w) U < amount ->
      call U (Source_lock amount destination) w
      = Revert (ERC20InsufficientBalance
                  U (ERC20Mock.balanceOf (sourceToken w) U) amount))
  /\ (0 < amount ->
      amount <= ERC20Mock.allowance (sourceToken w) U
                                    (addr_sourceBridge (addresses w))
      \/ MAX_UINT256 <= ERC20Mock.allowance (sourceToken w) U
                                            (addr_sourceBridge (addresses w)) ->
      amount <= ERC20Mock.balanceOf (sourceToken w) U ->
      exists w',
        call U (Source_lock amount destination) w = Ok w'
        /\ BridgeSourceChainStorage.events (sourceBridge w')
           = BridgeSourceChainStorage.events (sourceBridge w)
             ++ [TokenLocked U amount destination]
        /\ wrappedToken w' = wrappedToken w
        /\ destBridge w' = destBridge w
        /\ ERC20Mock._totalSupply (sourceToken w')
           = ERC20Mock._totalSupply (sourceToken w)
        /\ ERC20Mock.allowance (sourceToken w') U
                               (addr_sourceBridge (addresses w))
           = (if decide (ERC20Mock.allowance (sourceToken w) U
                           (addr_sourceBridge (addresses w)) < MAX_UINT256)
              then ERC20Mock.allowance (sourceToken w) U
                     (addr_sourceBridge (addresses w)) - amount
              else ERC20Mock.allowance (sourceToken w) U
                     (addr_sourceBridge (addresses w)))
        /\ (ERC20_wf (sourceToken w) ->
            U <> addr_sourceBridge (addresses w) ->
            ERC20Mock.balanceOf (sourceToken w') U
            = ERC20Mock.balanceOf (sourceToken w) U - amount
            /\ ERC20Mock.balanceOf (sourceToken w')
                                   (addr_sourceBridge (addresses w))
               = ERC20Mock.balanceOf (sourceToken w)
                                     (addr_sourceBridge (addresses w))
                 + amount)).
Proof.
  intros Htok Hb HU. split_and!.
  - intros Ha. cbn [call]. unfold BridgeSourceChain.lock.
    by rewrite bool_decide_eq_false_2 by lia.
  - intros Ha Hmax Hall. rewrite lock_unfold by done.
    by rewrite transferFrom_no_allowance.
  - intros Ha Hall Hbal. rewrite lock_unfold by done.
    by rewrite transferFrom_no_balance.
  - intros Ha Hall Hbal. rewrite lock_unfold by done.
    rewrite transferFrom_explicit by done. cbv zeta. cbn [bind].
    eexists. split; [reflexivity|].
    split_and!; try reflexivity.
    + cbn. unfold spent. by case_decide.
    + cbn [BridgeSourceChain.emit set_sourceBridge set_sourceToken sourceToken
           sourceBridge ERC20Mock.emit].
      unfold ERC20Mock.allowance at 1. cbn. unfold spent.
      case_decide; cbn; [by rewrite lookup_insert_eq | done].
    + intros Hwf Hne.
      pose proof (two_balances_le_supply _ U _ Hwf Hne).
      pose proof (balanceOf_nonneg _ (addr_sourceBridge (addresses w)) Hwf).
      pose proof (balanceOf_nonneg _ U Hwf).
      destruct Hwf as (_ & _ & Hmax).
      cbn [BridgeSourceChain.emit set_sourceBridge set_sourceToken sourceToken
           sourceBridge].
      rewrite !balanceOf_emit, !balanceOf_set_balance, !balanceOf_spent.
      rewrite (decide_False (P := addr_sourceBridge (addresses w) = U))
        by done.
      rewrite (decide_True (P := U = U)) by done.
      rewrite (decide_True (P := addr_sourceBridge (addresses w)
                                 = addr_sourceBridge (addresses w))) by done.
      rewrite (decide_False (P := U = addr_sourceBridge (addresses w)))
        by done.
      rewrite wrap256_small by lia. done.
Qed.

Lemma lock_behaviour_witness :
  call demo_user (Source_lock 0 demo_user) demo_funded
  = Revert (ErrorMsg "BridgeSource: Amount must be greater than 0")
  /\ call demo_user (Source_lock 150 demo_user) demo_funded
     = Revert (ERC20InsufficientAllowance 103 100 150)
  /\ call demo_other (Source_lock 50 demo_other)
          (exec demo_other (Token SourceToken (ERC20Mock.Approve 103 50))
                demo_funded)
     = Revert (ERC20InsufficientBalance demo_other 0 50)
  /\ exists w',
       call demo_user (Source_lock 100 4) demo_funded = Ok w'
       /\ BridgeSourceChainStorage.events (sourceBridge w')
          = BridgeSourceChainStorage.events (sourceBridge demo_funded)
            ++ [TokenLocked demo_user 100 4].
Proof.
  split_and!.
  - apply (lock_behaviour demo_funded demo_user 0 demo_user);
      [reflexivity | vm_compute; discriminate | vm_compute; discriminate | lia].
  - apply (lock_behaviour demo_funded demo_user 150 demo_user);
      [reflexivity | vm_compute; discriminate | vm_compute; discriminate
      | lia | vm_compute; reflexivity | vm_compute; reflexivity].
  - apply (lock_behaviour
             (exec demo_other (Token SourceToken (ERC20Mock.Approve 103 50))
                   demo_funded) demo_other 50 demo_other);
      [reflexivity | vm_compute; discriminate | vm_compute; discriminate
      | lia | left; vm_compute; discriminate | vm_compute; reflexivity].
  - destruct (lock_behaviour demo_funded demo_user 100 4)
      as (_ & _ & _ & H);
      [reflexivity | vm_compute; discriminate | vm_compute; discriminate |].
    destruct H as (w' & Hc & He & _);
      [lia | left; vm_compute; discriminate | vm_compute; discriminate |].
    exists w'. by split.
Defined.

(** ** [release] *)

Lemma release_unfold c user amount w :
  BridgeSourceChainStorage.token (sourceBridge w)
  = addr_sourceToken (addresses w) ->
  c = BridgeSourceChainStorage.relayer (sourceBridge w) ->
  0 < amount ->
  call c (Source_release user amount) w
  = (t <- ERC20Mock.transfer (addr_sourceBridge (addresses w)) user amount
            (sourceToken w) ;;
     Ok (set_sourceToken t w)).
Proof.
  intros Htok Hc Ha. cbn [call].
  unfold BridgeSourceChain.release, BridgeSourceChain.onlyRelayer.
  rewrite bool_decide_eq_true_2 by done. cbn [bind require].
  rewrite bool_decide_eq_true_2 by lia. cbn [bind require].
  by rewrite Htok, callToken_source.
Qed.

(** X3. [release] checks, in this order, that the caller is the relayer,
    that the amount is positive, that the receiver is not the zero address
    and that the bridge holds the amount; each failure reverts with its own
    error.  A release that passes moves [amount] from the bridge to the
    receiver and changes nothing else: no log of either bridge, no
    allowance, not the total supply, not the wrapped token. *)
Theorem release_behaviour
    (w : World) (c user : address) (amount : uint256) :
  BridgeSourceChainStorage.token (sourceBridge w)
  = addr_sourceToken (addresses w) ->
  addr_sourceBridge (addresses w) <> address0 ->
  (c <> BridgeSourceChainStorage.relayer (sourceBridge w) ->
   call c (Source_release user amount) w
   = Revert (ErrorMsg "BridgeSource: Caller is not the relayer"))
  /\ (c = BridgeSourceChainStorage.relayer (sourceBridge w) ->
      (amount <= 0 ->
       call c (Source_release user amount) w
       = Revert (ErrorMsg "BridgeSource: Amount must be greater than 0"))
      /\ (0 < amount -> user = address0 ->
          call c (Source_release user amount) w
          = Revert (ERC20InvalidReceiver address0))
      /\ (0 < amount -> user <> address0 ->
          ERC20Mock.balanceOf (sourceToken w) (addr_sourceBridge (addresses w))
          < amount ->
          call c (Source_release user amount) w
          = Revert (ERC20InsufficientBalance
                      (addr_sourceBridge (addresses w))
                      (ERC20Mock.balanceOf (sourceToken w)
                                           (addr_sourceBridge (addresses w)))
                      amount))
      /\ (0 < amount -> user <> address0 ->
          amount <= ERC20Mock.balanceOf (sourceToken w)
                                        (addr_sourceBridge (addresses w)) ->
          exists t',
            call c (Source_release user amount) w = Ok (set_sourceToken t' w)
            /\ ERC20Mock._allowances t' = ERC20Mock._allowances (sourceToken w)
            /\ ERC20Mock._totalSupply t'
               = ERC20Mock._totalSupply (sourceToken w)
            /\ (ERC20_wf (sourceToken w) ->
                user <> addr_sourceBridge (addresses w) ->
                ERC20Mock.balanceOf t' (addr_sourceBridge (addresses w))
                = ERC20Mock.balanceOf (sourceToken w)
                                      (addr_sourceBridge (addresses w))
                  - amount
                /\ ERC20Mock.balanceOf t' user
                   = ERC20Mock.balanceOf (sourceToken w) user + amount))).
Proof.
  intros Htok Hb. split.
  { intros Hc. cbn [call]. unfold BridgeSourceChain.release.
    by rewrite source_onlyRelayer_other. }
  intros Hc. split_and!.
  - intros Ha. cbn [call].
    unfold BridgeSourceChain.release, BridgeSourceChain.onlyRelayer.
    rewrite bool_decide_eq_true_2 by done. cbn [bind require].
    by rewrite bool_decide_eq_false_2 by lia.
  - intros Ha ->. rewrite release_unfold by done.
    unfold ERC20Mock.transfer, ERC20Mock._transfer.
    rewrite decide_False by done. by rewrite decide_True.
  - intros Ha Hu Hbal. rewrite release_unfold by done.
    unfold ERC20Mock.transfer, ERC20Mock._transfer.
    rewrite !decide_False by done. by rewrite update_insufficient.
  - intros Ha Hu Hbal. rewrite release_unfold by done.
    unfold ERC20Mock.transfer, ERC20Mock._transfer.
    rewrite !decide_False by done. rewrite update_move by done.
    cbv zeta. cbn [bind]. eexists. split; [reflexivity|].
    split_and!; try reflexivity.
    intros Hwf Hne.
    pose proof (two_balances_le_supply _ _ user Hwf (not_eq_sym Hne)).
    pose proof (balanceOf_nonneg _ (addr_sourceBridge (addresses w)) Hwf).
    pose proof (balanceOf_nonneg _ user Hwf).
    destruct Hwf as (_ & _ & Hmax).
    rewrite !balanceOf_emit, !balanceOf_set_balance.
    rewrite (decide_False (P := user = addr_sourceBridge (addresses w)))
      by done.
    rewrite (decide_True (P := user = user)) by done.
    rewrite (decide_True (P := addr_sourceBridge (addresses w)
                               = addr_sourceBridge (addresses w))) by done.
    rewrite (decide_False (P := addr_sourceBridge (addresses w) = user))
      by done.
    rewrite wrap256_small by lia. done.
Qed.

Lemma release_behaviour_witness :
  call demo_user (Source_release demo_user 100) demo_locked
  = Revert (ErrorMsg "BridgeSource: Caller is not the relayer")
  /\ call demo_relayer (Source_release demo_user 0) demo_locked
     = Revert (ErrorMsg "BridgeSource: Amount must be greater than 0")
  /\ call demo_relayer (Source_release address0 100) demo_locked
     = Revert (ERC20InvalidReceiver address0)
  /\ call demo_relayer (Source_release demo_user 101) demo_locked
     = Revert (ERC20InsufficientBalance 103 100 101)
  /\ exists t',
       call demo_relayer (Source_release demo_user 100) demo_locked
       = Ok (set_sourceToken t' demo_locked)
       /\ ERC20Mock._totalSupply t'
          = ERC20Mock._totalSupply (sourceToken demo_locked).
Proof.
  pose proof (release_behaviour demo_locked demo_user demo_user 100
                eq_refl ltac:(vm_compute; discriminate)) as (H1 & _).
  pose proof (fun user amount =>
                proj2 (release_behaviour demo_locked demo_relayer user amount
                         eq_refl ltac:(vm_compute; discriminate)) eq_refl)
    as H.
  split_and!.
  - apply H1. vm_compute. discriminate.
  - apply (H demo_user 0). lia.
  - apply (H address0 100); [lia | reflexivity].
  - apply (H demo_user 101);
      [lia | vm_compute; discriminate | vm_compute; reflexivity].
  - destruct (H demo_user 100) as (_ & _ & _ & Hok).
    destruct Hok as (t' & Hc & _ & Hs & _);
      [lia | vm_compute; discriminate | vm_compute; discriminate |].
    exists t'. by split.
Defined.

(** ** [mintWrapped] and [burn] *)

Lemma mintWrapped_unfold c user amount w :
  BridgeDestinationChainStorage.wrappedToken (destBridge w)
  = addr_wrappedToken (addresses w) ->
  addr_wrappedToken (addresses w) <> addr_sourceToken (addresses w) ->
  c = BridgeDestinationChainStorage.relayer (destBridge w) ->
  0 < amount ->
  call c (Dest_mintWrapped user amount) w
  = (t <- ERC20Mock.mint (addr_destBridge (addresses w)) user amount
            (wrappedToken w) ;;
     Ok (set_wrappedToken t w)).
Proof.
  intros Htok Hne Hc Ha. cbn [call].
  unfold BridgeDestinationChain.mintWrapped,
    BridgeDestinationChain.onlyRelayer.
  rewrite bool_decide_eq_true_2 by done. cbn [bind require].
  rewrite bool_decide_eq_true_2 by lia. cbn [bind require].
  by rewrite Htok, callToken_wrapped.
Qed.

Lemma burn_unfold c amount destination w :
  BridgeDestinationChainStorage.wrappedToken (destBridge w)
  = addr_wrappedToken (addresses w) ->
  addr_wrappedToken (addresses w) <> addr_sourceToken (addresses w) ->
  0 < amount ->
  call c (Dest_burn amount destination) w
  = (t <- ERC20Mock.burnFrom (addr_destBridge (addresses w)) c amount
            (wrappedToken w) ;;
     Ok (BridgeDestinationChain.emit (TokenBurned c amount destination)
           (set_wrappedToken t w))).
Proof.
  intros Htok Hne Ha. cbn [call]. unfold BridgeDestinationChain.burn.
  rewrite bool_decide_eq_true_2 by lia. cbn [bind require].
  rewrite Htok, callToken_wrapped by done.
  by destruct (ERC20Mock.burnFrom _ _ _ _).
Qed.

(** X4. [mintWrapped] checks, in this order, that the caller is the
    relayer and that the amount is positive; the wrapped token then checks
    that the bridge is its owner, that the receiver is not the zero address
    and that the total supply stays within [uint256].  Each failure reverts
    with its own error.  A mint that passes adds [amount] to the receiver's
    wrapped balance and to the wrapped supply and changes nothing else: no
    other balance, no allowance, no log of either bridge, not the source
    token. *)
Theorem mintWrapped_behaviour
    (w : World) (c user : address) (amount : uint256) :
  BridgeDestinationChainStorage.wrappedToken (destBridge w)
  = addr_wrappedToken (addresses w) ->
  addr_wrappedToken (addresses w) <> addr_sourceToken (addresses w) ->
  ERC20_wf (wrappedToken w) ->
  (c <> BridgeDestinationChainStorage.relayer (destBridge w) ->
   call c (Dest_mintWrapped user amount) w
   = Revert (ErrorMsg "BridgeDest: Caller is not the relayer"))
  /\ (c = BridgeDestinationChainStorage.relayer (destBridge w) ->
      (amount <= 0 ->
       call c (Dest_mintWrapped user amount) w
       = Revert (ErrorMsg "BridgeDest: Amount must be greater than 0"))
      /\ (0 < amount ->
          ERC20Mock._owner (wrappedToken w) <> addr_destBridge (addresses w) ->
          call c (Dest_mintWrapped user amount) w
          = Revert (OwnableUnauthorizedAccount (addr_destBridge (addresses w))))
      /\ (0 < amount ->
          ERC20Mock._owner (wrappedToken w) = addr_destBridge (addresses w) ->
          (user = address0 ->
           call c (Dest_mintWrapped user amount) w
           = Revert (ERC20InvalidReceiver address0))
          /\ (user <> address0 ->
              MAX_UINT256 < ERC20Mock._totalSupply (wrappedToken w) + amount ->
              call c (Dest_mintWrapped user amount) w = Revert (Panic 17))
          /\ (user <> address0 ->
              ERC20Mock._totalSupply (wrappedToken w) + amount
              <= MAX_UINT256 ->
              exists t',
                call c (Dest_mintWrapped user amount) w
                = Ok (set_wrappedToken t' w)
                /\ ERC20Mock._totalSupply t'
                   = ERC20Mock._totalSupply (wrappedToken w) + amount
                /\ ERC20Mock.balanceOf t' user
                   = ERC20Mock.balanceOf (wrappedToken w) user + amount
                /\ (forall x, x <> user ->
                      ERC20Mock.balanceOf t' x
                      = ERC20Mock.balanceOf (wrappedToken w) x)
                /\ ERC20Mock._allowances t'
                   = ERC20Mock._allowances (wrappedToken w)))).
Proof.
  intros Htok Hne Hwf. split.
  { intros Hc. cbn [call]. unfold BridgeDestinationChain.mintWrapped.
    by rewrite dest_onlyRelayer_other. }
  intros Hc. split_and!.
  - intros Ha. cbn [call].
    unfold BridgeDestinationChain.mintWrapped,
      BridgeDestinationChain.onlyRelayer.
    rewrite bool_decide_eq_true_2 by done. cbn [bind require].
    by rewrite bool_decide_eq_false_2 by lia.
  - intros Ha Hown. rewrite mintWrapped_unfold by done.
    by rewrite mint_not_owner.
  - intros Ha Hown. rewrite mintWrapped_unfold by done.
    rewrite <- Hown. split_and!.
    + intros ->. unfold ERC20Mock.mint, ERC20Mock._mint.
      rewrite checkOwner_self. cbn [bind]. by rewrite decide_True.
    + intros Hu Hover. unfold ERC20Mock.mint, ERC20Mock._mint.
      rewrite checkOwner_self. cbn [bind]. rewrite decide_False by done.
      unfold ERC20Mock._update. rewrite decide_True by done.
      by rewrite decide_False by lia.
    + intros Hu Hsup.
      destruct (mint_spec user amount (wrappedToken w) Hwf Hu) as
        (t' & Hm & _ & _ & Hs & _ & Hb & Hx); [lia | done |].
      exists t'. rewrite Hm. split_and!; try done.
      unfold ERC20Mock.mint, ERC20Mock._mint in Hm.
      rewrite checkOwner_self in Hm. cbn [bind] in Hm.
      rewrite decide_False in Hm by done.
      by apply update_Ok in Hm as (_ & _ & Hal).
Qed.

Lemma mintWrapped_behaviour_witness :
  call demo_relayer (Dest_mintWrapped demo_user 0) demo_world
  = Revert (ErrorMsg "BridgeDest: Amount must be greater than 0")
  /\ call demo_relayer (Dest_mintWrapped demo_user 7)
          (Relayer.contracts demo_owner demo_relayer demo_addresses)
     = Revert (OwnableUnauthorizedAccount 104)
  /\ call demo_relayer (Dest_mintWrapped address0 7) demo_world
     = Revert (ERC20InvalidReceiver address0)
  /\ call demo_relayer (Dest_mintWrapped demo_user MAX_UINT256) demo_relayed
     = Revert (Panic 17)
  /\ exists t',
       call demo_relayer (Dest_mintWrapped demo_user 7) demo_relayed
       = Ok (set_wrappedToken t' demo_relayed)
       /\ ERC20Mock.balanceOf t' demo_user
          = ERC20Mock.balanceOf (wrappedToken demo_relayed) demo_user + 7.
Proof.
  pose proof (fun user amount =>
                proj2 (mintWrapped_behaviour demo_world demo_relayer
                         user amount eq_refl ltac:(vm_compute; discriminate)
                         ltac:(by_evaluation)) eq_refl) as Hworld.
  pose proof (fun user amount =>
                proj2 (mintWrapped_behaviour
                         (Relayer.contracts demo_owner demo_relayer
                                            demo_addresses)
                         demo_relayer
                         user amount eq_refl ltac:(vm_compute; discriminate)
                         ltac:(by_evaluation)) eq_refl) as Hcontracts.
  pose proof (fun user amount =>
                proj2 (mintWrapped_behaviour demo_relayed demo_relayer
                         user amount eq_refl ltac:(vm_compute; discriminate)
                         ltac:(by_evaluation)) eq_refl) as Hrelayed.
  split_and!.
  - apply Hworld. lia.
  - apply Hcontracts; [lia | vm_compute; discriminate].
  - apply Hworld; [lia | reflexivity | reflexivity].
  - apply Hrelayed;
      [vm_compute; reflexivity | reflexivity
      | vm_compute; discriminate | vm_compute; reflexivity].
  - destruct (Hrelayed demo_user 7) as (_ & _ & Hok).
    destruct Hok as (_ & _ & Hok); [lia | reflexivity |].
    destruct Hok as (t' & Hc & _ & Hb & _);
      [vm_compute; discriminate | vm_compute; discriminate |].
    exists t'. by split.
Defined.

(** X5. [burn] checks that the amount is positive; the wrapped token then
    checks that the bridge is its owner and that the caller holds the
    amount.  Each failure reverts with its own error.  A burn that passes
    appends TokenBurned(caller, amount, destination) to the bridge's log,
    takes [amount] from the caller's wrapped balance and from the wrapped
    supply, and changes no other balance, no allowance and nothing on the
    source side; [destination] is not checked at all. *)
Theorem burn_behaviour
    (w : World) (c : address) (amount : uint256) (destination : address) :
  BridgeDestinationChainStorage.wrappedToken (destBridge w)
  = addr_wrappedToken (addresses w) ->
  addr_wrappedToken (addresses w) <> addr_sourceToken (addresses w) ->
  ERC20_wf (wrappedToken w) -> c <> address0 ->
  (amount <= 0 ->
   call c (Dest_burn amount destination) w
   = Revert (ErrorMsg "BridgeDest: Amount must be greater than 0"))
  /\ (0 < amount ->
      ERC20Mock._owner (wrappedToken w) <> addr_destBridge (addresses w) ->
      call c (Dest_burn amount destination) w
      = Revert (OwnableUnauthorizedAccount (addr_destBridge (addresses w))))
  /\ (0 < amount ->
      ERC20Mock._owner (wrappedToken w) = addr_destBridge (addresses w) ->
      (ERC20Mock.balanceOf (wrappedToken w) c < amount ->
       call c (Dest_burn amount destination) w
       = Revert (ERC20InsufficientBalance
                   c (ERC20Mock.balanceOf (wrappedToken w) c) amount))
      /\ (amount <= ERC20Mock.balanceOf (wrappedToken w) c ->
          exists w',
            call c (Dest_burn amount destination) w = Ok w'
            /\ BridgeDestinationChainStorage.events (destBridge w')
               = BridgeDestinationChainStorage.events (destBridge w)
                 ++ [TokenBurned c amount destination]
            /\ sourceToken w' = sourceToken w
            /\ sourceBridge w' = sourceBridge w
            /\ ERC20Mock._totalSupply (wrappedToken w')
               = ERC20Mock._totalSupply (wrappedToken w) - amount
            /\ ERC20Mock.balanceOf (wrappedToken w') c
               = ERC20Mock.balanceOf (wrappedToken w) c - amount
            /\ (forall x, x <> c ->
                  ERC20Mock.balanceOf (wrappedToken w') x
                  = ERC20Mock.balanceOf (wrappedToken w) x)
            /\ ERC20Mock._allowances (wrappedToken w')
               = ERC20Mock._allowances (wrappedToken w))).
Proof.
  intros Htok Hne Hwf Hc. split_and!.
  - intros Ha. cbn [call]. unfold BridgeDestinationChain.burn.
    by rewrite bool_decide_eq_false_2 by lia.
  - intros Ha Hown. rewrite burn_unfold by done.
    by rewrite burnFrom_not_owner.
  - intros Ha Hown. rewrite burn_unfold by done. rewrite <- Hown. split.
    + intros Hbal. by rewrite burnFrom_owner_insufficient.
    + intros Hbal.
      destruct (burnFrom_spec c amount (wrappedToken w) Hwf Hc)
        as (t' & Hb & _ & _ & Hs & _ & Hbc & Hx); [lia|].
      rewrite Hb. cbn [bind]. eexists. split; [reflexivity|].
      split_and!; try done.
      rewrite burnFrom_owner in Hb by done. by injection Hb as <-.
Qed.

Lemma burn_behaviour_witness :
  call demo_user (Dest_burn 0 demo_user) demo_relayed
  = Revert (ErrorMsg "BridgeDest: Amount must be greater than 0")
  /\ call demo_user (Dest_burn 7 demo_user)
          (Relayer.contracts demo_owner demo_relayer demo_addresses)
     = Revert (OwnableUnauthorizedAccount 104)
  /\ call demo_user (Dest_burn 101 demo_user) demo_relayed
     = Revert (ERC20InsufficientBalance demo_user 100 101)
  /\ exists w',
       call demo_user (Dest_burn 40 9) demo_relayed = Ok w'
       /\ ERC20Mock._totalSupply (wrappedToken w')
          = ERC20Mock._totalSupply (wrappedToken demo_relayed) - 40.
Proof.
  pose proof (fun amount destination =>
                burn_behaviour demo_relayed demo_user amount destination
                  eq_refl ltac:(vm_compute; discriminate)
                  ltac:(by_evaluation) ltac:(vm_compute; discriminate))
    as Hrelayed.
  split_and!.
  - apply Hrelayed. lia.
  - apply (burn_behaviour
             (Relayer.contracts demo_owner demo_relayer demo_addresses)
             demo_user 7 demo_user
             eq_refl ltac:(vm_compute; discriminate)
             ltac:(by_evaluation) ltac:(vm_compute; discriminate));
      [lia | vm_compute; discriminate].
  - apply Hrelayed; [lia | reflexivity | vm_compute; reflexivity].
  - destruct (Hrelayed 40 9) as (_ & _ & Hok).
    destruct Hok as (_ & Hok); [lia | reflexivity |].
    destruct Hok as (w' & Hc & _ & _ & _ & Hs & _);
      [vm_compute; discriminate |].
    exists w'. by split.
Defined.

(** ** What no transaction does *)

Lemma extends_refl l : extends l l.
Proof. exists []. by rewrite app_nil_r. Qed.

Lemma extends_app l added : extends l (l ++ added).
Proof. by exists added. Qed.

Lemma extends_trans l1 l2 l3 : extends l1 l2 -> extends l2 l3 -> extends l1 l3.
Proof.
  intros [a ->] [b ->]. exists (a ++ b). by rewrite app_assoc.
Qed.

Ltac solve_extends :=
  first [ assumption | reflexivity | apply extends_refl | apply extends_app
        | congruence ].

Lemma dispatch_extends sender c t t' :
  ERC20Mock.dispatch sender c t = Ok t' ->
  extends (ERC20Mock.events t) (ERC20Mock.events t').
Proof.
  intros H.
  destruct c as [to amount|from amount|to value|spender value|from to value
                |newOwner|]; simpl in H.
  - unfold ERC20Mock.mint in H. apply bind_Ok in H as ([] & _ & H).
    unfold ERC20Mock._mint in H.
    destruct (decide (to = address0)); [discriminate|].
    apply update_Ok in H as (-> & _). apply extends_app.
  - unfold ERC20Mock.burnFrom in H. apply bind_Ok in H as ([] & _ & H).
    unfold ERC20Mock._burn in H.
    destruct (decide (from = address0)); [discriminate|].
    apply update_Ok in H as (-> & _). apply extends_app.
  - apply transfer_internal_Ok in H as (_ & _ & H).
    apply update_Ok in H as (-> & _). apply extends_app.
  - unfold ERC20Mock.approve, ERC20Mock._approve in H.
    repeat case_decide; try discriminate. injection H as <-.
    apply extends_app.
  - unfold ERC20Mock.transferFrom in H. apply bind_Ok in H as (t1 & H1 & H).
    apply transfer_internal_Ok in H as (_ & _ & H).
    apply update_Ok in H as (-> & _).
    unfold ERC20Mock._spendAllowance, ERC20Mock._approve in H1.
    repeat case_decide; try discriminate; injection H1 as <-;
      apply extends_app.
  - unfold ERC20Mock.transferOwnership in H.
    apply bind_Ok in H as (r & _ & H). injection H as <-. apply extends_app.
  - unfold ERC20Mock.renounceOwnership in H.
    apply bind_Ok in H as (r & _ & H). injection H as <-. apply extends_app.
Qed.

Lemma callToken_extends target sender tc w w' :
  callToken target (ERC20Mock.dispatch sender tc) w = Ok w' ->
  addresses w' = addresses w
  /\ sourceBridge w' = sourceBridge w
  /\ destBridge w' = destBridge w
  /\ extends (ERC20Mock.events (sourceToken w))
             (ERC20Mock.events (sourceToken w'))
  /\ extends (ERC20Mock.events (wrappedToken w))
             (ERC20Mock.events (wrappedToken w')).
Proof.
  intros H. apply callToken_Ok in H as [(t & Ht & ->)|(t & Ht & ->)];
    apply dispatch_extends in Ht; simpl;
    split_and!; solve_extends.
Qed.

Lemma call_extends sender c w w' :
  call sender c w = Ok w' ->
  addresses w' = addresses w
  /\ BridgeSourceChainStorage.token (sourceBridge w')
     = BridgeSourceChainStorage.token (sourceBridge w)
  /\ BridgeDestinationChainStorage.wrappedToken (destBridge w')
     = BridgeDestinationChainStorage.wrappedToken (destBridge w)
  /\ extends (ERC20Mock.events (sourceToken w))
             (ERC20Mock.events (sourceToken w'))
  /\ extends (ERC20Mock.events (wrappedToken w))
             (ERC20Mock.events (wrappedToken w'))
  /\ extends (BridgeSourceChainStorage.events (sourceBridge w))
             (BridgeSourceChainStorage.events (sourceBridge w'))
  /\ extends (BridgeDestinationChainStorage.events (destBridge w))
             (BridgeDestinationChainStorage.events (destBridge w')).
Proof.
  intros H.
  destruct c as [tk tc|amount destination|user amount|newRelayer|newOwner|
                 |user amount|amount destination|newRelayer|newOwner|];
    simpl in H.
  - destruct tk; simpl in H; apply bind_Ok in H as (t & Ht & H);
      injection H as <-; apply dispatch_extends in Ht; simpl;
      split_and!; solve_extends.
  - unfold BridgeSourceChain.lock in H.
    apply bind_Ok in H as ([] & _ & H).
    apply bind_Ok in H as (w1 & H1 & H). injection H as <-.
    apply (callToken_extends _ (addr_sourceBridge (addresses w))
             (ERC20Mock.TransferFrom sender (addr_sourceBridge (addresses w))
                                     amount)) in H1
      as (Ha & Hs & Hd & Hes & Hew).
    simpl. rewrite Hs, Hd. split_and!; solve_extends.
  - unfold BridgeSourceChain.release in H.
    apply bind_Ok in H as ([] & _ & H). apply bind_Ok in H as ([] & _ & H).
    apply (callToken_extends _ (addr_sourceBridge (addresses w))
             (ERC20Mock.TransferTo user amount)) in H
      as (Ha & Hs & Hd & Hes & Hew).
    rewrite Hs, Hd. split_and!; solve_extends.
  - unfold BridgeSourceChain.setRelayer in H.
    apply bind_Ok in H as ([] & _ & H). injection H as <-. simpl.
    split_and!; solve_extends.
  - unfold BridgeSourceChain.transferOwnership in H.
    apply bind_Ok in H as (r & _ & H). injection H as <-. simpl.
    split_and!; solve_extends.
  - unfold BridgeSourceChain.renounceOwnership in H.
    apply bind_Ok in H as (r & _ & H). injection H as <-. simpl.
    split_and!; solve_extends.
  - unfold BridgeDestinationChain.mintWrapped in H.
    apply bind_Ok in H as ([] & _ & H). apply bind_Ok in H as ([] & _ & H).
    apply (callToken_extends _ (addr_destBridge (addresses w))
             (ERC20Mock.Mint user amount)) in H
      as (Ha & Hs & Hd & Hes & Hew).
    rewrite Hs, Hd. split_and!; solve_extends.
  - unfold BridgeDestinationChain.burn in H.
    apply bind_Ok in H as ([] & _ & H).
    apply bind_Ok in H as (w1 & H1 & H). injection H as <-.
    apply (callToken_extends _ (addr_destBridge (addresses w))
             (ERC20Mock.BurnFrom sender amount)) in H1
      as (Ha & Hs & Hd & Hes & Hew).
    simpl. rewrite Hs, Hd. split_and!; solve_extends.
  - unfold BridgeDestinationChain.setRelayer in H.
    apply bind_Ok in H as ([] & _ & H). injection H as <-. simpl.
    split_and!; solve_extends.
  - unfold BridgeDestinationChain.transferOwnership in H.
    apply bind_Ok in H as (r & _ & H). injection H as <-. simpl.
    split_and!; solve_extends.
  - unfold BridgeDestinationChain.renounceOwnership in H.
    apply bind_Ok in H as (r & _ & H). injection H as <-. simpl.
    split_and!; solve_extends.
Qed.

(** X6. Whatever transactions are sent, by whomever and whether they
    succeed or revert, the four contracts stay at their addresses, the
    [token] and [wrappedToken] a bridge was constructed with never change,
    and the event log of each of the four contracts only ever grows at its
    end: no entry is removed or rewritten. *)
Theorem logs_only_grow (txs : list (address * Call)) (w : World) :
  addresses (run txs w) = addresses w
  /\ BridgeSourceChainStorage.token (sourceBridge (run txs w))
     = BridgeSourceChainStorage.token (sourceBridge w)
  /\ BridgeDestinationChainStorage.wrappedToken (destBridge (run txs w))
     = BridgeDestinationChainStorage.wrappedToken (destBridge w)
  /\ extends (ERC20Mock.events (sourceToken w))
             (ERC20Mock.events (sourceToken (run txs w)))
  /\ extends (ERC20Mock.events (wrappedToken w))
             (ERC20Mock.events (wrappedToken (run txs w)))
  /\ extends (BridgeSourceChainStorage.events (sourceBridge w))
             (BridgeSourceChainStorage.events (sourceBridge (run txs w)))
  /\ extends (BridgeDestinationChainStorage.events (destBridge w))
             (BridgeDestinationChainStorage.events (destBridge (run txs w))).
Proof.
  revert w. induction txs as [|[sender c] txs IH]; intros w.
  - simpl. split_and!; try done; apply extends_refl.
  - simpl. destruct (IH (exec sender c w)) as (Ha & Ht & Hw & H1 & H2 & H3 & H4).
    assert (addresses (exec sender c w) = addresses w
            /\ BridgeSourceChainStorage.token (sourceBridge (exec sender c w))
               = BridgeSourceChainStorage.token (sourceBridge w)
            /\ BridgeDestinationChainStorage.wrappedToken
                 (destBridge (exec sender c w))
               = BridgeDestinationChainStorage.wrappedToken (destBridge w)
            /\ extends (ERC20Mock.events (sourceToken w))
                       (ERC20Mock.events (sourceToken (exec sender c w)))
            /\ extends (ERC20Mock.events (wrappedToken w))
                       (ERC20Mock.events (wrappedToken (exec sender c w)))
            /\ extends (BridgeSourceChainStorage.events (sourceBridge w))
                       (BridgeSourceChainStorage.events
                          (sourceBridge (exec sender c w)))
            /\ extends (BridgeDestinationChainStorage.events (destBridge w))
                       (BridgeDestinationChainStorage.events
                          (destBridge (exec sender c w))))
      as (Ha' & Ht' & Hw' & H1' & H2' & H3' & H4').
    { unfold exec. destruct (call sender c w) as [w'|e] eqn:E.
      - by apply call_extends in E.
      - split_and!; try done; apply extends_refl. }
    split_and!; try congruence; by eapply extends_trans.
Qed.

(** X7. From the deployment relayer.ts makes, after any sequence of
    transactions whose amounts are [uint256] values (the relayer's own
    [mintWrapped] and [release] among them), both tokens keep their books:
    every balance is unsigned, the balances add up to the total supply, and
    the total supply fits in a [uint256]. *)
Theorem tokens_keep_their_books
    (owner relayer : address) (a : Addresses) (w0 : World)
    (txs : list (address * Call)) :
  Relayer.deploy owner relayer a = Ok w0 ->
  Forall (fun tx => call_typed (snd tx)) txs ->
  ERC20_wf (sourceToken (run txs w0)) /\ ERC20_wf (wrappedToken (run txs w0)).
Proof.
  intros Hdeploy Htyped.
  destruct (deploy_wf owner relayer a w0 Hdeploy) as (Hs & Hw).
  by apply run_wf.
Qed.

Lemma tokens_keep_their_books_witness :
  ERC20_wf (sourceToken demo_funded) /\ ERC20_wf (wrappedToken demo_funded).
Proof.
  apply (tokens_keep_their_books demo_owner demo_relayer demo_addresses
           demo_world
           [ (demo_owner, Token SourceToken (ERC20Mock.Mint demo_user 100));
             (demo_user, Token SourceToken (ERC20Mock.Approve 103 100)) ]).
  - vm_compute. reflexivity.
  - repeat constructor; vm_compute; discriminate.
Defined.

(** ** More on the listeners *)

Lemma relay_world relayer ds w :
  fst (Relayer.relay relayer ds w)
  = run (map (fun d => (relayer, reaction d)) ds) w.
Proof.
  revert w. induction ds as [|d ds IH]; intros w; [reflexivity|].
  rewrite relay_cons. cbn [fst map run]. by rewrite IH, react_world.
Qed.

Lemma relay_sent_list relayer ds w :
  Relayer.sent (snd (Relayer.relay relayer ds w))
  = map (fun d => (relayer, reaction d)) ds.
Proof.
  revert w. induction ds as [|d ds IH]; intros w; [reflexivity|].
  rewrite relay_cons. cbn [snd map]. by rewrite sent_app, react_sent, IH.
Qed.

(** X8. The relayer is nothing but its transactions: fired on any sequence
    of logs, the listeners send exactly one transaction per log, in order,
    and leave the chain as those transactions sent from the relayer account
    would; a transaction that reverts is skipped and does not stop the ones
    after it. *)
Theorem relay_is_its_transactions
    (relayer : address) (ds : list Relayer.Delivery) (w : World) :
  Relayer.sent (snd (Relayer.relay relayer ds w))
  = map (fun d => (relayer, reaction d)) ds
  /\ fst (Relayer.relay relayer ds w)
     = run (Relayer.sent (snd (Relayer.relay relayer ds w))) w
  /\ forall ds1 ds2, ds = ds1 ++ ds2 ->
       fst (Relayer.relay relayer ds w)
       = fst (Relayer.relay relayer ds2 (fst (Relayer.relay relayer ds1 w))).
Proof.
  split_and!.
  - apply relay_sent_list.
  - by rewrite relay_sent_list, relay_world.
  - intros ds1 ds2 ->. rewrite !relay_world, map_app.
    generalize (map (fun d => (relayer, reaction d)) ds1) as l1.
    generalize (map (fun d => (relayer, reaction d)) ds2) as l2.
    intros l2 l1. revert w. induction l1 as [|[s c] l1 IH]; intros w;
      [reflexivity | simpl; apply IH].
Qed.

Lemma relay_is_its_transactions_witness :
  fst (Relayer.relay demo_relayer
         [Relayer.Locked demo_lock_event; Relayer.Burned demo_burn_event]
         demo_locked)
  = fst (Relayer.relay demo_relayer [Relayer.Burned demo_burn_event]
           (fst (Relayer.relay demo_relayer [Relayer.Locked demo_lock_event]
                   demo_locked))).
Proof.
  apply (relay_is_its_transactions demo_relayer
           [Relayer.Locked demo_lock_event; Relayer.Burned demo_burn_event]
           demo_locked).
  reflexivity.
Defined.

(** X9. A listener never causes a listener to fire: its transaction leaves
    the storage of both bridges, and so their logs, relayers and owners, as
    it was, whether it succeeds or not.  In a wired deployment the
    TokenLocked listener changes nothing but the wrapped token and the
    TokenBurned listener nothing but the source token. *)
Theorem listeners_emit_nothing
    (relayer : address) (d : Relayer.Delivery) (w : World) :
  let w' := fst (Relayer.react relayer d w) in
  sourceBridge w' = sourceBridge w
  /\ destBridge w' = destBridge w
  /\ newly_emitted w w' = []
  /\ (wired relayer w ->
      match d with
      | Relayer.Locked _ => sourceToken w' = sourceToken w
      | Relayer.Burned _ => wrappedToken w' = wrappedToken w
      end).
Proof.
  intros w'. subst w'. rewrite react_world. unfold exec.
  destruct (call relayer (reaction d) w) as [w'|e] eqn:H.
  2: { unfold newly_emitted. rewrite !emitted_same.
       split_and!; try done. by destruct d. }
  assert (sourceBridge w' = sourceBridge w /\ destBridge w' = destBridge w
          /\ (wired relayer w ->
              match d with
              | Relayer.Locked _ => sourceToken w' = sourceToken w
              | Relayer.Burned _ => wrappedToken w' = wrappedToken w
              end)) as (Hs & Hd & Hw).
  { destruct d as [[[[user amount] destination] b t i]
                  |[[[user amount] destination] b t i]];
      cbn [reaction Relayer.args call] in H.
    - unfold BridgeDestinationChain.mintWrapped in H.
      apply bind_Ok in H as ([] & _ & H). apply bind_Ok in H as ([] & _ & H).
      split_and!.
      + by apply callToken_Ok in H as [(? & _ & ->)|(? & _ & ->)].
      + by apply callToken_Ok in H as [(? & _ & ->)|(? & _ & ->)].
      + intros Hwired.
        pose proof (wired_addresses _ _ Hwired) as (_ & _ & _ & _ & Hne).
        destruct Hwired as (_ & _ & Htok & _).
        rewrite Htok, callToken_wrapped in H by done.
        apply bind_Ok in H as (? & _ & H). by injection H as <-.
    - unfold BridgeSourceChain.release in H.
      apply bind_Ok in H as ([] & _ & H). apply bind_Ok in H as ([] & _ & H).
      split_and!.
      + by apply callToken_Ok in H as [(? & _ & ->)|(? & _ & ->)].
      + by apply callToken_Ok in H as [(? & _ & ->)|(? & _ & ->)].
      + intros Hwired. destruct Hwired as (_ & Htok & _).
        rewrite Htok, callToken_source in H.
        apply bind_Ok in H as (? & _ & H). by injection H as <-. }
  unfold newly_emitted. rewrite Hs, Hd, !emitted_same. by split_and!.
Qed.

Lemma listeners_emit_nothing_witness :
  sourceToken (fst (Relayer.react demo_relayer
                      (Relayer.Locked demo_lock_event) demo_locked))
  = sourceToken demo_locked.
Proof.
  apply (listeners_emit_nothing demo_relayer (Relayer.Locked demo_lock_event)
           demo_locked).
  by_evaluation.
Defined.

(** X10. Neither bridge checks [destination].  A lock for the zero address
    succeeds and takes the caller's tokens, but the listener's [mintWrapped]
    for it reverts with ERC20InvalidReceiver, so nothing is ever minted for
    that lock; likewise a burn for the zero address destroys the caller's
    wrapped tokens and the listener's [release] for it reverts, so nothing is
    released. *)
Theorem zero_destination_strands_funds
    (relayer : address) (w : World) (U : address) (amount : uint256)
    (b t i : Z) :
  wired relayer w ->
  ERC20_wf (sourceToken w) -> ERC20_wf (wrappedToken w) ->
  U <> address0 -> U <> addr_sourceBridge (addresses w) -> 0 < amount ->
  (amount <= ERC20Mock.balanceOf (sourceToken w) U ->
   amount <= ERC20Mock.allowance (sourceToken w) U
                                 (addr_sourceBridge (addresses w)) ->
   exists w1,
     call U (Source_lock amount address0) w = Ok w1
     /\ filter subscribed (newly_emitted w w1) = [TokenLocked U amount address0]
     /\ call relayer
             (reaction (Relayer.Locked
                          (Relayer.mkPayload (U, amount, address0) b t i))) w1
        = Revert (ERC20InvalidReceiver address0)
     /\ fst (Relayer.react relayer
               (Relayer.Locked (Relayer.mkPayload (U, amount, address0) b t i))
               w1) = w1
     /\ ERC20Mock.balanceOf (sourceToken w1) U
        = ERC20Mock.balanceOf (sourceToken w) U - amount
     /\ wrappedToken w1 = wrappedToken w)
  /\ (amount <= ERC20Mock.balanceOf (wrappedToken w) U ->
      exists w1,
        call U (Dest_burn amount address0) w = Ok w1
        /\ filter subscribed (newly_emitted w w1)
           = [TokenBurned U amount address0]
        /\ call relayer
                (reaction (Relayer.Burned
                             (Relayer.mkPayload (U, amount, address0) b t i)))
                w1
           = Revert (ERC20InvalidReceiver address0)
        /\ fst (Relayer.react relayer
                  (Relayer.Burned
                     (Relayer.mkPayload (U, amount, address0) b t i)) w1) = w1
        /\ ERC20Mock.balanceOf (wrappedToken w1) U
           = ERC20Mock.balanceOf (wrappedToken w) U - amount
        /\ sourceToken w1 = sourceToken w).
Proof.
  intros Hw Hwfs Hwfw HU HUb Ha.
  pose proof (wired_addresses _ _ Hw) as (_ & _ & Hb0 & _ & Hne).
  split.
  - intros Hbal Hall.
    destruct (lock_spec relayer w U amount address0 Hw Hwfs HU HUb)
      as (ts & Hlock & _ & _ & HbU & _); [lia | done |].
    set (w1 := BridgeSourceChain.emit (TokenLocked U amount address0)
                 (set_sourceToken ts w)) in *.
    assert (call relayer (Dest_mintWrapped address0 amount) w1
            = Revert (ERC20InvalidReceiver address0)) as Hrev.
    { destruct Hw as (_ & _ & Htok & Hown & _ & Hrel).
      rewrite mintWrapped_unfold by done.
      change (wrappedToken w1) with (wrappedToken w).
      change (addresses w1) with (addresses w). rewrite <- Hown.
      unfold ERC20Mock.mint, ERC20Mock._mint.
      rewrite checkOwner_self. cbn [bind]. by rewrite decide_True. }
    exists w1. split_and!; try done.
    + unfold newly_emitted, w1; simpl. by rewrite emitted_app, emitted_same.
    + rewrite react_world. by apply exec_Revert in Hrev.
  - intros Hbal.
    destruct (burn_spec relayer w U amount address0 Hw Hwfw HU)
      as (tw & Hburn & _ & Hown' & _ & _ & HbU & _); [lia|].
    set (w1 := BridgeDestinationChain.emit (TokenBurned U amount address0)
                 (set_wrappedToken tw w)) in *.
    assert (call relayer (Source_release address0 amount) w1
            = Revert (ERC20InvalidReceiver address0)) as Hrev.
    { destruct Hw as (_ & Htok & _ & _ & Hrel & _).
      rewrite release_unfold by done.
      unfold ERC20Mock.transfer, ERC20Mock._transfer.
      rewrite decide_False by done. by rewrite decide_True. }
    exists w1. split_and!; try done.
    + unfold newly_emitted, w1; simpl. by rewrite emitted_app, emitted_same.
    + rewrite react_world. by apply exec_Revert in Hrev.
Qed.

Lemma zero_destination_strands_funds_witness :
  (exists w1,
      call demo_user (Source_lock 100 address0) demo_funded = Ok w1
      /\ fst (Relayer.react demo_relayer
                (Relayer.Locked
                   (Relayer.mkPayload (demo_user, 100, address0) 7 0 0)) w1)
         = w1
      /\ wrappedToken w1 = wrappedToken demo_funded)
  /\ (exists w1,
        call demo_user (Dest_burn 100 address0) demo_relayed = Ok w1
        /\ fst (Relayer.react demo_relayer
                  (Relayer.Burned
                     (Relayer.mkPayload (demo_user, 100, address0) 9 0 0)) w1)
           = w1
        /\ sourceToken w1 = sourceToken demo_relayed).
Proof.
  split.
  - destruct (zero_destination_strands_funds demo_relayer demo_funded
                demo_user 100 7 0 0
                ltac:(by_evaluation) ltac:(by_evaluation) ltac:(by_evaluation)
                ltac:(vm_compute; discriminate)
                ltac:(vm_compute; discriminate) eq_refl) as [H _].
    destruct H as (w1 & Hl & _ & _ & Hr & _ & Hw);
      [vm_compute; discriminate | vm_compute; discriminate |].
    exists w1. by split_and!.
  - destruct (zero_destination_strands_funds demo_relayer demo_relayed
                demo_user 100 9 0 0
                ltac:(by_evaluation) ltac:(by_evaluation) ltac:(by_evaluation)
                ltac:(vm_compute; discriminate)
                ltac:(vm_compute; discriminate) eq_refl) as [_ H].
    destruct H as (w1 & Hl & _ & _ & Hr & _ & Hw);
      [vm_compute; discriminate |].
    exists w1. by split_and!.
Defined.

(** ** Replacing the relayer *)

Lemma relay_all_rejected signer ds w :
  Forall (fun d => exists e, call signer (reaction d) w = Revert e) ds ->
  fst (Relayer.relay signer ds w) = w
  /\ successes (snd (Relayer.relay signer ds w)) = 0%nat.
Proof.
  induction 1 as [|d ds [e He] _ IH]; [done|].
  rewrite relay_cons. cbn [fst snd].
  rewrite successes_app, react_successes, react_world, He.
  rewrite (exec_Revert _ _ _ _ He). cbn [is_ok]. by destruct IH as [-> ->].
Qed.

(** X11. [setRelayer], sent by the owner of a bridge, replaces the relayer of
    that bridge and nothing else: no event is logged, the other three
    contracts are untouched, and the owner and the token of the bridge stay.
    From then on every submission of a signer other than the new relayer is
    rejected: a relayer script still signing with another key finds each of
    its [release] (resp. [mintWrapped]) transactions reverted, prints no
    success line and leaves the world as it is. *)
Theorem setRelayer_hand_over
    (w : World) (signer newRelayer : address) (ds : list Relayer.Delivery) :
  signer <> newRelayer ->
  (exists w1,
      call (BridgeSourceChainStorage._owner (sourceBridge w))
           (Source_setRelayer newRelayer) w = Ok w1
      /\ sourceBridge w1
         = BridgeSourceChainStorage.mk
             (BridgeSourceChainStorage.token (sourceBridge w)) newRelayer
             (BridgeSourceChainStorage._owner (sourceBridge w))
             (BridgeSourceChainStorage.events (sourceBridge w))
      /\ w1 = set_sourceBridge (sourceBridge w1) w
      /\ newly_emitted w w1 = []
      /\ (forall user amount,
             call signer (Source_release user amount) w1
             = Revert (ErrorMsg "BridgeSource: Caller is not the relayer"))
      /\ (forallb is_Burned ds = true ->
          fst (Relayer.relay signer ds w1) = w1
          /\ successes (snd (Relayer.relay signer ds w1)) = 0%nat))
  /\ (exists w1,
      call (BridgeDestinationChainStorage._owner (destBridge w))
           (Dest_setRelayer newRelayer) w = Ok w1
      /\ destBridge w1
         = BridgeDestinationChainStorage.mk
             (BridgeDestinationChainStorage.wrappedToken (destBridge w))
             newRelayer
             (BridgeDestinationChainStorage._owner (destBridge w))
             (BridgeDestinationChainStorage.events (destBridge w))
      /\ w1 = set_destBridge (destBridge w1) w
      /\ newly_emitted w w1 = []
      /\ (forall user amount,
             call signer (Dest_mintWrapped user amount) w1
             = Revert (ErrorMsg "BridgeDest: Caller is not the relayer"))
      /\ (forallb is_Locked ds = true ->
          fst (Relayer.relay signer ds w1) = w1
          /\ successes (snd (Relayer.relay signer ds w1)) = 0%nat)).
Proof.
  intros Hne. split.
  - eexists. split.
    { cbn [call]. unfold BridgeSourceChain.setRelayer.
      rewrite checkOwner_self. cbn [bind]. reflexivity. }
    assert (forall user amount,
               call signer (Source_release user amount)
                 (set_sourceBridge
                    (BridgeSourceChainStorage.mk
                       (BridgeSourceChainStorage.token (sourceBridge w))
                       newRelayer
                       (BridgeSourceChainStorage._owner (sourceBridge w))
                       (BridgeSourceChainStorage.events (sourceBridge w))) w)
               = Revert (ErrorMsg "BridgeSource: Caller is not the relayer"))
      as Hrej.
    { intros user amount. cbn [call]. unfold BridgeSourceChain.release.
      by rewrite source_onlyRelayer_other. }
    split_and!; try done.
    + unfold newly_emitted, set_sourceBridge, set_destBridge.
      cbn [sourceBridge destBridge BridgeSourceChainStorage.events
           BridgeDestinationChainStorage.events].
      by rewrite !emitted_same.
    + intros Hds. apply relay_all_rejected.
      apply Forall_forall. intros d Hd.
      rewrite forallb_forall in Hds. apply list_elem_of_In, Hds in Hd.
      destruct d as [?|[[[user amount] destination] b t i]]; [done|].
      eexists. apply Hrej.
  - eexists. split.
    { cbn [call]. unfold BridgeDestinationChain.setRelayer.
      rewrite checkOwner_self. cbn [bind]. reflexivity. }
    assert (forall user amount,
               call signer (Dest_mintWrapped user amount)
                 (set_destBridge
                    (BridgeDestinationChainStorage.mk
                       (BridgeDestinationChainStorage.wrappedToken
                          (destBridge w))
                       newRelayer
                       (BridgeDestinationChainStorage._owner (destBridge w))
                       (BridgeDestinationChainStorage.events (destBridge w)))
                    w)
               = Revert (ErrorMsg "BridgeDest: Caller is not the relayer"))
      as Hrej.
    { intros user amount. cbn [call]. unfold BridgeDestinationChain.mintWrapped.
      by rewrite dest_onlyRelayer_other. }
    split_and!; try done.
    + unfold newly_emitted, set_sourceBridge, set_destBridge.
      cbn [sourceBridge destBridge BridgeSourceChainStorage.events
           BridgeDestinationChainStorage.events].
      by rewrite !emitted_same.
    + intros Hds. apply relay_all_rejected.
      apply Forall_forall. intros d Hd.
      rewrite forallb_forall in Hds. apply list_elem_of_In, Hds in Hd.
      destruct d as [[[[user amount] destination] b t i]|?]; [|done].
      eexists. apply Hrej.
Qed.

Lemma setRelayer_hand_over_witness :
  exists w1,
    call demo_owner (Source_setRelayer demo_other) demo_relayed = Ok w1
    /\ fst (Relayer.relay demo_relayer
              [Relayer.Burned
                 (Relayer.mkPayload (demo_user, 100, demo_user) 9 0 0)] w1)
       = w1.
Proof.
  destruct (setRelayer_hand_over demo_relayed demo_relayer demo_other
              [Relayer.Burned
                 (Relayer.mkPayload (demo_user, 100, demo_user) 9 0 0)]
              ltac:(vm_compute; discriminate))
    as [(w1 & Hcall & _ & _ & _ & _ & Hrelay) _].
  exists w1. split; [exact Hcall|]. exact (proj1 (Hrelay eq_refl)).
Defined.

(** ** Allowances *)

Lemma spendAllowance_allowances owner spender value t t' :
  ERC20Mock._spendAllowance owner spender value t = Ok t' ->
  t' = spent owner spender value t.
Proof.
  unfold ERC20Mock._spendAllowance, spent, ERC20Mock._approve.
  intros H. repeat case_decide; try discriminate; by injection H as <-.
Qed.

Lemma transfer_allowances from to value t t' :
  ERC20Mock._transfer from to value t = Ok t' ->
  ERC20Mock._allowances t' = ERC20Mock._allowances t.
Proof.
  intros H. apply transfer_internal_Ok in H as (_ & _ & H).
  by apply update_Ok in H as (_ & _ & Ha).
Qed.

Lemma allowance_spent owner spender value t o s :
  s <> spender ->
  ERC20Mock.allowance (spent owner spender value t) o s
  = ERC20Mock.allowance t o s.
Proof.
  intros Hs. unfold spent. case_decide; [|done].
  unfold ERC20Mock.allowance, ERC20Mock.set_allowance. cbn.
  rewrite lookup_insert_ne; [done | congruence].
Qed.

(** What one call to a bridge does to the allowances of the two tokens. *)
Lemma call_allowances sender c w w' :
  BridgeSourceChainStorage.token (sourceBridge w)
  = addr_sourceToken (addresses w) ->
  BridgeDestinationChainStorage.wrappedToken (destBridge w)
  = addr_wrappedToken (addresses w) ->
  addr_wrappedToken (addresses w) <> addr_sourceToken (addresses w) ->
  is_token_call c = false ->
  call sender c w = Ok w' ->
  ERC20Mock._allowances (wrappedToken w')
  = ERC20Mock._allowances (wrappedToken w)
  /\ ERC20Mock._allowances (sourceToken w')
     = match c with
       | Source_lock amount _ =>
           ERC20Mock._allowances
             (spent sender (addr_sourceBridge (addresses w)) amount
                (sourceToken w))
       | _ => ERC20Mock._allowances (sourceToken w)
       end.
Proof.
  intros Hts Htw Hne Hc H.
  destruct c as [tk tc|amount destination|user amount|newRelayer|newOwner|
                 |user amount|amount destination|newRelayer|newOwner|];
    try discriminate Hc; cbn [call] in H.
  - unfold BridgeSourceChain.lock in H.
    apply bind_Ok in H as ([] & _ & H).
    apply bind_Ok in H as (w1 & H1 & H). injection H as <-.
    rewrite Hts, callToken_source in H1.
    apply bind_Ok in H1 as (t & Ht & H1). injection H1 as <-.
    unfold ERC20Mock.transferFrom in Ht.
    apply bind_Ok in Ht as (t1 & Hs & Ht).
    apply spendAllowance_allowances in Hs as ->.
    apply transfer_allowances in Ht. by split.
  - unfold BridgeSourceChain.release in H.
    apply bind_Ok in H as ([] & _ & H).
    apply bind_Ok in H as ([] & _ & H).
    rewrite Hts, callToken_source in H.
    apply bind_Ok in H as (t & Ht & H). injection H as <-.
    apply transfer_allowances in Ht. by split.
  - unfold BridgeSourceChain.setRelayer in H.
    apply bind_Ok in H as ([] & _ & H). by injection H as <-.
  - unfold BridgeSourceChain.transferOwnership in H.
    apply bind_Ok in H as (r & _ & H). by injection H as <-.
  - unfold BridgeSourceChain.renounceOwnership in H.
    apply bind_Ok in H as (r & _ & H). by injection H as <-.
  - unfold BridgeDestinationChain.mintWrapped in H.
    apply bind_Ok in H as ([] & _ & H).
    apply bind_Ok in H as ([] & _ & H).
    rewrite Htw, callToken_wrapped in H by done.
    apply bind_Ok in H as (t & Ht & H). injection H as <-.
    unfold ERC20Mock.mint in Ht. apply bind_Ok in Ht as ([] & _ & Ht).
    unfold ERC20Mock._mint in Ht. case_decide; [discriminate|].
    apply update_Ok in Ht as (_ & _ & Ha). by split.
  - unfold BridgeDestinationChain.burn in H.
    apply bind_Ok in H as ([] & _ & H).
    apply bind_Ok in H as (w1 & H1 & H). injection H as <-.
    rewrite Htw, callToken_wrapped in H1 by done.
    apply bind_Ok in H1 as (t & Ht & H1). injection H1 as <-.
    unfold ERC20Mock.burnFrom in Ht. apply bind_Ok in Ht as ([] & _ & Ht).
    unfold ERC20Mock._burn in Ht. case_decide; [discriminate|].
    apply update_Ok in Ht as (_ & _ & Ha). by split.
  - unfold BridgeDestinationChain.setRelayer in H.
    apply bind_Ok in H as ([] & _ & H). by injection H as <-.
  - unfold BridgeDestinationChain.transferOwnership in H.
    apply bind_Ok in H as (r & _ & H). by injection H as <-.
  - unfold BridgeDestinationChain.renounceOwnership in H.
    apply bind_Ok in H as (r & _ & H). by injection H as <-.
Qed.

Lemma call_allowances_frame sender c w w' :
  BridgeSourceChainStorage.token (sourceBridge w)
  = addr_sourceToken (addresses w) ->
  BridgeDestinationChainStorage.wrappedToken (destBridge w)
  = addr_wrappedToken (addresses w) ->
  addr_wrappedToken (addresses w) <> addr_sourceToken (addresses w) ->
  is_token_call c = false ->
  call sender c w = Ok w' ->
  ERC20Mock._allowances (wrappedToken w')
  = ERC20Mock._allowances (wrappedToken w)
  /\ forall o s, s <> addr_sourceBridge (addresses w) ->
       ERC20Mock.allowance (sourceToken w') o s
       = ERC20Mock.allowance (sourceToken w) o s.
Proof.
  intros Hts Htw Hne Hc H.
  destruct (call_allowances _ _ _ _ Hts Htw Hne Hc H) as [Hwr Hsr].
  split; [done|]. intros o s Hs.
  assert (forall t, ERC20Mock._allowances (sourceToken w')
                    = ERC20Mock._allowances t ->
                    ERC20Mock.allowance (sourceToken w') o s
                    = ERC20Mock.allowance t o s) as Hal
    by (unfold ERC20Mock.allowance; by intros t ->).
  destruct c; try (by apply Hal).
  rewrite (Hal _ Hsr). by apply allowance_spent.
Qed.

(** X12. The bridges and allowances.  Through any sequence of calls to the
    two bridges of a wired deployment, successful or reverted, no allowance
    on the wrapped token changes ([burn] destroys the caller's tokens without
    touching any approval) and, on the source token, only allowances granted
    to the source bridge can change: a successful [lock] spends the caller's
    allowance for the bridge, unless that allowance is the maximal one. *)
Theorem bridges_and_allowances
    (relayer : address) (txs : list (address * Call)) (w : World) :
  wired relayer w ->
  Forall (fun tx => is_token_call (snd tx) = false) txs ->
  ERC20Mock._allowances (wrappedToken (run txs w))
  = ERC20Mock._allowances (wrappedToken w)
  /\ (forall o s, s <> addr_sourceBridge (addresses w) ->
        ERC20Mock.allowance (sourceToken (run txs w)) o s
        = ERC20Mock.allowance (sourceToken w) o s)
  /\ (forall sender amount destination w',
        call sender (Source_lock amount destination) w = Ok w' ->
        ERC20Mock._allowances (sourceToken w')
        = ERC20Mock._allowances
            (spent sender (addr_sourceBridge (addresses w)) amount
               (sourceToken w))).
Proof.
  intros Hw Htxs.
  pose proof (wired_addresses _ _ Hw) as (_ & _ & _ & _ & Hne).
  destruct Hw as (_ & Hts & Htw & _).
  assert (ERC20Mock._allowances (wrappedToken (run txs w))
          = ERC20Mock._allowances (wrappedToken w)
          /\ (forall o s, s <> addr_sourceBridge (addresses w) ->
                ERC20Mock.allowance (sourceToken (run txs w)) o s
                = ERC20Mock.allowance (sourceToken w) o s)) as [Hwr Hsr].
  { clear relayer. revert w Hts Htw Hne.
    induction Htxs as [|[sender c] txs Hc _ IH]; intros w Hts Htw Hne;
      [done|].
    cbn [run snd] in *. unfold exec.
    destruct (call sender c w) as [w'|e] eqn:Hcall; [|by apply IH].
    destruct (call_extends _ _ _ _ Hcall) as (Ha & Ht & Hd & _).
    destruct (call_allowances_frame _ _ _ _ Hts Htw Hne Hc Hcall)
      as [Hwr Hsr].
    destruct (IH w') as [IHw IHs]; [congruence ..|].
    split; [congruence|]. intros o s Hs.
    rewrite IHs by congruence. by apply Hsr. }
  split_and!; [done | done |].
  intros sender amount destination w' Hcall.
  by destruct (call_allowances sender (Source_lock amount destination) w w'
                 Hts Htw Hne eq_refl Hcall).
Qed.

Lemma bridges_and_allowances_witness :
  ERC20Mock._allowances
    (wrappedToken
       (run [(demo_user, Source_lock 100 demo_user);
             (demo_relayer, Dest_mintWrapped demo_user 100);
             (demo_user, Dest_burn 100 demo_user)] demo_funded))
  = ERC20Mock._allowances (wrappedToken demo_funded).
Proof.
  exact (proj1 (bridges_and_allowances demo_relayer
                  [(demo_user, Source_lock 100 demo_user);
                   (demo_relayer, Dest_mintWrapped demo_user 100);
                   (demo_user, Dest_burn 100 demo_user)] demo_funded
                  ltac:(by_evaluation) ltac:(by_evaluation))).
Defined.

(** ** The deployment of relayer.ts *)

Lemma deploy_explicit owner relayer a :
  addr_destBridge a <> address0 ->
  Relayer.deploy owner relayer a
  = Ok (set_wrappedToken
          (ERC20Mock.emit (OwnershipTransferred owner (addr_destBridge a))
             (ERC20Mock.set_owner (addr_destBridge a)
                (ERC20Mock.constructor owner "Wrapped Token" "WTK")))
          (Relayer.contracts owner relayer a)).
Proof.
  intros Hd. unfold Relayer.deploy. cbn [call onToken ERC20Mock.dispatch].
  unfold ERC20Mock.transferOwnership, Ownable.transferOwnership.
  cbn [Relayer.contracts wrappedToken ERC20Mock.constructor ERC20Mock._owner].
  rewrite checkOwner_self. cbn [bind]. by rewrite decide_False.
Qed.

(** X13. What relayer.ts deploys.  The deployment succeeds and leaves a wired
    system in which no token exists and no allowance is set; the deployer
    owns the source token and both bridges and, having handed the wrapped
    token to the destination bridge, can itself no longer mint or burn
    wrapped tokens: its [mint] and [burnFrom] revert with
    OwnableUnauthorizedAccount. *)
Theorem deployment_result (owner relayer : address) (a : Addresses) :
  distinct_addresses a ->
  owner <> addr_destBridge a ->
  exists w0,
    Relayer.deploy owner relayer a = Ok w0
    /\ addresses w0 = a
    /\ wired relayer w0
    /\ (forall x, ERC20Mock.balanceOf (sourceToken w0) x = 0
                  /\ ERC20Mock.balanceOf (wrappedToken w0) x = 0)
    /\ (forall o s, ERC20Mock.allowance (sourceToken w0) o s = 0
                    /\ ERC20Mock.allowance (wrappedToken w0) o s = 0)
    /\ ERC20Mock._totalSupply (sourceToken w0) = 0
    /\ ERC20Mock._totalSupply (wrappedToken w0) = 0
    /\ totalMinted w0 = 0 /\ totalLocked w0 = 0
    /\ ERC20Mock._owner (sourceToken w0) = owner
    /\ BridgeSourceChainStorage._owner (sourceBridge w0) = owner
    /\ BridgeDestinationChainStorage._owner (destBridge w0) = owner
    /\ (forall to amount,
           call owner (Token WrappedToken (ERC20Mock.Mint to amount)) w0
           = Revert (OwnableUnauthorizedAccount owner))
    /\ (forall from amount,
           call owner (Token WrappedToken (ERC20Mock.BurnFrom from amount)) w0
           = Revert (OwnableUnauthorizedAccount owner)).
Proof.
  intros Hd Ho.
  assert (addr_destBridge a <> address0) as Hd0.
  { unfold distinct_addresses in Hd. apply NoDup_cons in Hd as (H0 & _).
    rewrite !not_elem_of_cons in H0. by destruct H0 as (_ & _ & _ & ? & _). }
  eexists. split; [by apply deploy_explicit|].
  split_and!; try reflexivity.
  - eapply deploy_wired; [done | by apply deploy_explicit].
  - intros x. unfold ERC20Mock.balanceOf. cbn. by rewrite lookup_empty.
  - intros o s. unfold ERC20Mock.allowance. cbn. by rewrite lookup_empty.
  - intros to amount. cbn [call onToken ERC20Mock.dispatch bind].
    by rewrite mint_not_owner.
  - intros from amount. cbn [call onToken ERC20Mock.dispatch bind].
    by rewrite burnFrom_not_owner.
Qed.

Lemma deployment_result_witness :
  exists w0,
    Relayer.deploy demo_owner demo_relayer demo_addresses = Ok w0
    /\ wired demo_relayer w0.
Proof.
  destruct (deployment_result demo_owner demo_relayer demo_addresses
              ltac:(by_evaluation) ltac:(vm_compute; discriminate))
    as (w0 & Hdep & _ & Hw & _).
  by exists w0.
Defined.

(** ** user-simulation.ts *)

Arguments UserSimulation.amount : simpl never.

Lemma amount_bounds : 0 < UserSimulation.amount < MAX_UINT256.
Proof. by vm_compute. Qed.

Lemma approve_source_call sender spender value w :
  sender <> address0 -> spender <> address0 ->
  call sender (Token SourceToken (ERC20Mock.Approve spender value)) w
  = Ok (set_sourceToken
          (ERC20Mock.emit (Approval sender spender value)
             (ERC20Mock.set_allowance sender spender value (sourceToken w)))
          w).
Proof.
  intros Hs Hp. cbn [call onToken ERC20Mock.dispatch].
  by rewrite approve_explicit.
Qed.

Lemma approve_wrapped_call sender spender value w :
  sender <> address0 -> spender <> address0 ->
  call sender (Token WrappedToken (ERC20Mock.Approve spender value)) w
  = Ok (set_wrappedToken
          (ERC20Mock.emit (Approval sender spender value)
             (ERC20Mock.set_allowance sender spender value (wrappedToken w)))
          w).
Proof.
  intros Hs Hp. cbn [call onToken ERC20Mock.dispatch].
  by rewrite approve_explicit.
Qed.

Lemma allowance_set_allowance owner spender value t :
  ERC20Mock.allowance (ERC20Mock.set_allowance owner spender value t)
                      owner spender = value.
Proof.
  unfold ERC20Mock.allowance, ERC20Mock.set_allowance. cbn.
  by rewrite lookup_insert_eq.
Qed.

Lemma send_all_Ok sender c rest w w' :
  call sender c w = Ok w' ->
  UserSimulation.send_all ((sender, c) :: rest) w
  = UserSimulation.send_all rest w'.
Proof. cbn [UserSimulation.send_all]. by intros ->. Qed.

Lemma send_all_Revert sender c rest w e :
  call sender c w = Revert e ->
  UserSimulation.send_all ((sender, c) :: rest) w = UserSimulation.Threw e w.
Proof. cbn [UserSimulation.send_all]. by intros ->. Qed.

(** Steps 4 to 6 of the script. *)
Lemma steps_4_to_6_spec relayer owner user w :
  wired relayer w -> ERC20_wf (sourceToken w) ->
  ERC20Mock._owner (sourceToken w) = owner ->
  user <> address0 -> user <> addr_sourceBridge (addresses w) ->
  ERC20Mock._totalSupply (sourceToken w) + UserSimulation.amount
  <= MAX_UINT256 ->
  exists ts,
    UserSimulation.send_all
      (UserSimulation.steps_4_to_6 owner user (addresses w)) w
    = UserSimulation.Finished
        (BridgeSourceChain.emit
           (TokenLocked user UserSimulation.amount user)
           (set_sourceToken ts w))
    /\ ERC20_wf ts
    /\ ERC20Mock._totalSupply ts
       = ERC20Mock._totalSupply (sourceToken w) + UserSimulation.amount
    /\ (forall x, ERC20Mock.balanceOf ts x
                  = ERC20Mock.balanceOf (sourceToken w) x
                    + if decide (x = addr_sourceBridge (addresses w))
                      then UserSimulation.amount else 0)
    /\ ERC20Mock.allowance ts user (addr_sourceBridge (addresses w)) = 0.
Proof.
  intros Hw Hwf <- HU HUb Hsup.
  pose proof amount_bounds as Ham.
  pose proof (wired_addresses _ _ Hw) as (_ & _ & Hb0 & _ & Hne).
  destruct (mint_spec user UserSimulation.amount (sourceToken w))
    as (t1 & Hmint & Hwf1 & _ & Hsup1 & _ & Hb1 & Hx1); try done; try lia.
  set (t2 := ERC20Mock.emit
               (Approval user (addr_sourceBridge (addresses w))
                         UserSimulation.amount)
               (ERC20Mock.set_allowance user (addr_sourceBridge (addresses w))
                  UserSimulation.amount t1)).
  assert (ERC20_wf t2) as Hwf2 by (by apply (wf_same_balances t1)).
  assert (forall x, ERC20Mock.balanceOf t2 x = ERC20Mock.balanceOf t1 x)
    as Hb2 by done.
  assert (ERC20Mock.allowance t2 user (addr_sourceBridge (addresses w))
          = UserSimulation.amount) as Hall2
    by apply allowance_set_allowance.
  pose proof (balanceOf_nonneg _ user Hwf) as Hnn.
  assert (wired relayer (set_sourceToken t2 w)) as Hw2 by done.
  destruct (lock_spec relayer (set_sourceToken t2 w) user
              UserSimulation.amount user Hw2 Hwf2 HU HUb)
    as (ts & Hlock & Hwfs & Hsups & HbU & Hbb & Hbx).
  { cbn [sourceToken set_sourceToken]. rewrite Hb2, Hb1. lia. }
  { cbn [sourceToken set_sourceToken addresses]. rewrite Hall2. lia. }
  cbn [sourceToken set_sourceToken addresses] in *.
  exists ts. split_and!; try done.
  - unfold UserSimulation.steps_4_to_6.
    rewrite (send_all_Ok _ _ _ _ (set_sourceToken t1 w))
      by (cbn [call onToken ERC20Mock.dispatch]; by rewrite Hmint).
    rewrite (send_all_Ok _ _ _ _ (set_sourceToken t2 w))
      by (by rewrite approve_source_call).
    by rewrite (send_all_Ok _ _ _ _ _ Hlock).
  - by rewrite Hsups.
  - intros x. destruct (decide (x = addr_sourceBridge (addresses w))) as [->|].
    + rewrite Hbb, Hb2, Hx1 by congruence. done.
    + destruct (decide (x = user)) as [->|].
      * rewrite HbU, Hb2, Hb1. lia.
      * rewrite Hbx, Hb2, Hx1 by done. lia.
  - destruct (call_allowances user
                (Source_lock UserSimulation.amount user)
                (set_sourceToken t2 w) _
                (proj1 (proj2 Hw2)) (proj1 (proj2 (proj2 Hw2))) Hne eq_refl
                Hlock) as [_ Hal].
    cbn [sourceToken set_sourceToken addresses BridgeSourceChain.emit
         set_sourceBridge] in Hal.
    unfold ERC20Mock.allowance at 1. rewrite Hal. unfold spent.
    rewrite Hall2, decide_True by lia.
    fold (ERC20Mock.allowance
            (ERC20Mock.set_allowance user (addr_sourceBridge (addresses w))
               (UserSimulation.amount - UserSimulation.amount) t2)
            user (addr_sourceBridge (addresses w))).
    rewrite allowance_set_allowance. lia.
Qed.

(** X14. user-simulation.ts with no relayer at work, on a wired deployment
    whose source token keeps its books and is owned by signer 0, for a user
    other than the zero address and the source bridge who holds fewer than
    100 wrapped tokens, when nothing happens during the five seconds the
    script waits.  The script never reaches its end.  When the source supply
    has no room for 100 more tokens, the [mint] of step 4 reverts with
    Panic(0x11), [main] throws and nothing is mined.  Otherwise the [burn] of
    step 9 reverts with ERC20InsufficientBalance and [main] throws; by then
    the mint, the approval and the lock of steps 4 to 6 are mined: the source
    bridge holds 100 source tokens more, the TokenLocked event of the lock is
    the only event logged for the listeners, no wrapped token was minted, and
    the approval of step 8 stays on the wrapped token. *)
Theorem simulation_without_relayer
    (relayer owner user : address) (w : World) :
  wired relayer w -> ERC20_wf (sourceToken w) ->
  ERC20Mock._owner (sourceToken w) = owner ->
  user <> address0 -> user <> addr_sourceBridge (addresses w) ->
  ERC20Mock.balanceOf (wrappedToken w) user < UserSimulation.amount ->
  (MAX_UINT256
   < ERC20Mock._totalSupply (sourceToken w) + UserSimulation.amount ->
   UserSimulation.main true owner user (fun w1 => w1) w
   = UserSimulation.Threw (Panic 17) w)
  /\ (ERC20Mock._totalSupply (sourceToken w) + UserSimulation.amount
      <= MAX_UINT256 ->
      exists w',
        UserSimulation.main true owner user (fun w1 => w1) w
        = UserSimulation.Threw
            (ERC20InsufficientBalance user
               (ERC20Mock.balanceOf (wrappedToken w) user)
               UserSimulation.amount)
            w'
        /\ filter subscribed (newly_emitted w w')
           = [TokenLocked user UserSimulation.amount user]
        /\ (forall x, ERC20Mock.balanceOf (sourceToken w') x
                      = ERC20Mock.balanceOf (sourceToken w) x
                        + if decide (x = addr_sourceBridge (addresses w))
                          then UserSimulation.amount else 0)
        /\ (forall x, ERC20Mock.balanceOf (wrappedToken w') x
                      = ERC20Mock.balanceOf (wrappedToken w) x)
        /\ totalMinted w' = totalMinted w
        /\ ERC20Mock.allowance (wrappedToken w') user
                               (addr_destBridge (addresses w))
           = UserSimulation.amount).
Proof.
  intros Hw Hwf Hown HU HUb Hbal.
  pose proof amount_bounds as Ham.
  pose proof (wired_addresses _ _ Hw) as (_ & _ & _ & Hd0 & Hne).
  split.
  { intros Hover. unfold UserSimulation.main, UserSimulation.steps_4_to_6.
    rewrite (send_all_Revert _ _ _ _ (Panic 17)); [done|].
    subst owner. cbn [call onToken ERC20Mock.dispatch].
    unfold ERC20Mock.mint, ERC20Mock._mint, ERC20Mock._update.
    rewrite checkOwner_self. cbn [bind].
    rewrite (decide_False (P := user = address0)) by done.
    rewrite (decide_True (P := address0 = address0)) by done.
    rewrite decide_False by lia. reflexivity. }
  intros Hsup.
  destruct (steps_4_to_6_spec relayer owner user w Hw Hwf Hown HU HUb Hsup)
    as (ts & Hsteps & _ & _ & Hbs & _).
  destruct Hw as (_ & _ & Htw & Howner & _).
  set (w1 := BridgeSourceChain.emit
               (TokenLocked user UserSimulation.amount user)
               (set_sourceToken ts w)) in *.
  set (t3 := ERC20Mock.emit
               (Approval user (addr_destBridge (addresses w))
                         UserSimulation.amount)
               (ERC20Mock.set_allowance user (addr_destBridge (addresses w))
                  UserSimulation.amount (wrappedToken w))).
  exists (set_wrappedToken t3 w1). split_and!; try done.
  - unfold UserSimulation.main. rewrite Hsteps.
    unfold UserSimulation.steps_8_to_9.
    rewrite (send_all_Ok _ _ _ _ (set_wrappedToken t3 w1))
      by (by rewrite approve_wrapped_call).
    apply send_all_Revert.
    rewrite burn_unfold by (done || lia).
    change (wrappedToken (set_wrappedToken t3 w1)) with t3.
    change (addr_destBridge (addresses (set_wrappedToken t3 w1)))
      with (addr_destBridge (addresses w)).
    rewrite <- Howner. change (ERC20Mock._owner (wrappedToken w))
      with (ERC20Mock._owner t3).
    by rewrite burnFrom_owner_insufficient.
  - unfold newly_emitted, w1. cbn. by rewrite emitted_app, emitted_same.
  - rewrite totalMinted_set_wrappedToken.
    rewrite (minted_log_append (wrappedToken w) t3
               [Approval user (addr_destBridge (addresses w))
                         UserSimulation.amount]) by done.
    unfold totalMinted. cbn. lia.
  - apply allowance_set_allowance.
Qed.

Lemma simulation_without_relayer_witness :
  (let crowded :=
     exec demo_owner
          (Token SourceToken (ERC20Mock.Mint demo_other (MAX_UINT256 - 5)))
          demo_world in
   UserSimulation.main true demo_owner demo_user (fun w1 => w1) crowded
   = UserSimulation.Threw (Panic 17) crowded)
  /\ exists e w',
      UserSimulation.main true demo_owner demo_user (fun w1 => w1) demo_world
      = UserSimulation.Threw e w'
      /\ totalMinted w' = totalMinted demo_world.
Proof.
  split.
  - exact (proj1 (simulation_without_relayer demo_relayer demo_owner demo_user
                    (exec demo_owner
                          (Token SourceToken
                                 (ERC20Mock.Mint demo_other (MAX_UINT256 - 5)))
                          demo_world)
                    ltac:(by_evaluation) ltac:(by_evaluation) eq_refl
                    ltac:(vm_compute; discriminate)
                    ltac:(vm_compute; discriminate) eq_refl) eq_refl).
  - destruct (proj2 (simulation_without_relayer demo_relayer demo_owner
                       demo_user demo_world
                       ltac:(by_evaluation) ltac:(by_evaluation) eq_refl
                       ltac:(vm_compute; discriminate)
                       ltac:(vm_compute; discriminate) eq_refl)
                ltac:(vm_compute; discriminate))
      as (w' & Hmain & _ & _ & _ & Hminted & _).
    eexists _, w'. split; [exact Hmain | exact Hminted].
Defined.

(** X15. user-simulation.ts with the relayer at work.  When the listener of
    relayer.ts relays the lock while the script waits, [main] runs to its
    end, and once the listener has also relayed the burn the user holds the
    100 source tokens the owner minted for it, the source bridge holds what
    it held before, and every wrapped balance and the wrapped supply are back
    where they were.  Two approvals are left behind with different fates:
    the one for the source bridge is used up by [lock], the one for the
    destination bridge is still in full on the wrapped token, because [burn]
    never consumes it. *)
Theorem simulation_round_trip
    (relayer owner user : address) (w : World) (b t i b' t' i' : Z) :
  wired relayer w ->
  ERC20_wf (sourceToken w) -> ERC20_wf (wrappedToken w) ->
  ERC20Mock._owner (sourceToken w) = owner ->
  user <> address0 -> user <> addr_sourceBridge (addresses w) ->
  ERC20Mock._totalSupply (sourceToken w) + UserSimulation.amount
  <= MAX_UINT256 ->
  ERC20Mock._totalSupply (wrappedToken w) + UserSimulation.amount
  <= MAX_UINT256 ->
  exists w4 w5,
    UserSimulation.main true owner user (relay_the_lock relayer user b t i) w
    = UserSimulation.Finished w4
    /\ filter subscribed (newly_emitted w w4)
       = [TokenLocked user UserSimulation.amount user;
          TokenBurned user UserSimulation.amount user]
    /\ fst (Relayer.react relayer
              (Relayer.Burned
                 (Relayer.mkPayload (user, UserSimulation.amount, user)
                                    b' t' i')) w4) = w5
    /\ (forall x, ERC20Mock.balanceOf (sourceToken w5) x
                  = ERC20Mock.balanceOf (sourceToken w) x
                    + if decide (x = user) then UserSimulation.amount else 0)
    /\ (forall x, ERC20Mock.balanceOf (wrappedToken w5) x
                  = ERC20Mock.balanceOf (wrappedToken w) x)
    /\ ERC20Mock._totalSupply (sourceToken w5)
       = ERC20Mock._totalSupply (sourceToken w) + UserSimulation.amount
    /\ ERC20Mock._totalSupply (wrappedToken w5)
       = ERC20Mock._totalSupply (wrappedToken w)
    /\ ERC20Mock.allowance (sourceToken w5) user
                           (addr_sourceBridge (addresses w)) = 0
    /\ ERC20Mock.allowance (wrappedToken w5) user
                           (addr_destBridge (addresses w))
       = UserSimulation.amount.
Proof.
  intros Hw Hwfs Hwfw Hown HU HUb Hsups Hsupw.
  pose proof amount_bounds as Ham.
  pose proof (wired_addresses _ _ Hw) as (_ & _ & _ & Hd0 & Hne).
  destruct (steps_4_to_6_spec relayer owner user w Hw Hwfs Hown HU HUb Hsups)
    as (ts & Hsteps & Hwfts & Hsupts & Hbs & Halls).
  set (w1 := BridgeSourceChain.emit
               (TokenLocked user UserSimulation.amount user)
               (set_sourceToken ts w)) in *.
  assert (wired relayer w1) as Hw1 by done.
  (* the listener mints while the script waits *)
  destruct (mintWrapped_spec relayer w1 user UserSimulation.amount
              Hw1 Hwfw HU (proj1 Ham) Hsupw)
    as (tm & Hmint & Hwftm & Hownm & Hsuptm & _ & HbmU & Hbmx).
  set (w2 := set_wrappedToken tm w1) in *.
  assert (relay_the_lock relayer user b t i w1 = w2) as Hwait.
  { unfold relay_the_lock.
    apply (react_Ok relayer
             (Relayer.Locked
                (Relayer.mkPayload (user, UserSimulation.amount, user) b t i))
             w1 w2 Hmint). }
  (* step 8 *)
  set (t3 := ERC20Mock.emit
               (Approval user (addr_destBridge (addresses w))
                         UserSimulation.amount)
               (ERC20Mock.set_allowance user (addr_destBridge (addresses w))
                  UserSimulation.amount tm)).
  set (w3 := set_wrappedToken t3 w2).
  assert (ERC20_wf t3) as Hwft3 by (by apply (wf_same_balances tm)).
  assert (wired relayer w3) as Hw3.
  { destruct Hw as (? & ? & ? & Ho & ? & ?). split_and!; try done.
    change (ERC20Mock._owner tm = addr_destBridge (addresses w)).
    rewrite Hownm. exact Ho. }
  pose proof (balanceOf_nonneg _ user Hwfw) as Hnn.
  (* step 9 *)
  destruct (burn_spec relayer w3 user UserSimulation.amount user Hw3 Hwft3 HU)
    as (tb & Hburn & Hwftb & Hownb & Hsuptb & _ & HbbU & Hbbx).
  { change (ERC20Mock.balanceOf (wrappedToken w3) user)
      with (ERC20Mock.balanceOf tm user). rewrite HbmU.
    change (wrappedToken w1) with (wrappedToken w). lia. }
  set (w4 := BridgeDestinationChain.emit
               (TokenBurned user UserSimulation.amount user)
               (set_wrappedToken tb w3)) in *.
  assert (wired relayer w4) as Hw4.
  { destruct Hw3 as (? & ? & ? & Ho & ? & ?). split_and!; try done.
    change (ERC20Mock._owner tb = addr_destBridge (addresses w)).
    rewrite Hownb. exact Ho. }
  (* the listener releases *)
  pose proof (balanceOf_nonneg _ (addr_sourceBridge (addresses w)) Hwfs)
    as Hnnb.
  destruct (release_spec relayer w4 user UserSimulation.amount Hw4 Hwfts HU HUb)
    as (tr & Hrel & Hwftr & Hsuptr & Hbrb & HbrU & Hbrx).
  { change (ERC20Mock.balanceOf (sourceToken w4)
              (addr_sourceBridge (addresses w4)))
      with (ERC20Mock.balanceOf ts (addr_sourceBridge (addresses w))).
    rewrite Hbs, decide_True by done. lia. }
  set (w5 := set_sourceToken tr w4) in *.
  exists w4, w5.
  change (addresses w4) with (addresses w) in *.
  change (sourceToken w4) with ts in *.
  change (wrappedToken w3) with t3 in *.
  change (wrappedToken w1) with (wrappedToken w) in *.
  split_and!.
  - unfold UserSimulation.main. rewrite Hsteps, Hwait.
    unfold UserSimulation.steps_8_to_9.
    rewrite (send_all_Ok _ _ _ _ w3) by (by rewrite approve_wrapped_call).
    by rewrite (send_all_Ok _ _ _ _ _ Hburn).
  - unfold newly_emitted, w4, w3, w2, w1. cbn.
    by rewrite !emitted_app.
  - apply (react_Ok relayer
             (Relayer.Burned
                (Relayer.mkPayload (user, UserSimulation.amount, user)
                                   b' t' i')) w4 w5 Hrel).
  - intros x. change (sourceToken w5) with tr.
    destruct (decide (x = user)) as [->|].
    + rewrite HbrU, Hbs, decide_False by done. lia.
    + destruct (decide (x = addr_sourceBridge (addresses w))) as [->|].
      * rewrite Hbrb, Hbs, decide_True by done. lia.
      * rewrite Hbrx, Hbs, decide_False by done. lia.
  - intros x. change (wrappedToken w5) with tb.
    destruct (decide (x = user)) as [->|].
    + rewrite HbbU. change (ERC20Mock.balanceOf t3 user)
        with (ERC20Mock.balanceOf tm user). rewrite HbmU. lia.
    + rewrite Hbbx by done. change (ERC20Mock.balanceOf t3 x)
        with (ERC20Mock.balanceOf tm x). by rewrite Hbmx.
  - change (sourceToken w5) with tr. by rewrite Hsuptr.
  - change (wrappedToken w5) with tb. rewrite Hsuptb.
    change (ERC20Mock._totalSupply t3) with (ERC20Mock._totalSupply tm).
    rewrite Hsuptm. lia.
  - destruct (call_allowances relayer
                (Source_release user UserSimulation.amount) w4 w5
                (proj1 (proj2 Hw4)) (proj1 (proj2 (proj2 Hw4))) Hne eq_refl
                Hrel) as [_ Hal].
    unfold ERC20Mock.allowance in *. by rewrite Hal.
  - destruct (call_allowances user
                (Dest_burn UserSimulation.amount user) w3 w4
                (proj1 (proj2 Hw3)) (proj1 (proj2 (proj2 Hw3))) Hne eq_refl
                Hburn) as [Hal _].
    change (wrappedToken w5) with (wrappedToken w4).
    unfold ERC20Mock.allowance at 1. rewrite Hal.
    apply allowance_set_allowance.
Qed.

Lemma simulation_round_trip_witness :
  exists w4 w5,
    UserSimulation.main true demo_owner demo_user
      (relay_the_lock demo_relayer demo_user 7 0 0) demo_world
    = UserSimulation.Finished w4
    /\ fst (Relayer.react demo_relayer
              (Relayer.Burned
                 (Relayer.mkPayload (demo_user, UserSimulation.amount,
                                     demo_user) 9 0 0)) w4) = w5
    /\ ERC20Mock.balanceOf (sourceToken w5) demo_user
       = ERC20Mock.balanceOf (sourceToken demo_world) demo_user
         + if decide (demo_user = demo_user) then UserSimulation.amount else 0.
Proof.
  destruct (simulation_round_trip demo_relayer demo_owner demo_user
              demo_world 7 0 0 9 0 0
              ltac:(by_evaluation) ltac:(by_evaluation) ltac:(by_evaluation)
              eq_refl
              ltac:(vm_compute; discriminate) ltac:(vm_compute; discriminate)
              ltac:(vm_compute; discriminate) ltac:(vm_compute; discriminate))
    as (w4 & w5 & Hmain & _ & Hreact & Hbal & _).
  exists w4, w5. split_and!; [exact Hmain | exact Hreact | exact (Hbal _)].
Defined.

(** ** The configuration of a bridge *)

Ltac token_step H :=
  apply callToken_Ok in H as [(?t & _ & ->)|(?t & _ & ->)].

Lemma call_configuration sender c w w' :
  call sender c w = Ok w' ->
  (sender <> BridgeSourceChainStorage._owner (sourceBridge w) ->
   BridgeSourceChainStorage.relayer (sourceBridge w')
   = BridgeSourceChainStorage.relayer (sourceBridge w)
   /\ BridgeSourceChainStorage._owner (sourceBridge w')
      = BridgeSourceChainStorage._owner (sourceBridge w))
  /\ (sender <> BridgeDestinationChainStorage._owner (destBridge w) ->
      BridgeDestinationChainStorage.relayer (destBridge w')
      = BridgeDestinationChainStorage.relayer (destBridge w)
      /\ BridgeDestinationChainStorage._owner (destBridge w')
         = BridgeDestinationChainStorage._owner (destBridge w)).
Proof.
  intros H.
  destruct c as [tk tc|amount destination|user amount|newRelayer|newOwner|
                 |user amount|amount destination|newRelayer|newOwner|];
    cbn [call] in H.
  - destruct tk; cbn [onToken] in H; apply bind_Ok in H as (t & _ & H);
      by injection H as <-.
  - unfold BridgeSourceChain.lock in H.
    apply bind_Ok in H as ([] & _ & H).
    apply bind_Ok in H as (w1 & H1 & H). injection H as <-.
    by token_step H1.
  - unfold BridgeSourceChain.release in H.
    apply bind_Ok in H as ([] & _ & H).
    apply bind_Ok in H as ([] & _ & H).
    by token_step H.
  - unfold BridgeSourceChain.setRelayer in H.
    apply bind_Ok in H as ([] & Ho & H). injection H as <-.
    apply checkOwner_Ok in Ho. by split.
  - unfold BridgeSourceChain.transferOwnership in H.
    apply bind_Ok in H as (r & Hr & H). injection H as <-.
    apply Ownable_transferOwnership_Ok in Hr as (-> & _). by split.
  - unfold BridgeSourceChain.renounceOwnership in H.
    apply bind_Ok in H as (r & Hr & H). injection H as <-.
    apply Ownable_renounceOwnership_Ok in Hr as (-> & _). by split.
  - unfold BridgeDestinationChain.mintWrapped in H.
    apply bind_Ok in H as ([] & _ & H).
    apply bind_Ok in H as ([] & _ & H).
    by token_step H.
  - unfold BridgeDestinationChain.burn in H.
    apply bind_Ok in H as ([] & _ & H).
    apply bind_Ok in H as (w1 & H1 & H). injection H as <-.
    by token_step H1.
  - unfold BridgeDestinationChain.setRelayer in H.
    apply bind_Ok in H as ([] & Ho & H). injection H as <-.
    apply checkOwner_Ok in Ho. by split.
  - unfold BridgeDestinationChain.transferOwnership in H.
    apply bind_Ok in H as (r & Hr & H). injection H as <-.
    apply Ownable_transferOwnership_Ok in Hr as (-> & _). by split.
  - unfold BridgeDestinationChain.renounceOwnership in H.
    apply bind_Ok in H as (r & Hr & H). injection H as <-.
    apply Ownable_renounceOwnership_Ok in Hr as (-> & _). by split.
Qed.

(** X16. The relayer and the owner of a bridge are in the hands of its owner
    alone.  Through any sequence of transactions none of which is sent by the
    owner of a bridge, to whichever contract and whether they succeed or
    revert, that bridge keeps its relayer and its owner: locks, releases,
    mints, burns, token calls and calls to the other bridge never touch
    them. *)
Theorem bridge_configuration_is_the_owners
    (txs : list (address * Call)) (w : World) :
  (Forall (fun tx => fst tx <> BridgeSourceChainStorage._owner (sourceBridge w))
          txs ->
   BridgeSourceChainStorage.relayer (sourceBridge (run txs w))
   = BridgeSourceChainStorage.relayer (sourceBridge w)
   /\ BridgeSourceChainStorage._owner (sourceBridge (run txs w))
      = BridgeSourceChainStorage._owner (sourceBridge w))
  /\ (Forall (fun tx =>
                fst tx <> BridgeDestinationChainStorage._owner (destBridge w))
             txs ->
      BridgeDestinationChainStorage.relayer (destBridge (run txs w))
      = BridgeDestinationChainStorage.relayer (destBridge w)
      /\ BridgeDestinationChainStorage._owner (destBridge (run txs w))
         = BridgeDestinationChainStorage._owner (destBridge w)).
Proof.
  split; revert w.
  - induction txs as [|[sender c] txs IH]; intros w Htxs; [done|].
    apply Forall_cons in Htxs as [Hs Htxs]. cbn [run fst] in *.
    unfold exec. destruct (call sender c w) as [w'|e] eqn:Hcall;
      [|by apply IH].
    destruct (call_configuration _ _ _ _ Hcall) as [Hsrc _].
    destruct (Hsrc Hs) as [Hr Ho].
    destruct (IH w') as [IHr IHo]; [by rewrite Ho|]. split; congruence.
  - induction txs as [|[sender c] txs IH]; intros w Htxs; [done|].
    apply Forall_cons in Htxs as [Hs Htxs]. cbn [run fst] in *.
    unfold exec. destruct (call sender c w) as [w'|e] eqn:Hcall;
      [|by apply IH].
    destruct (call_configuration _ _ _ _ Hcall) as [_ Hdst].
    destruct (Hdst Hs) as [Hr Ho].
    destruct (IH w') as [IHr IHo]; [by rewrite Ho|]. split; congruence.
Qed.

Lemma bridge_configuration_is_the_owners_witness :
  BridgeSourceChainStorage.relayer
    (sourceBridge
       (run [(demo_relayer, Source_setRelayer demo_other);
             (demo_user, Source_transferOwnership demo_user);
             (demo_user, Source_lock 100 demo_user);
             (demo_other, Source_renounceOwnership)] demo_funded))
  = BridgeSourceChainStorage.relayer (sourceBridge demo_funded).
Proof.
  exact (proj1 (proj1 (bridge_configuration_is_the_owners
                          [(demo_relayer, Source_setRelayer demo_other);
                           (demo_user, Source_transferOwnership demo_user);
                           (demo_user, Source_lock 100 demo_user);
                           (demo_other, Source_renounceOwnership)]
                          demo_funded) ltac:(by_evaluation))).
Defined.
